(** * LOB event extractor: a shallow embedding of [extractor.py]

    The Python module keeps a two-sided limit order book (two [dict]s from
    price to volume, with cached sorted price lists), replays snapshot and
    delta messages against it and classifies every delta row into a market
    event.  Prices and volumes are Python [float]s, i.e. IEEE 754 binary64
    numbers; they are embedded as Rocq's primitive [float]s so that the model
    computes exactly what the interpreter computes. *)

From Stdlib Require Import String.
From Stdlib Require Import List ZArith Lia Bool.
From Stdlib Require Import Sorted Permutation.
From Stdlib Require Import Floats.
From Corelib Require Import SpecFloat.
Import ListNotations.

Local Open Scope Z_scope.

(** ** Python float operations *)

Module Py.

(** [a == b], [a != b], [a > b], [a < b], [a >= b], [a <= b] on floats. *)
Definition eq (a b : float) : bool := (a =? b)%float.
Definition ne (a b : float) : bool := negb (a =? b)%float.
Definition gt (a b : float) : bool := (b <? a)%float.
Definition lt (a b : float) : bool := (a <? b)%float.
Definition ge (a b : float) : bool := (b <=? a)%float.
Definition le (a b : float) : bool := (a <=? b)%float.

(** [float("nan")]. *)
Definition nan : float := PrimFloat.nan.

(** [math.isnan] on a float. *)
Definition isnan (x : float) : bool := PrimFloat.is_nan x.

(** [math.isclose(a, b)] with the default [rel_tol=1e-09] and
    [abs_tol=0.0], as CPython's [mathmodule.c] computes it. *)
Definition rel_tol : float := 0x1.12e0be826d695p-30%float.
Definition abs_tol : float := 0%float.

Definition isclose (a b : float) : bool :=
  if (a =? b)%float then true
  else if PrimFloat.is_infinity a || PrimFloat.is_infinity b then false
  else
    let diff := PrimFloat.abs (b - a)%float in
    (diff <=? PrimFloat.abs (rel_tol * b))%float
    || (diff <=? PrimFloat.abs (rel_tol * a))%float
    || (diff <=? abs_tol)%float.

(** The exceptions the drivers can raise. *)
Inductive exn : Set :=
  TypeError | KeyError | AttributeError | ValueError | OverflowError.

End Py.

(** ** A [dict] keyed by floats

    A Python [dict] keeps its entries in insertion order and identifies keys
    by [==] (after hashing; [0.0] and [-0.0] hash alike).  Assigning to a key
    that is present overwrites the value in place, assigning to a new key
    appends an entry.  A NaN key is [==] to nothing, itself included: Python
    finds it again only through the identity of the float object, which the
    model does not track, so the facts below that read a written level back
    ask for a price that is not NaN. *)

Definition dict : Type := list (float * float).

(** [d.get(k, dflt)] *)
Fixpoint dict_get (d : dict) (k dflt : float) : float :=
  match d with
  | [] => dflt
  | (k', v) :: d' => if Py.eq k' k then v else dict_get d' k dflt
  end.

(** [d[k] = v] *)
Fixpoint dict_set (d : dict) (k v : float) : dict :=
  match d with
  | [] => [(k, v)]
  | (k', v') :: d' =>
      if Py.eq k' k then (k', v) :: d' else (k', v') :: dict_set d' k v
  end.

(** [d.pop(k, None)] *)
Fixpoint dict_pop (d : dict) (k : float) : dict :=
  match d with
  | [] => []
  | (k', v') :: d' =>
      if Py.eq k' k then d' else (k', v') :: dict_pop d' k
  end.

(** [d.keys()] *)
Definition dict_keys (d : dict) : list float := map fst d.

(** [k in d] *)
Definition dict_mem (d : dict) (k : float) : bool :=
  existsb (fun k' => Py.eq k' k) (dict_keys d).

(** [{float(p): float(v) for p, v in rows}] *)
Definition dict_of_rows (rows : list (float * float)) : dict :=
  fold_left (fun d row => dict_set d (fst row) (snd row)) rows [].

(** ** [sorted], [min] and [max] over float keys

    [sorted] is stable and compares with [<] only; on keys that [<] orders
    totally (no NaN among them) every such sort returns the same list, the
    one the insertion sorts below return.  With a NaN among the keys the
    result depends on the comparisons the algorithm happens to make; the
    model then gives the order of the insertion sort. *)

(** [sorted(xs)]: a stable sort that compares with [<] only.  An item goes
    behind the items that are [<] it and before the first one that is not. *)
Fixpoint insert_asc (x : float) (xs : list float) : list float :=
  match xs with
  | [] => [x]
  | y :: ys => if Py.lt y x then y :: insert_asc x ys else x :: y :: ys
  end.

Definition sorted (xs : list float) : list float :=
  fold_right insert_asc [] xs.

(** [sorted(xs, reverse=True)]: the stable sort in descending order.  An item
    goes behind the items it is [<] and before the first one it is not. *)
Fixpoint insert_desc (x : float) (xs : list float) : list float :=
  match xs with
  | [] => [x]
  | y :: ys => if Py.lt x y then y :: insert_desc x ys else x :: y :: ys
  end.

Definition sorted_reverse (xs : list float) : list float :=
  fold_right insert_desc [] xs.

(** [max(xs)] and [min(xs)] on a non-empty sequence: the running best is
    replaced only by a strictly better item. *)
Definition py_max (x : float) (xs : list float) : float :=
  fold_left (fun best y => if Py.gt y best then y else best) xs x.

Definition py_min (x : float) (xs : list float) : float :=
  fold_left (fun best y => if Py.lt y best then y else best) xs x.

(** ** Events and the extractor state *)

Record LOBEvent : Type := mkLOBEvent {
  action : string;
  price : float;
  volume : float;
  depth : Z;
  index : Z;
  mid_price : float;
  previous_vol : float;
  volume_change_normalized : float
}.

Record LOBEventExtractor : Type := mkExtractor {
  max_depth : Z;
  asks : dict;
  bids : dict;
  _sorted_asks : option (list float);
  _sorted_bids : option (list float);
  last_mid_price : option float
}.

(** [LOBEventExtractor(max_depth=n)] *)
Definition init (n : Z) : LOBEventExtractor :=
  mkExtractor n [] [] None None None.

Definition default_max_depth : Z := 50.

Definition with_asks (self : LOBEventExtractor) (d : dict) :=
  mkExtractor (max_depth self) d (bids self)
              (_sorted_asks self) (_sorted_bids self) (last_mid_price self).

Definition with_bids (self : LOBEventExtractor) (d : dict) :=
  mkExtractor (max_depth self) (asks self) d
              (_sorted_asks self) (_sorted_bids self) (last_mid_price self).

Definition with_last_mid_price (self : LOBEventExtractor) (m : option float) :=
  mkExtractor (max_depth self) (asks self) (bids self)
              (_sorted_asks self) (_sorted_bids self) m.

Definition _invalidate_sorted (self : LOBEventExtractor) : LOBEventExtractor :=
  mkExtractor (max_depth self) (asks self) (bids self)
              None None (last_mid_price self).

Definition _ensure_sorted (self : LOBEventExtractor) : LOBEventExtractor :=
  let sa := match _sorted_asks self with
            | None => sorted (dict_keys (asks self))
            | Some l => l
            end in
  let sb := match _sorted_bids self with
            | None => sorted_reverse (dict_keys (bids self))
            | Some l => l
            end in
  mkExtractor (max_depth self) (asks self) (bids self)
              (Some sa) (Some sb) (last_mid_price self).

Definition _mid_price (self : LOBEventExtractor) : float :=
  match dict_keys (bids self), dict_keys (asks self) with
  | b :: bs, a :: as_ =>
      let best_bid := py_max b bs in
      let best_ask := py_min a as_ in
      ((best_bid + best_ask) / 2)%float
  | _, _ => Py.nan
  end.

Definition process_snapshot (self : LOBEventExtractor)
    (asks_rows bids_rows : list (float * float)) : LOBEventExtractor :=
  let self := with_asks self (dict_of_rows asks_rows) in
  let self := with_bids self (dict_of_rows bids_rows) in
  _invalidate_sorted self.

(** The [side] argument of [_depth_of_price]; [process_delta] passes the
    strings ["ask"] and ["bid"] only. *)
Inductive Side : Set := Ask | Bid.

Definition is_ask (s : Side) : bool := match s with Ask => true | Bid => false end.
Definition is_bid (s : Side) : bool := match s with Ask => false | Bid => true end.

(** The test of the scan in [_depth_of_price], for the entry [p] of the
    sorted list and the queried [x]:
    [math.isclose(p, price) or (side == "ask" and p >= price)
     or (side == "bid" and p <= price)]. *)
Definition depth_test (side : Side) (p x : float) : bool :=
  Py.isclose p x || ((is_ask side && Py.ge p x) || (is_bid side && Py.le p x)).

(** [for i, p in enumerate(prices): if ...: return i], counting from [i]. *)
Fixpoint depth_scan (side : Side) (x : float) (prices : list float) (i : nat)
  : option nat :=
  match prices with
  | [] => None
  | p :: rest =>
      if depth_test side p x then Some i else depth_scan side x rest (S i)
  end.

(** The search of [_depth_of_price] in a given sorted list. *)
Definition rank (prices : list float) (side : Side) (x : float) : nat :=
  match depth_scan side x prices 0 with
  | Some i => i
  | None => length prices
  end.

Definition sorted_view (self : LOBEventExtractor) (side : Side) : list float :=
  match (if is_ask side then _sorted_asks self else _sorted_bids self) with
  | Some l => l
  | None => []
  end.

Definition _depth_of_price (self : LOBEventExtractor) (x : float) (side : Side)
  : LOBEventExtractor * Z :=
  let self := _ensure_sorted self in
  let prices := sorted_view self side in
  (self, Z.of_nat (rank prices side x)).

(** ** [process_delta] *)

(** [(x / prev_vol) if prev_vol > 0.0 else 1.0] *)
Definition normalized (x prev_vol : float) : float :=
  if Py.gt prev_vol 0 then (x / prev_vol)%float else 1%float.

(** [depth < self.max_depth] guarding [events.append(e)]. *)
Definition append_if_shallow (self : LOBEventExtractor) (d : Z)
    (events : list LOBEvent) (e : LOBEvent) : list LOBEvent :=
  if d <? max_depth self then events ++ [e] else events.

(** The body of the loop [for p, v in asks]. *)
Definition ask_step (idx : Z) (acc : LOBEventExtractor * list LOBEvent)
    (row : float * float) : LOBEventExtractor * list LOBEvent :=
  let '(self, events) := acc in
  let '(p, vol) := row in
  let prev_vol := dict_get (asks self) p 0 in
  let '(self, d) :=
    if Py.gt prev_vol 0 then _depth_of_price self p Ask
    else _depth_of_price self p Ask in
  let change := (vol - prev_vol)%float in
  if Py.eq vol 0 then
    let events :=
      append_if_shallow self d events
        (mkLOBEvent "market_buy"%string p (- change)%float d idx (_mid_price self)
                    prev_vol (normalized change prev_vol)) in
    (with_asks self (dict_pop (asks self) p), events)
  else
    let events :=
      if d <? max_depth self then
        if Py.gt change 0 then
          events ++ [mkLOBEvent "sell_limit_added"%string p change d idx
                       (_mid_price self) prev_vol (normalized change prev_vol)]
        else if Py.lt change 0 then
          events ++ [mkLOBEvent "sell_limit_canceled"%string p (- change)%float d idx
                       (_mid_price self) prev_vol
                       (normalized (- change)%float prev_vol)]
        else events
      else events in
    (with_asks self (dict_set (asks self) p vol), events).

(** The body of the loop [for p, v in bids]. *)
Definition bid_step (idx : Z) (acc : LOBEventExtractor * list LOBEvent)
    (row : float * float) : LOBEventExtractor * list LOBEvent :=
  let '(self, events) := acc in
  let '(p, vol) := row in
  let prev_vol := dict_get (bids self) p 0 in
  let '(self, d) :=
    if Py.gt prev_vol 0 then _depth_of_price self p Bid
    else _depth_of_price self p Bid in
  let change := (vol - prev_vol)%float in
  if Py.eq vol 0 then
    let events :=
      append_if_shallow self d events
        (mkLOBEvent "market_sell"%string p (- change)%float d idx (_mid_price self)
                    prev_vol (normalized change prev_vol)) in
    (with_bids self (dict_pop (bids self) p), events)
  else
    let events :=
      if d <? max_depth self then
        if Py.gt change 0 then
          events ++ [mkLOBEvent "buy_limit_added"%string p change d idx
                       (_mid_price self) prev_vol (normalized change prev_vol)]
        else if Py.lt change 0 then
          events ++ [mkLOBEvent "buy_limit_canceled"%string p (- change)%float d idx
                       (_mid_price self) prev_vol
                       (normalized (- change)%float prev_vol)]
        else events
      else events in
    (with_bids self (dict_set (bids self) p vol), events).

Definition process_delta (self : LOBEventExtractor)
    (asks_rows bids_rows : list (float * float)) (idx : Z)
  : LOBEventExtractor * list LOBEvent :=
  let acc := (self, []) in
  let acc := fold_left (ask_step idx) asks_rows acc in
  let acc := fold_left (bid_step idx) bids_rows acc in
  let '(self, events) := acc in
  (_invalidate_sorted self, events).

(** ** The drivers

    A decoded line in the documented format: [json.loads(line)] is an object
    whose ["type"] and ["data"] entries may be missing, and so may the ["a"]
    and ["b"] entries of the data; rows are [[price, volume]] pairs of
    floats.  The drivers on lines of this type come first; the drivers on
    any value [json.loads] can return, with the exceptions they raise on
    the values they cannot use, follow further down. *)

Definition rows : Type := list (float * float).

Record Data : Type := mkData {
  data_a : option rows;
  data_b : option rows
}.

Record Message : Type := mkMessage {
  msg_type : option string;
  msg_data : option Data
}.

(** [d.get(key, [])] *)
Definition get_rows (r : option rows) : rows :=
  match r with Some l => l | None => [] end.

(** [l.get("data", {})] *)
Definition get_data (d : option Data) : Data :=
  match d with Some x => x | None => mkData None None end.

(** [l.get("type") == name] *)
Definition type_is (l : Message) (name : string) : bool :=
  match msg_type l with
  | Some t => String.eqb t name
  | None => false
  end.

(** [math.isnan(x)] where [x] may be [None]: the call raises [TypeError] on
    [None]. *)
Definition math_isnan (x : option float) : Py.exn + bool :=
  match x with
  | None => inl Py.TypeError
  | Some f => inr (Py.isnan f)
  end.

(** [last is None] and [last != mid] for an optional [last]. *)
Definition is_None (last : option float) : bool :=
  match last with None => true | Some _ => false end.

Definition opt_ne (last : option float) (mid : float) : bool :=
  match last with None => true | Some l => Py.ne l mid end.

(** The gate of [parse_file]:
    [if math.isnan(last) and not math.isnan(mid): changed = True
     else: changed = (last is None) or (last != mid)]. *)
Definition parse_file_changed (last : option float) (mid : float)
  : Py.exn + bool :=
  match math_isnan last with
  | inl e => inl e
  | inr last_nan =>
      if last_nan && negb (Py.isnan mid) then inr true
      else inr (is_None last || opt_ne last mid)
  end.

(** The gate of [infer_events_from_lines]:
    [last is None or last != mid]. *)
Definition infer_changed (last : option float) (mid : float) : bool :=
  is_None last || opt_ne last mid.

(** What a generator does when it is run to its end: the values it yields,
    in order, and the exception that ends it, if any. *)
Record Generated (A : Type) : Type := mkGenerated {
  yielded : list A;
  raised : option Py.exn
}.
Arguments mkGenerated {A} _ _.
Arguments yielded {A} _.
Arguments raised {A} _.

Definition yield {A : Type} (x : A) (g : Generated A) : Generated A :=
  mkGenerated (x :: yielded g) (raised g).

(** The loop of [parse_file] over the decoded lines, from line number [idx].
    The local list [mid_prices] is only appended to and never read. *)
Fixpoint parse_file_loop (extractor : LOBEventExtractor) (idx : Z)
    (lines : list Message) : Generated (Z * list LOBEvent * float) :=
  match lines with
  | [] => mkGenerated [] None
  | l :: rest =>
      let '(extractor, new_events) :=
        if type_is l "snapshot" then
          let data := get_data (msg_data l) in
          (process_snapshot extractor
             (get_rows (data_a data)) (get_rows (data_b data)), [])
        else if type_is l "delta" then
          let data := get_data (msg_data l) in
          process_delta extractor
            (get_rows (data_a data)) (get_rows (data_b data)) idx
        else (extractor, []) in
      let mid := _mid_price extractor in
      match parse_file_changed (last_mid_price extractor) mid with
      | inl e => mkGenerated [] (Some e)
      | inr true =>
          let extractor := with_last_mid_price extractor (Some mid) in
          yield (idx, new_events, mid)
                (parse_file_loop extractor (idx + 1) rest)
      | inr false => parse_file_loop extractor (idx + 1) rest
      end
  end.

Definition parse_file (lines : list Message) (max_depth : Z)
  : Generated (Z * list LOBEvent * float) :=
  parse_file_loop (init max_depth) 0 lines.

(** The loop of [infer_events_from_lines]; [l["data"]] raises [KeyError]
    when the entry is missing. *)
Fixpoint infer_loop (extractor : LOBEventExtractor) (idx : Z)
    (events : list LOBEvent) (mid_prices : list float)
    (lines : list Message) : Py.exn + (list LOBEvent * list float) :=
  match lines with
  | [] => inr (events, mid_prices)
  | l :: rest =>
      match msg_data l with
      | None => inl Py.KeyError
      | Some data =>
          if type_is l "snapshot" then
            let extractor :=
              process_snapshot extractor
                (get_rows (data_a data)) (get_rows (data_b data)) in
            infer_loop extractor (idx + 1) events mid_prices rest
          else
            let '(extractor, evs) :=
              process_delta extractor
                (get_rows (data_a data)) (get_rows (data_b data)) idx in
            let mid := _mid_price extractor in
            if infer_changed (last_mid_price extractor) mid then
              let extractor := with_last_mid_price extractor (Some mid) in
              infer_loop extractor (idx + 1)
                (events ++ evs) (mid_prices ++ [mid]) rest
            else infer_loop extractor (idx + 1) events mid_prices rest
      end
  end.

Definition infer_events_from_lines (lines : list Message)
  : Py.exn + (list LOBEvent * list float) :=
  infer_loop (init default_max_depth) 0 [] [] lines.

(** ** The change rule of the specification

    The specification replaces the NaN convention by a two-state observation
    and fixes one rule for the gate. *)

Inductive MidPriceObservation : Type :=
| Valid (m : float)
| Invalid.

(** A mid-price as the code represents it, read as an observation. *)
Definition observation (m : float) : MidPriceObservation :=
  if Py.isnan m then Invalid else Valid m.

(** The canonical rule, [previous = None] meaning that no observation has
    been recorded yet. *)
Definition hasChanged (previous : option MidPriceObservation)
    (current : MidPriceObservation) : bool :=
  match previous, current with
  | None, _ => true
  | Some Invalid, Invalid => false
  | Some Invalid, Valid _ => true
  | Some (Valid _), Invalid => true
  | Some (Valid a), Valid b => Py.ne a b
  end.

(** ** The batch of a delta, update by update

    [process_delta] runs one loop body per row.  The trace below records, for
    every row, the side, the extractor as the body found it, the events the
    body appended and the extractor as it left it. *)

Definition book (self : LOBEventExtractor) (side : Side) : dict :=
  match side with Ask => asks self | Bid => bids self end.

Definition step (side : Side) (idx : Z)
    (acc : LOBEventExtractor * list LOBEvent) (row : float * float)
  : LOBEventExtractor * list LOBEvent :=
  match side with
  | Ask => ask_step idx acc row
  | Bid => bid_step idx acc row
  end.

Record Update : Type := mkUpdate {
  u_side : Side;
  u_before : LOBEventExtractor;
  u_row : float * float;
  u_events : list LOBEvent;
  u_after : LOBEventExtractor
}.

Fixpoint updates_from (side : Side) (idx : Z) (self : LOBEventExtractor)
    (rs : rows) : list Update :=
  match rs with
  | [] => []
  | row :: rest =>
      let '(self', evs) := step side idx (self, []) row in
      mkUpdate side self row evs self' :: updates_from side idx self' rest
  end.

(** The extractor after the loop of one side. *)
Definition after_rows (side : Side) (idx : Z) (self : LOBEventExtractor)
    (rs : rows) : LOBEventExtractor :=
  fst (fold_left (step side idx) rs (self, [])).

Definition delta_updates (self : LOBEventExtractor)
    (asks_rows bids_rows : rows) (idx : Z) : list Update :=
  updates_from Ask idx self asks_rows
  ++ updates_from Bid idx (after_rows Ask idx self asks_rows) bids_rows.

(** What one loop body does, read off both bodies at once: the events it
    appends and the level it writes.  [step_spec] below proves that the two
    bodies compute exactly this. *)

Definition removed_name (side : Side) : string :=
  match side with Ask => "market_buy" | Bid => "market_sell" end.

Definition added_name (side : Side) : string :=
  match side with Ask => "sell_limit_added" | Bid => "buy_limit_added" end.

Definition canceled_name (side : Side) : string :=
  match side with Ask => "sell_limit_canceled" | Bid => "buy_limit_canceled" end.

Definition classify (side : Side) (idx : Z) (self : LOBEventExtractor)
    (p vol : float) : list LOBEvent :=
  let prev_vol := dict_get (book self side) p 0 in
  let d := snd (_depth_of_price self p side) in
  let mid := _mid_price self in
  let change := (vol - prev_vol)%float in
  if d <? max_depth self then
    if Py.eq vol 0 then
      [mkLOBEvent (removed_name side) p (- change)%float d idx mid prev_vol
                  (normalized change prev_vol)]
    else if Py.gt change 0 then
      [mkLOBEvent (added_name side) p change d idx mid prev_vol
                  (normalized change prev_vol)]
    else if Py.lt change 0 then
      [mkLOBEvent (canceled_name side) p (- change)%float d idx mid prev_vol
                  (normalized (- change)%float prev_vol)]
    else []
  else [].

(** [d.pop(p, None)] when [vol == 0.0], [d[p] = vol] otherwise. *)
Definition upsert (d : dict) (p vol : float) : dict :=
  if Py.eq vol 0 then dict_pop d p else dict_set d p vol.

Definition with_book (side : Side) (self : LOBEventExtractor) (d : dict)
  : LOBEventExtractor :=
  match side with Ask => with_asks self d | Bid => with_bids self d end.

(** The sorted views of the book as it stands in [self]. *)
Definition fresh_view (self : LOBEventExtractor) (side : Side) : list float :=
  match side with
  | Ask => sorted (dict_keys (asks self))
  | Bid => sorted_reverse (dict_keys (bids self))
  end.

(** A cached view is either absent or the sorted keys of the current book:
    what [__init__], [process_snapshot], [process_delta] and
    [_depth_of_price] all leave behind. *)
Definition cache_ok (self : LOBEventExtractor) : Prop :=
  (_sorted_asks self = None \/ _sorted_asks self = Some (fresh_view self Ask))
  /\ (_sorted_bids self = None \/ _sorted_bids self = Some (fresh_view self Bid)).

(** No two entries of a [dict] have [==] keys. *)
Fixpoint unique_keys (d : dict) : bool :=
  match d with
  | [] => true
  | (k, _) :: d' => negb (dict_mem d' k) && unique_keys d'
  end.

(** Both books of an extractor have unique keys. *)
Definition books_unique (s : LOBEventExtractor) : Prop :=
  unique_keys (asks s) = true /\ unique_keys (bids s) = true.

(** No stored volume is [== 0]. *)
Definition no_zero_volume (d : dict) : bool :=
  forallb (fun kv => negb (Py.eq (snd kv) 0)) d.

(** The side an action string belongs to. *)
Definition side_of_action (a : string) : option Side :=
  if String.eqb a "market_buy" || String.eqb a "sell_limit_added"
     || String.eqb a "sell_limit_canceled" then Some Ask
  else if String.eqb a "market_sell" || String.eqb a "buy_limit_added"
     || String.eqb a "buy_limit_canceled" then Some Bid
  else None.

(** The pass-through test of the specification: the query [x] has passed the
    entry [p] under the ordering of [side]. *)
Definition passed (side : Side) (p x : float) : bool :=
  match side with
  | Ask => Py.ge p x
  | Bid => Py.le p x
  end.

(** The events one row may leave in the returned list: none, or one event
    at the row's price, of the row's side, carrying the index of the delta. *)
Definition emitted_for (side : Side) (idx : Z) (row : float * float)
    (evs : list LOBEvent) : Prop :=
  evs = []
  \/ exists e, evs = [e] /\ price e = fst row
               /\ side_of_action (action e) = Some side /\ index e = idx.

(** No update of [us] writes, on the side of [u], a price that is [==] to the
    price of [u]. *)
Definition no_other_write (u : Update) (us : list Update) : Prop :=
  Forall (fun u' => u_side u' = u_side u ->
                    Py.eq (fst (u_row u')) (fst (u_row u)) = false) us.

(** Consecutive updates: each one starts from the extractor the previous one
    left and writes its row with [upsert]. *)
Inductive chain : LOBEventExtractor -> list Update -> LOBEventExtractor -> Prop :=
| chain_nil (s : LOBEventExtractor) : chain s [] s
| chain_cons (u : Update) (us : list Update) (s' : LOBEventExtractor) :
    u_after u
    = with_book (u_side u) (_ensure_sorted (u_before u))
        (upsert (book (u_before u) (u_side u)) (fst (u_row u)) (snd (u_row u))) ->
    chain (u_after u) us s' ->
    chain (u_before u) (u :: us) s'.

(** Both the recorded mid-price and the new one are NaN. *)
Definition both_nan (last : option float) (mid : float) : bool :=
  match last with
  | Some l => Py.isnan l && Py.isnan mid
  | None => false
  end.

(** The extractors a client can build through the class: construction, the
    two public methods, [_depth_of_price], and the drivers' assignment to
    [last_mid_price]. *)
Inductive reachable : LOBEventExtractor -> Prop :=
| reach_init (n : Z) : reachable (init n)
| reach_snapshot (s : LOBEventExtractor) (asks_rows bids_rows : rows) :
    reachable s -> reachable (process_snapshot s asks_rows bids_rows)
| reach_delta (s : LOBEventExtractor) (asks_rows bids_rows : rows) (idx : Z) :
    reachable s -> reachable (fst (process_delta s asks_rows bids_rows idx))
| reach_depth (s : LOBEventExtractor) (x : float) (side : Side) :
    reachable s -> reachable (fst (_depth_of_price s x side))
| reach_last_mid_price (s : LOBEventExtractor) (m : option float) :
    reachable s -> reachable (with_last_mid_price s m).

(** ** Sample books and messages *)

(** The book of the snapshot [asks=[[101,5],[102,5]]],
    [bids=[[100,5],[99,5]]], with [max_depth = 50]. *)
Definition book_A : LOBEventExtractor :=
  process_snapshot (init 50) [(101, 5); (102, 5)]%float [(100, 5); (99, 5)]%float.

(** The same book behind the threshold [max_depth = 1]. *)
Definition book_A1 : LOBEventExtractor :=
  process_snapshot (init 1) [(101, 5); (102, 5)]%float [(100, 5); (99, 5)]%float.


(** Two deltas that each leave the bid side empty, and a snapshot. *)
Definition delta_ask_101 : Message :=
  mkMessage (Some "delta"%string) (Some (mkData (Some [(101, 5)]%float) None)).

Definition delta_ask_102 : Message :=
  mkMessage (Some "delta"%string) (Some (mkData (Some [(102, 5)]%float) None)).

Definition snapshot_A : Message :=
  mkMessage (Some "snapshot"%string)
    (Some (mkData (Some [(101, 5); (102, 5)]%float)
                  (Some [(100, 5); (99, 5)]%float))).

(** The trace of a delta that removes an ask and a bid that were never
    there, and the update at a position of a trace. *)
Definition absent_removals : list Update :=
  delta_updates book_A [(103, 0)]%float [(98, 0)]%float 4.

Definition nth_update (n : nat) (us : list Update) : Update :=
  nth n us (mkUpdate Ask (init 0) (0, 0)%float [] (init 0)).

(** The trace of a delta that writes one ask level three times. *)
Definition deep_writes : list Update :=
  delta_updates book_A1 [(102, 7); (102, 0); (102, 9)]%float [] 6.

(** ** Notions used to state further properties *)

(** The rows a snapshot or a delta carries for one side. *)
Definition side_rows (side : Side) (asks_rows bids_rows : rows) : rows :=
  match side with Ask => asks_rows | Bid => bids_rows end.

(** The rows of one side written one after the other into a book. *)
Definition apply_rows (d : dict) (rs : rows) : dict :=
  fold_left (fun d row => upsert d (fst row) (snd row)) rs d.

(** No key of the book is NaN. *)
Definition keys_not_nan (d : dict) : bool :=
  forallb (fun k => negb (Py.isnan k)) (dict_keys d).

(** The best price of a side as [_mid_price] computes it: the [min] of the
    ask prices, the [max] of the bid prices; [None] on an empty side. *)
Definition best_price (self : LOBEventExtractor) (side : Side) : option float :=
  match dict_keys (book self side) with
  | [] => None
  | k :: ks =>
      Some (match side with Ask => py_min k ks | Bid => py_max k ks end)
  end.

(** Ascending and descending order of a price list. *)
Definition ascending (xs : list float) : Prop :=
  StronglySorted (fun x y => Py.le x y = true) xs.

Definition descending (xs : list float) : Prop :=
  StronglySorted (fun x y => Py.ge x y = true) xs.

(** Each entry of a mid-price trace is [!=] to the entry before it. *)
Fixpoint each_differs (ms : list float) : bool :=
  match ms with
  | a :: (b :: _) as rest => Py.ne a b && each_differs rest
  | _ => true
  end.

(** The mid-price recorded last in a trace, if any. *)
Definition last_recorded (ms : list float) : option float :=
  match rev ms with
  | [] => None
  | m :: _ => Some m
  end.

(** The extractor with another threshold: [self.max_depth = k]. *)
Definition with_max_depth (self : LOBEventExtractor) (k : Z) :=
  mkExtractor k (asks self) (bids self)
              (_sorted_asks self) (_sorted_bids self) (last_mid_price self).

(** [depth < k], the test of the threshold, on an event. *)
Definition shallower (k : Z) (e : LOBEvent) : bool := depth e <? k.

(** The actions of the limit events. *)
Definition is_limit_action (a : string) : bool :=
  String.eqb a "sell_limit_added" || String.eqb a "sell_limit_canceled"
  || String.eqb a "buy_limit_added" || String.eqb a "buy_limit_canceled".

(** The traces of three more deltas on the book of scenario A: two new
    levels, the removal of the best ask, a bid volume sent again. *)
Definition new_levels : list Update :=
  delta_updates book_A [(101.5, 2)]%float [(100.5, 3)]%float 8.

Definition full_removal : list Update :=
  delta_updates book_A [(101, 0)]%float [] 1.

Definition repeated_volume : list Update :=
  delta_updates book_A [] [(100, 5)]%float 1.

(** Two more deltas: one that changes the volume of the second bid level,
    one that removes the best ask. *)
Definition delta_bid_deep : Message :=
  mkMessage (Some "delta"%string) (Some (mkData None (Some [(99, 8)]%float))).

Definition delta_best_ask_gone : Message :=
  mkMessage (Some "delta"%string) (Some (mkData (Some [(101, 0)]%float) None)).


(** ** The lines as [json.loads] returns them

    The drivers above take lines that are already message objects with
    float rows.  What [json.loads] returns is any JSON value, and the
    drivers raise on the values they cannot use: this part embeds the
    drivers on JSON values, with the exceptions of the method calls, the
    iteration, the unpacking and the conversions the code performs. *)

#[local] Unset Elimination Schemes.
Inductive json : Type :=
| JNull
| JBool (b : bool)
| JInt (n : Z)
| JFloat (f : float)
| JStr (s : string)
| JList (items : list json)
| JDict (entries : list (string * json)).
#[local] Set Elimination Schemes.

(** The value of a key in the entries of an object.  The entries are those
    of the [dict] that [json.loads] has built, which holds a name once. *)
Fixpoint json_lookup (entries : list (string * json)) (key : string)
  : option json :=
  match entries with
  | [] => None
  | (k, v) :: rest => if String.eqb k key then Some v else json_lookup rest key
  end.

(** Sequencing of computations that may raise. *)
Definition bind {A B : Type} (x : Py.exn + A) (f : A -> Py.exn + B)
  : Py.exn + B :=
  match x with
  | inl e => inl e
  | inr a => f a
  end.

(** [x.get(key, dflt)]: only a [dict] has the method. *)
Definition py_get (x : json) (key : string) (dflt : json) : Py.exn + json :=
  match x with
  | JDict entries =>
      inr (match json_lookup entries key with Some v => v | None => dflt end)
  | _ => inl Py.AttributeError
  end.

(** [x[key]] for a string key: [KeyError] on a [dict] without the key,
    [TypeError] on everything else. *)
Definition py_getitem (x : json) (key : string) : Py.exn + json :=
  match x with
  | JDict entries =>
      match json_lookup entries key with
      | Some v => inr v
      | None => inl Py.KeyError
      end
  | _ => inl Py.TypeError
  end.

(** [x == name] for a string literal [name]. *)
Definition json_is_str (x : json) (name : string) : bool :=
  match x with
  | JStr s => String.eqb s name
  | _ => false
  end.

(** The one-character strings of a string. *)
Fixpoint chars (s : string) : list json :=
  match s with
  | EmptyString => []
  | String c rest => JStr (String c EmptyString) :: chars rest
  end.

(** [iter(x)]: the items of a list, the characters of a string, the keys of
    a [dict]; [TypeError] on a value that is not iterable. *)
Definition py_iter (x : json) : Py.exn + list json :=
  match x with
  | JList items => inr items
  | JStr s => inr (chars s)
  | JDict entries => inr (map (fun kv => JStr (fst kv)) entries)
  | _ => inl Py.TypeError
  end.

(** [p, v = x]: [TypeError] when [x] is not iterable, [ValueError] when it
    does not hold exactly two items. *)
Definition py_unpack2 (x : json) : Py.exn + json * json :=
  bind (py_iter x) (fun items =>
    match items with
    | [p; v] => inr (p, v)
    | _ => inl Py.ValueError
    end).

(** [float(n)] for an [int]: the nearest float, ties to even;
    [OverflowError] when that is beyond the largest float. *)
Definition float_of_Z (n : Z) : option float :=
  let f := SF2Prim (binary_normalize prec emax n 0 false) in
  if PrimFloat.is_infinity f then None else Some f.

Section JsonDrivers.

(** [float(s)] for a [str], [None] standing for [ValueError]: the reading
    of numerals is Python's own and is left open here. *)
Variable float_of_str : string -> option float.

(** [float(x)] *)
Definition py_float (x : json) : Py.exn + float :=
  match x with
  | JFloat f => inr f
  | JInt n =>
      match float_of_Z n with
      | Some f => inr f
      | None => inl Py.OverflowError
      end
  | JBool b => inr (if b then 1%float else 0%float)
  | JStr s =>
      match float_of_str s with
      | Some f => inr f
      | None => inl Py.ValueError
      end
  | JNull | JList _ | JDict _ => inl Py.TypeError
  end.

(** One row: [p, v = row], then [float(p)], then [float(v)]. *)
Definition row_of_json (row : json) : Py.exn + float * float :=
  bind (py_unpack2 row) (fun pv =>
  bind (py_float (fst pv)) (fun p =>
  bind (py_float (snd pv)) (fun v => inr (p, v)))).

Fixpoint rows_of_items (items : list json) : Py.exn + rows :=
  match items with
  | [] => inr []
  | row :: rest =>
      bind (row_of_json row) (fun r =>
      bind (rows_of_items rest) (fun rs => inr (r :: rs)))
  end.

(** The rows of [for p, v in x] with [float(p)] and [float(v)], up to the
    first row that raises. *)
Definition rows_of_json (x : json) : Py.exn + rows :=
  bind (py_iter x) rows_of_items.

(** [process_snapshot] on JSON values: the two comprehensions convert their
    rows, the asks first (and in a row the key [float(p)] before the value
    [float(v)]), and raise what the conversion raises. *)
Definition process_snapshot_json (self : LOBEventExtractor) (a b : json)
  : Py.exn + LOBEventExtractor :=
  bind (rows_of_json a) (fun ra =>
  bind (rows_of_json b) (fun rb => inr (process_snapshot self ra rb))).

(** A loop of [process_delta] on JSON items: each row is unpacked and
    converted when its turn comes, then the loop body runs. *)
Fixpoint delta_loop_json (side : Side) (idx : Z)
    (acc : LOBEventExtractor * list LOBEvent) (items : list json)
  : Py.exn + LOBEventExtractor * list LOBEvent :=
  match items with
  | [] => inr acc
  | row :: rest =>
      bind (row_of_json row) (fun r =>
      delta_loop_json side idx (step side idx acc r) rest)
  end.

(** [process_delta] on JSON values, as far as a caller that does not catch
    the exception can tell (the writes made before a row raises are lost
    with the extractor). *)
Definition process_delta_json (self : LOBEventExtractor) (a b : json)
    (idx : Z) : Py.exn + LOBEventExtractor * list LOBEvent :=
  bind (py_iter a) (fun items_a =>
  bind (delta_loop_json Ask idx (self, []) items_a) (fun acc =>
  bind (py_iter b) (fun items_b =>
  bind (delta_loop_json Bid idx acc items_b) (fun acc =>
  inr (_invalidate_sorted (fst acc), snd acc))))).

(** What one iteration of [parse_file] does with the decoded line before it
    computes the mid-price. *)
Definition parse_file_apply (extractor : LOBEventExtractor) (idx : Z)
    (l : json) : Py.exn + LOBEventExtractor * list LOBEvent :=
  bind (py_get l "type" JNull) (fun t =>
  if json_is_str t "snapshot" then
    bind (py_get l "data" (JDict [])) (fun data =>
    bind (py_get data "a" (JList [])) (fun a =>
    bind (py_get data "b" (JList [])) (fun b =>
    bind (process_snapshot_json extractor a b) (fun extractor =>
    inr (extractor, [])))))
  else if json_is_str t "delta" then
    bind (py_get l "data" (JDict [])) (fun data =>
    bind (py_get data "a" (JList [])) (fun a =>
    bind (py_get data "b" (JList [])) (fun b =>
    process_delta_json extractor a b idx)))
  else inr (extractor, [])).

(** The loop of [parse_file] over the values [json.loads] returns. *)
Fixpoint parse_file_json_loop (extractor : LOBEventExtractor) (idx : Z)
    (lines : list json) : Generated (Z * list LOBEvent * float) :=
  match lines with
  | [] => mkGenerated [] None
  | l :: rest =>
      match parse_file_apply extractor idx l with
      | inl e => mkGenerated [] (Some e)
      | inr (extractor, new_events) =>
          let mid := _mid_price extractor in
          match parse_file_changed (last_mid_price extractor) mid with
          | inl e => mkGenerated [] (Some e)
          | inr true =>
              let extractor := with_last_mid_price extractor (Some mid) in
              yield (idx, new_events, mid)
                    (parse_file_json_loop extractor (idx + 1) rest)
          | inr false => parse_file_json_loop extractor (idx + 1) rest
          end
      end
  end.

Definition parse_file_json (lines : list json) (max_depth : Z)
  : Generated (Z * list LOBEvent * float) :=
  parse_file_json_loop (init max_depth) 0 lines.

(** What one iteration of [infer_events_from_lines] does with the decoded
    line: [None] for a snapshot ([continue]), the events of the delta
    otherwise.  [l["data"]] is evaluated once per argument. *)
Definition infer_apply (extractor : LOBEventExtractor) (idx : Z) (l : json)
  : Py.exn + LOBEventExtractor * option (list LOBEvent) :=
  bind (py_get l "type" JNull) (fun t =>
  if json_is_str t "snapshot" then
    bind (py_getitem l "data") (fun data =>
    bind (py_get data "a" (JList [])) (fun a =>
    bind (py_getitem l "data") (fun data =>
    bind (py_get data "b" (JList [])) (fun b =>
    bind (process_snapshot_json extractor a b) (fun extractor =>
    inr (extractor, None))))))
  else
    bind (py_getitem l "data") (fun data =>
    bind (py_get data "a" (JList [])) (fun a =>
    bind (py_getitem l "data") (fun data =>
    bind (py_get data "b" (JList [])) (fun b =>
    bind (process_delta_json extractor a b idx) (fun r =>
    inr (fst r, Some (snd r)))))))).

(** The loop of [infer_events_from_lines] over the values [json.loads]
    returns. *)
Fixpoint infer_json_loop (extractor : LOBEventExtractor) (idx : Z)
    (events : list LOBEvent) (mid_prices : list float)
    (lines : list json) : Py.exn + (list LOBEvent * list float) :=
  match lines with
  | [] => inr (events, mid_prices)
  | l :: rest =>
      match infer_apply extractor idx l with
      | inl e => inl e
      | inr (extractor, None) =>
          infer_json_loop extractor (idx + 1) events mid_prices rest
      | inr (extractor, Some evs) =>
          let mid := _mid_price extractor in
          if infer_changed (last_mid_price extractor) mid then
            let extractor := with_last_mid_price extractor (Some mid) in
            infer_json_loop extractor (idx + 1)
              (events ++ evs) (mid_prices ++ [mid]) rest
          else infer_json_loop extractor (idx + 1) events mid_prices rest
      end
  end.

Definition infer_events_from_lines_json (lines : list json)
  : Py.exn + (list LOBEvent * list float) :=
  infer_json_loop (init default_max_depth) 0 [] [] lines.

End JsonDrivers.

(** Messages in the documented format: an object; when its type is
    ["snapshot"] or ["delta"], its ["data"], if present, is an object whose
    ["a"] and ["b"], if present, are lists of two-item lists of numbers. *)
Definition plain_number (x : json) : bool :=
  match x with
  | JFloat _ | JBool _ => true
  | JInt n => match float_of_Z n with Some _ => true | None => false end
  | _ => false
  end.

Definition plain_row (x : json) : bool :=
  match x with
  | JList [p; v] => plain_number p && plain_number v
  | _ => false
  end.

Definition plain_rows (x : json) : bool :=
  match x with
  | JList items => forallb plain_row items
  | _ => false
  end.

Definition plain_rows_at (entries : list (string * json)) (key : string)
  : bool :=
  match json_lookup entries key with
  | Some x => plain_rows x
  | None => true
  end.

Definition plain_data (x : json) : bool :=
  match x with
  | JDict entries => plain_rows_at entries "a" && plain_rows_at entries "b"
  | _ => false
  end.


(** A line [infer_events_from_lines] can process: an object with a
    ["data"] entry in the documented format. *)
Definition plain_infer_line (l : json) : bool :=
  match l with
  | JDict entries =>
      match json_lookup entries "data" with
      | Some data => plain_data data
      | None => false
      end
  | _ => false
  end.

(** A reading of [float(s)] that rejects every string, for sample inputs
    that hold no string where a number is expected. *)
Definition no_numeral (s : string) : option float := None.

(** Sample lines: the snapshot of scenario A; an empty JSON array; a
    snapshot with a one-item row; a delta without ["data"]. *)
Definition json_snapshot_A : json :=
  JDict [("type"%string, JStr "snapshot");
         ("data"%string,
          JDict [("a"%string,
                  JList [JList [JInt 101; JInt 5]; JList [JInt 102; JInt 5]]);
                 ("b"%string,
                  JList [JList [JInt 100; JInt 5]; JList [JInt 99; JInt 5]])])].


Definition json_delta_no_data : json :=
  JDict [("type"%string, JStr "delta")].

Definition json_delta_ask_gone : json :=
  JDict [("type"%string, JStr "delta");
         ("data"%string, JDict [("a"%string, JList [JList [JInt 101; JInt 0]])])].

(** The value [json.loads] returns for a line in the documented format:
    the typed line of the drivers above as a JSON value, with the entries
    that are present and each row a two-item list of floats. *)
Definition json_of_rows (rs : rows) : json :=
  JList (map (fun r => JList [JFloat (fst r); JFloat (snd r)]) rs).

Definition json_entry (key : string) (x : option json)
  : list (string * json) :=
  match x with
  | Some v => [(key, v)]
  | None => []
  end.

Definition json_of_data (d : Data) : json :=
  JDict (json_entry "a" (option_map json_of_rows (data_a d))
         ++ json_entry "b" (option_map json_of_rows (data_b d))).

Definition json_of_message (l : Message) : json :=
  JDict (json_entry "type" (option_map JStr (msg_type l))
         ++ json_entry "data" (option_map json_of_data (msg_data l))).

(** Two floats that may be one and the same key of a [dict]: they are
    [==], or both are NaN (a NaN is found again through the identity of the
    object, which the floats here do not carry). *)
Definition same_key (k p : float) : bool :=
  Py.eq k p || (Py.isnan k && Py.isnan p).

(** The price [p] is certainly not a key of the book: no key is [==] to it
    and, when it is NaN, no key is NaN. *)
Definition not_stored (d : dict) (p : float) : bool :=
  forallb (fun k => negb (same_key k p)) (dict_keys d).

(** No update of [us] writes, on [side], a price that may be the key [p]. *)
Definition no_write_at (side : Side) (p : float) (us : list Update) : Prop :=
  Forall (fun u' => u_side u' = side -> same_key (fst (u_row u')) p = false) us.

(** * Properties *)

(** ** Float comparison *)

Section FloatFacts.

Import SpecFloat.

Lemma SFeqb_cases (a b : spec_float) :
  SFeqb a b = true ->
  (a = b /\ a <> S754_nan)
  \/ (exists s t, a = S754_zero s /\ b = S754_zero t).
Proof.
  unfold SFeqb, SFcompare.
  destruct a as [sa| sa| |sa ma ea], b as [sb| sb| |sb mb eb];
    try discriminate; try (destruct sa; discriminate);
    try (destruct sb; discriminate).
  - intros _. right. eauto.
  - destruct sa, sb; try discriminate; intros _; left; split; congruence.
  - destruct sa, sb; try discriminate;
      destruct (Z.compare_spec ea eb); try discriminate;
      rewrite Pos.compare_cont_spec; simpl;
      destruct (Pos.compare_spec ma mb); try discriminate;
      intros _; left; split; congruence.
Qed.

Lemma SFeqb_refl (a : spec_float) : a <> S754_nan -> SFeqb a a = true.
Proof.
  unfold SFeqb, SFcompare. destruct a as [s|s| |s m e]; try reflexivity.
  - destruct s; reflexivity.
  - congruence.
  - intros _. rewrite Z.compare_refl, Pos.compare_cont_refl.
    destruct s; reflexivity.
Qed.

Lemma SFeqb_zero (s t : bool) : SFeqb (S754_zero s) (S754_zero t) = true.
Proof. reflexivity. Qed.

Lemma SFeqb_sym (a b : spec_float) : SFeqb a b = true -> SFeqb b a = true.
Proof.
  intros H. destruct (SFeqb_cases _ _ H) as [[-> Hn]|(s & t & -> & ->)].
  - now apply SFeqb_refl.
  - apply SFeqb_zero.
Qed.

Lemma SFeqb_trans (a b c : spec_float) :
  SFeqb a b = true -> SFeqb b c = true -> SFeqb a c = true.
Proof.
  intros H1 H2.
  destruct (SFeqb_cases _ _ H1) as [[-> Hn]|(s & t & -> & ->)]; [exact H2|].
  destruct (SFeqb_cases _ _ H2) as [[<- _]|(s' & t' & _ & ->)];
    apply SFeqb_zero.
Qed.

Lemma py_eq_sym (x y : float) : Py.eq x y = Py.eq y x.
Proof.
  unfold Py.eq. rewrite !eqb_spec.
  destruct (SFeqb (Prim2SF x) (Prim2SF y)) eqn:E1,
           (SFeqb (Prim2SF y) (Prim2SF x)) eqn:E2; try reflexivity.
  - apply SFeqb_sym in E1. congruence.
  - apply SFeqb_sym in E2. congruence.
Qed.

Lemma py_eq_trans (x y z : float) :
  Py.eq x y = true -> Py.eq y z = true -> Py.eq x z = true.
Proof. unfold Py.eq. rewrite !eqb_spec. apply SFeqb_trans. Qed.

Lemma py_eq_refl (x : float) : Py.isnan x = false -> Py.eq x x = true.
Proof.
  unfold Py.isnan, is_nan, Py.eq. now destruct (x =? x)%float.
Qed.

(** Keys that are [==] select the same entries. *)
Lemma py_eq_congr (k x y : float) :
  Py.eq x y = true -> Py.eq k x = Py.eq k y.
Proof.
  intros H. destruct (Py.eq k x) eqn:E1, (Py.eq k y) eqn:E2; try reflexivity.
  - rewrite (py_eq_trans _ _ _ E1 H) in E2. discriminate.
  - rewrite py_eq_sym in H. rewrite (py_eq_trans _ _ _ E2 H) in E1.
    discriminate.
Qed.

(** A NaN is [!=] to everything. *)
Lemma py_ne_nan (x y : float) : Py.isnan x = true -> Py.ne x y = true.
Proof.
  unfold Py.isnan, is_nan, Py.ne. intros H.
  destruct (x =? y)%float eqn:E; [|reflexivity].
  assert (Hx : (x =? x)%float = true).
  { change (Py.eq x x = true). apply py_eq_trans with y; [exact E|].
    rewrite py_eq_sym. exact E. }
  rewrite Hx in H. discriminate.
Qed.

Lemma py_ne_nan_r (x y : float) : Py.isnan y = true -> Py.ne x y = true.
Proof.
  intros H. unfold Py.ne. change (negb (Py.eq x y) = true).
  rewrite py_eq_sym. now apply py_ne_nan.
Qed.

(** The floats that are [== 0.0] are [0.0] and [-0.0]. *)
Lemma py_eq_zero (v : float) :
  Py.eq v 0 = true -> v = 0%float \/ v = (-0)%float.
Proof.
  unfold Py.eq. rewrite eqb_spec. intros H.
  apply SFeqb_cases in H.
  destruct H as [[H _]|(s & t & H & _)].
  - left. now apply Prim2SF_inj.
  - rewrite <- (SF2Prim_Prim2SF v), H. destruct s; [right|left]; reflexivity.
Qed.

End FloatFacts.

(** ** The loop bodies *)

Lemma ensure_sorted_fields (self : LOBEventExtractor) :
  max_depth (_ensure_sorted self) = max_depth self
  /\ asks (_ensure_sorted self) = asks self
  /\ bids (_ensure_sorted self) = bids self
  /\ last_mid_price (_ensure_sorted self) = last_mid_price self.
Proof. repeat split. Qed.

Lemma mid_price_ensure_sorted (self : LOBEventExtractor) :
  _mid_price (_ensure_sorted self) = _mid_price self.
Proof. reflexivity. Qed.

Lemma mid_price_invalidate_sorted (self : LOBEventExtractor) :
  _mid_price (_invalidate_sorted self) = _mid_price self.
Proof. reflexivity. Qed.

(** Both loop bodies write the level with [upsert], fill the cache and append
    the events of [classify]. *)
Lemma step_spec (side : Side) (idx : Z) (self : LOBEventExtractor)
    (events : list LOBEvent) (p vol : float) :
  step side idx (self, events) (p, vol)
  = (with_book side (_ensure_sorted self) (upsert (book self side) p vol),
     events ++ classify side idx self p vol).
Proof.
  destruct side; cbn [step ask_step bid_step book with_book];
    unfold classify, upsert, append_if_shallow;
    match goal with
    | |- context [if ?c then _depth_of_price ?s ?x ?sd else _] =>
        replace (if c then _depth_of_price s x sd else _depth_of_price s x sd)
          with (_depth_of_price s x sd) by (destruct c; reflexivity)
    end;
    unfold _depth_of_price; cbn [book snd fst];
    rewrite ?mid_price_ensure_sorted;
    cbn [max_depth asks bids _ensure_sorted removed_name added_name
         canceled_name];
    destruct (Py.eq vol 0);
    destruct (_ <? max_depth self);
    repeat match goal with
           | |- context [if ?c then _ else _] => destruct c
           end;
    rewrite ?app_nil_r; reflexivity.
Qed.

(** The extractor one loop body leaves behind. *)
Lemma step_state (side : Side) (idx : Z) (self : LOBEventExtractor)
    (events : list LOBEvent) (row : float * float) :
  fst (step side idx (self, events) row)
  = with_book side (_ensure_sorted self)
      (upsert (book self side) (fst row) (snd row)).
Proof. destruct row as [p vol]. now rewrite step_spec. Qed.

Lemma updates_from_cons (side : Side) (idx : Z) (self : LOBEventExtractor)
    (p vol : float) (rest : rows) :
  updates_from side idx self ((p, vol) :: rest)
  = let self' := with_book side (_ensure_sorted self)
                   (upsert (book self side) p vol) in
    mkUpdate side self (p, vol) (classify side idx self p vol) self'
    :: updates_from side idx self' rest.
Proof. cbn [updates_from]. now rewrite step_spec. Qed.

Lemma after_rows_cons (side : Side) (idx : Z) (self : LOBEventExtractor)
    (p vol : float) (rest : rows) :
  after_rows side idx self ((p, vol) :: rest)
  = after_rows side idx
      (with_book side (_ensure_sorted self) (upsert (book self side) p vol))
      rest.
Proof.
  unfold after_rows. cbn [fold_left]. rewrite step_spec.
  generalize (with_book side (_ensure_sorted self)
                (upsert (book self side) p vol)) as s.
  generalize (@nil LOBEvent ++ classify side idx self p vol) as evs.
  generalize (@nil LOBEvent) as evs'.
  induction rest as [|[q w] rest IH]; intros evs' evs s; [reflexivity|].
  cbn [fold_left]. rewrite !step_spec. apply IH.
Qed.

(** A loop appends, row by row, the events of its trace. *)
Lemma fold_step (side : Side) (idx : Z) (rs : rows) :
  forall (self : LOBEventExtractor) (events : list LOBEvent),
    fold_left (step side idx) rs (self, events)
    = (after_rows side idx self rs,
       events ++ concat (map u_events (updates_from side idx self rs))).
Proof.
  induction rs as [|[p vol] rest IH]; intros self events.
  - cbn. now rewrite app_nil_r.
  - rewrite after_rows_cons, updates_from_cons.
    cbn [fold_left map concat u_events]. rewrite step_spec, IH.
    now rewrite app_assoc.
Qed.

(** [process_delta] returns the events of its trace, in the order of the
    trace, and invalidates the cache at the very end. *)
Lemma process_delta_updates (self : LOBEventExtractor)
    (asks_rows bids_rows : rows) (idx : Z) :
  process_delta self asks_rows bids_rows idx
  = (_invalidate_sorted
       (after_rows Bid idx (after_rows Ask idx self asks_rows) bids_rows),
     concat (map u_events (delta_updates self asks_rows bids_rows idx))).
Proof.
  unfold process_delta, delta_updates.
  change (ask_step idx) with (step Ask idx).
  change (bid_step idx) with (step Bid idx).
  rewrite !fold_step. cbn [app].
  now rewrite map_app, concat_app.
Qed.

(** Every entry of a trace is a run of the loop body on a row of the input,
    in the order of the input. *)
Lemma updates_from_rows (side : Side) (idx : Z) (rs : rows) :
  forall self, map u_row (updates_from side idx self rs) = rs.
Proof.
  induction rs as [|[p vol] rest IH]; intros self; [reflexivity|].
  rewrite updates_from_cons. cbn. now rewrite IH.
Qed.

Lemma updates_from_shape (side : Side) (idx : Z) (rs : rows) :
  forall self,
    Forall (fun u =>
              u_side u = side
              /\ u_events u
                 = classify side idx (u_before u) (fst (u_row u)) (snd (u_row u))
              /\ u_after u
                 = with_book side (_ensure_sorted (u_before u))
                     (upsert (book (u_before u) side)
                             (fst (u_row u)) (snd (u_row u))))
           (updates_from side idx self rs).
Proof.
  induction rs as [|[p vol] rest IH]; intros self; [constructor|].
  rewrite updates_from_cons. constructor; [now cbn|apply IH].
Qed.

(** A property of the extractor that every loop body keeps holds before
    every update of the loop and after the loop. *)
Lemma updates_from_invariant (P : LOBEventExtractor -> Prop)
    (side : Side) (idx : Z)
    (Hstep : forall s p vol,
        P s ->
        P (with_book side (_ensure_sorted s) (upsert (book s side) p vol)))
    (rs : rows) :
  forall self,
    P self ->
    Forall (fun u => P (u_before u)) (updates_from side idx self rs)
    /\ P (after_rows side idx self rs).
Proof.
  induction rs as [|[p vol] rest IH]; intros self HP.
  - split; [constructor|exact HP].
  - rewrite updates_from_cons, after_rows_cons.
    destruct (IH _ (Hstep _ p vol HP)) as [H1 H2].
    split; [constructor; [exact HP|exact H1]|exact H2].
Qed.

Lemma delta_updates_invariant (P : LOBEventExtractor -> Prop)
    (Hstep : forall side s p vol,
        P s ->
        P (with_book side (_ensure_sorted s) (upsert (book s side) p vol)))
    (self : LOBEventExtractor) (asks_rows bids_rows : rows) (idx : Z) :
  P self ->
  Forall (fun u => P (u_before u))
         (delta_updates self asks_rows bids_rows idx)
  /\ P (after_rows Bid idx (after_rows Ask idx self asks_rows) bids_rows).
Proof.
  intros HP. unfold delta_updates.
  destruct (updates_from_invariant P Ask idx (Hstep Ask) asks_rows self HP)
    as [H1 H2].
  destruct (updates_from_invariant P Bid idx (Hstep Bid) bids_rows _ H2)
    as [H3 H4].
  split; [apply Forall_app; split; assumption|exact H4].
Qed.

Lemma delta_updates_shape (self : LOBEventExtractor)
    (asks_rows bids_rows : rows) (idx : Z) :
  Forall (fun u =>
            u_events u
            = classify (u_side u) idx (u_before u)
                       (fst (u_row u)) (snd (u_row u))
            /\ u_after u
               = with_book (u_side u) (_ensure_sorted (u_before u))
                   (upsert (book (u_before u) (u_side u))
                           (fst (u_row u)) (snd (u_row u))))
         (delta_updates self asks_rows bids_rows idx).
Proof.
  unfold delta_updates. apply Forall_app; split;
    (eapply Forall_impl; [|apply updates_from_shape]);
    cbn beta; intros u (-> & H1 & H2); split; assumption.
Qed.

Lemma chain_app (s1 s2 s3 : LOBEventExtractor) (us vs : list Update) :
  chain s1 us s2 -> chain s2 vs s3 -> chain s1 (us ++ vs) s3.
Proof.
  induction 1 as [s|u us s' Hafter Hch IH]; intros Hvs; [exact Hvs|].
  cbn [app]. constructor; [exact Hafter|now apply IH].
Qed.

Lemma updates_from_chain (side : Side) (idx : Z) (rs : rows) :
  forall self,
    chain self (updates_from side idx self rs) (after_rows side idx self rs).
Proof.
  induction rs as [|[p vol] rest IH]; intros self.
  - constructor.
  - rewrite updates_from_cons, after_rows_cons. cbn zeta.
    set (u := mkUpdate side self (p, vol) _ _).
    change self with (u_before u) at 1.
    constructor; [reflexivity|apply IH].
Qed.

(** The trace of a delta is one chain from the extractor the call received to
    the extractor whose cache [process_delta] finally invalidates. *)
Lemma delta_updates_chain (self : LOBEventExtractor)
    (asks_rows bids_rows : rows) (idx : Z) :
  chain self (delta_updates self asks_rows bids_rows idx)
        (after_rows Bid idx (after_rows Ask idx self asks_rows) bids_rows).
Proof.
  unfold delta_updates. eapply chain_app; apply updates_from_chain.
Qed.

(** ** Dictionary facts *)

Lemma dict_mem_cons (d : dict) (k' v k : float) :
  dict_mem ((k', v) :: d) k = Py.eq k' k || dict_mem d k.
Proof. reflexivity. Qed.

Lemma dict_get_not_mem (d : dict) (k dflt : float) :
  dict_mem d k = false -> dict_get d k dflt = dflt.
Proof.
  induction d as [|[k' v] d IH]; [reflexivity|].
  rewrite dict_mem_cons. cbn [dict_get].
  destruct (Py.eq k' k); [discriminate|exact IH].
Qed.

Lemma dict_pop_not_mem (d : dict) (k : float) :
  dict_mem d k = false -> dict_pop d k = d.
Proof.
  induction d as [|[k' v] d IH]; [reflexivity|].
  rewrite dict_mem_cons. cbn [dict_pop].
  destruct (Py.eq k' k); [discriminate|].
  intros H. now rewrite IH.
Qed.

Lemma dict_get_set_same (d : dict) (k v dflt : float) :
  Py.isnan k = false -> dict_get (dict_set d k v) k dflt = v.
Proof.
  intros Hk. induction d as [|[k' v'] d IH]; cbn [dict_set dict_get].
  - now rewrite py_eq_refl.
  - destruct (Py.eq k' k) eqn:E; cbn [dict_get]; rewrite E; [reflexivity|exact IH].
Qed.

(** An entry that matches one of two keys that are not [==] does not match
    the other. *)
Lemma py_eq_other (e k' k : float) :
  Py.eq e k' = true -> Py.eq k' k = false -> Py.eq e k = false.
Proof.
  intros H1 H2. rewrite py_eq_sym, (py_eq_congr k e k' H1), py_eq_sym.
  exact H2.
Qed.

Lemma dict_get_set_other (d : dict) (k' k v dflt : float) :
  Py.eq k' k = false ->
  dict_get (dict_set d k' v) k dflt = dict_get d k dflt.
Proof.
  intros Hk. induction d as [|[e w] d IH]; cbn [dict_set dict_get].
  - now rewrite Hk.
  - destruct (Py.eq e k') eqn:E; cbn [dict_get].
    + now rewrite (py_eq_other e k' k E Hk).
    + now rewrite IH.
Qed.

Lemma dict_get_pop_other (d : dict) (k' k dflt : float) :
  Py.eq k' k = false ->
  dict_get (dict_pop d k') k dflt = dict_get d k dflt.
Proof.
  intros Hk. induction d as [|[e w] d IH]; cbn [dict_pop dict_get].
  - reflexivity.
  - destruct (Py.eq e k') eqn:E; cbn [dict_get].
    + now rewrite (py_eq_other e k' k E Hk).
    + now rewrite IH.
Qed.

Lemma dict_get_upsert_other (d : dict) (k' k v dflt : float) :
  Py.eq k' k = false ->
  dict_get (upsert d k' v) k dflt = dict_get d k dflt.
Proof.
  intros Hk. unfold upsert.
  destruct (Py.eq v 0); [now apply dict_get_pop_other|now apply dict_get_set_other].
Qed.

Lemma dict_mem_set (d : dict) (k v k2 : float) :
  dict_mem (dict_set d k v) k2 = dict_mem d k2 || Py.eq k k2.
Proof.
  induction d as [|[e w] d IH]; cbn [dict_set].
  - rewrite !dict_mem_cons. cbn. now rewrite orb_false_r.
  - destruct (Py.eq e k) eqn:E; rewrite !dict_mem_cons.
    + destruct (Py.eq k k2) eqn:E2; [|now rewrite orb_false_r].
      rewrite (py_eq_trans e k k2 E E2). reflexivity.
    + now rewrite IH, orb_assoc.
Qed.

Lemma dict_mem_pop (d : dict) (k k2 : float) :
  dict_mem (dict_pop d k) k2 = true -> dict_mem d k2 = true.
Proof.
  induction d as [|[e w] d IH]; cbn [dict_pop]; [trivial|].
  destruct (Py.eq e k); rewrite !dict_mem_cons.
  - intros ->. apply orb_true_r.
  - destruct (Py.eq e k2); [trivial|exact IH].
Qed.

Lemma dict_mem_pop_same (d : dict) (k : float) :
  unique_keys d = true -> dict_mem (dict_pop d k) k = false.
Proof.
  induction d as [|[e w] d IH]; cbn [dict_pop unique_keys]; [trivial|].
  intros H. apply andb_prop in H. destruct H as [H1 H2].
  destruct (Py.eq e k) eqn:E.
  - apply negb_true_iff in H1.
    destruct (dict_mem d k) eqn:M; [|reflexivity].
    exfalso. revert H1 M. clear -E.
    unfold dict_mem, dict_keys. rewrite !existsb_exists.
    intros H1 (x & Hx & Hxk). 
    assert (existsb (fun k' => Py.eq k' e) (map fst d) = true).
    { apply existsb_exists. exists x. split; [exact Hx|].
      apply py_eq_trans with k; [exact Hxk|]. now rewrite py_eq_sym. }
    unfold dict_mem, dict_keys in H1. congruence.
  - rewrite dict_mem_cons, E. now apply IH.
Qed.

Lemma unique_keys_set (d : dict) (k v : float) :
  unique_keys d = true -> unique_keys (dict_set d k v) = true.
Proof.
  induction d as [|[e w] d IH]; cbn [dict_set unique_keys]; [trivial|].
  intros H. apply andb_prop in H. destruct H as [H1 H2].
  destruct (Py.eq e k) eqn:E; cbn [unique_keys].
  - now rewrite H1, H2.
  - rewrite dict_mem_set, (py_eq_sym k e), E, orb_false_r, H1.
    now apply IH.
Qed.

Lemma unique_keys_pop (d : dict) (k : float) :
  unique_keys d = true -> unique_keys (dict_pop d k) = true.
Proof.
  induction d as [|[e w] d IH]; cbn [dict_pop unique_keys]; [trivial|].
  intros H. apply andb_prop in H. destruct H as [H1 H2].
  destruct (Py.eq e k); [exact H2|]. cbn [unique_keys].
  rewrite (IH H2), andb_true_r.
  apply negb_true_iff. apply negb_true_iff in H1.
  destruct (dict_mem (dict_pop d k) e) eqn:M; [|reflexivity].
  apply dict_mem_pop in M. congruence.
Qed.

Lemma unique_keys_upsert (d : dict) (k v : float) :
  unique_keys d = true -> unique_keys (upsert d k v) = true.
Proof.
  unfold upsert. destruct (Py.eq v 0);
    [apply unique_keys_pop|apply unique_keys_set].
Qed.

Lemma unique_keys_dict_of_rows (rs : rows) :
  unique_keys (dict_of_rows rs) = true.
Proof.
  unfold dict_of_rows.
  assert (H : forall d, unique_keys d = true ->
                        unique_keys
                          (fold_left (fun d row => dict_set d (fst row) (snd row))
                                     rs d) = true).
  { induction rs as [|r rs IH]; intros d Hd; [exact Hd|].
    cbn [fold_left]. apply IH. now apply unique_keys_set. }
  now apply H.
Qed.

(** The level an update writes, read back: absent when the new volume is
    [== 0], the new volume otherwise. *)
Lemma dict_get_upsert_same (d : dict) (k v : float) :
  unique_keys d = true -> Py.isnan k = false ->
  dict_get (upsert d k v) k 0 = if Py.eq v 0 then 0%float else v.
Proof.
  intros Hu Hk. unfold upsert. destruct (Py.eq v 0).
  - apply dict_get_not_mem. now apply dict_mem_pop_same.
  - now apply dict_get_set_same.
Qed.

Lemma dict_mem_upsert_same (d : dict) (k v : float) :
  unique_keys d = true -> Py.isnan k = false ->
  dict_mem (upsert d k v) k = negb (Py.eq v 0).
Proof.
  intros Hu Hk. unfold upsert. destruct (Py.eq v 0); cbn [negb].
  - now apply dict_mem_pop_same.
  - rewrite dict_mem_set, py_eq_refl by exact Hk. apply orb_true_r.
Qed.

Lemma dict_mem_pop_other (d : dict) (k' k : float) :
  Py.eq k' k = false -> dict_mem (dict_pop d k') k = dict_mem d k.
Proof.
  intros Hk. induction d as [|[e w] d IH]; cbn [dict_pop]; [reflexivity|].
  destruct (Py.eq e k') eqn:E; rewrite !dict_mem_cons.
  - now rewrite (py_eq_other e k' k E Hk).
  - now rewrite IH.
Qed.

Lemma dict_mem_upsert_other (d : dict) (k' k v : float) :
  Py.eq k' k = false -> dict_mem (upsert d k' v) k = dict_mem d k.
Proof.
  intros Hk. unfold upsert. destruct (Py.eq v 0).
  - now apply dict_mem_pop_other.
  - now rewrite dict_mem_set, Hk, orb_false_r.
Qed.

(** ** The depth of a price *)

Lemma depth_test_passed (side : Side) (p x : float) :
  depth_test side p x = Py.isclose p x || passed side p x.
Proof.
  unfold depth_test, passed.
  destruct side; cbn [is_ask is_bid andb]; now rewrite ?orb_false_r.
Qed.


Lemma depth_scan_some (side : Side) (x : float) (prices : list float) :
  forall i n,
    depth_scan side x prices i = Some n ->
    exists k p,
      n = (i + k)%nat
      /\ nth_error prices k = Some p
      /\ depth_test side p x = true
      /\ forall j q, (j < k)%nat -> nth_error prices j = Some q ->
                     depth_test side q x = false.
Proof.
  induction prices as [|p rest IH]; intros i n; cbn [depth_scan];
    [discriminate|].
  destruct (depth_test side p x) eqn:E.
  - intros [= <-]. exists 0%nat, p. repeat split; [lia|exact E|].
    intros j q Hj. lia.
  - intros H. destruct (IH _ _ H) as (k & p' & -> & Hn & Ht & Hbefore).
    exists (S k), p'. repeat split; [lia|exact Hn|exact Ht|].
    intros [|j] q Hj; cbn [nth_error].
    + now intros [= <-].
    + apply Hbefore. lia.
Qed.




(** [_depth_of_price] is [rank] on the cached view of the side, once the
    cache is filled. *)
Lemma depth_of_price_rank (self : LOBEventExtractor) (x : float) (side : Side) :
  _depth_of_price self x side
  = (_ensure_sorted self,
     Z.of_nat (rank (sorted_view (_ensure_sorted self) side) side x)).
Proof. reflexivity. Qed.

(** ** The events of one update *)

Lemma side_of_removed (side : Side) :
  side_of_action (removed_name side) = Some side.
Proof. now destruct side. Qed.

Lemma side_of_added (side : Side) :
  side_of_action (added_name side) = Some side.
Proof. now destruct side. Qed.

Lemma side_of_canceled (side : Side) :
  side_of_action (canceled_name side) = Some side.
Proof. now destruct side. Qed.

(** One update appends at most one event; the event carries the row's price,
    the delta's index, an action of the row's side, the depth that passed the
    gate, and the mid-price and stored volume of the extractor the update
    started from. *)
Lemma classify_cases (side : Side) (idx : Z) (self : LOBEventExtractor)
    (p vol : float) :
  classify side idx self p vol = []
  \/ exists e,
      classify side idx self p vol = [e]
      /\ price e = p /\ index e = idx
      /\ side_of_action (action e) = Some side
      /\ mid_price e = _mid_price self
      /\ previous_vol e = dict_get (book self side) p 0
      /\ depth e = snd (_depth_of_price self p side)
      /\ depth e < max_depth self.
Proof.
  unfold classify.
  destruct (snd (_depth_of_price self p side) <? max_depth self) eqn:D;
    [|now left].
  apply Z.ltb_lt in D.
  destruct (Py.eq vol 0);
    [|destruct (Py.gt _ 0); [|destruct (Py.lt _ 0); [|now left]]];
    right; eexists; (split; [reflexivity|]); cbn;
    rewrite ?side_of_removed, ?side_of_added, ?side_of_canceled;
    repeat split; assumption.
Qed.

Lemma classify_emitted_for (side : Side) (idx : Z) (self : LOBEventExtractor)
    (p vol : float) :
  emitted_for side idx (p, vol) (classify side idx self p vol).
Proof.
  destruct (classify_cases side idx self p vol)
    as [->|(e & -> & Hp & Hi & Hs & _)]; [now left|].
  right. exists e. now repeat split.
Qed.

Lemma updates_from_emitted_for (side : Side) (idx : Z) (rs : rows) :
  forall self,
    Forall2 (emitted_for side idx) rs
            (map u_events (updates_from side idx self rs)).
Proof.
  induction rs as [|[p vol] rest IH]; intros self; [constructor|].
  rewrite updates_from_cons. cbn [map u_events].
  constructor; [apply classify_emitted_for|apply IH].
Qed.

(** C9. For every delta, whatever its mix of ask and bid rows, the list
    [process_delta] returns is the events of the ask rows followed by the
    events of the bid rows, and within each side the events come in the
    input order of the rows that produced them: the list is the
    concatenation, row after row, of what the loop body appends for each ask
    row (no event or one event, run on the extractor the earlier rows left),
    then of what it appends for each bid row. *)
Theorem process_delta_asks_before_bids (self : LOBEventExtractor)
    (asks_rows bids_rows : rows) (idx : Z) :
  let ask_updates := updates_from Ask idx self asks_rows in
  let bid_updates :=
    updates_from Bid idx (after_rows Ask idx self asks_rows) bids_rows in
  snd (process_delta self asks_rows bids_rows idx)
  = concat (map u_events ask_updates) ++ concat (map u_events bid_updates)
  /\ map u_row ask_updates = asks_rows
  /\ map u_row bid_updates = bids_rows
  /\ chain self (ask_updates ++ bid_updates)
           (after_rows Bid idx (after_rows Ask idx self asks_rows) bids_rows)
  /\ Forall (fun u =>
               u_events u
               = snd (ask_step idx (u_before u, []) (u_row u))
               /\ u_events u
                  = classify Ask idx (u_before u) (fst (u_row u)) (snd (u_row u))
               /\ emitted_for Ask idx (u_row u) (u_events u))
            ask_updates
  /\ Forall (fun u =>
               u_events u
               = snd (bid_step idx (u_before u, []) (u_row u))
               /\ u_events u
                  = classify Bid idx (u_before u) (fst (u_row u)) (snd (u_row u))
               /\ emitted_for Bid idx (u_row u) (u_events u))
            bid_updates.
Proof.
  cbn zeta.
  assert (Hside : forall side s rs,
             Forall (fun u =>
                       u_events u = snd (step side idx (u_before u, []) (u_row u))
                       /\ u_events u
                          = classify side idx (u_before u)
                                     (fst (u_row u)) (snd (u_row u))
                       /\ emitted_for side idx (u_row u) (u_events u))
                    (updates_from side idx s rs)).
  { intros side s rs. eapply Forall_impl; [|apply updates_from_shape].
    cbn beta. intros u (_ & Hev & _). rewrite Hev.
    destruct (u_row u) as [p vol]. cbn [fst snd].
    split; [now rewrite step_spec|]. split; [reflexivity|].
    apply classify_emitted_for. }
  split.
  { rewrite process_delta_updates. cbn [snd]. unfold delta_updates.
    now rewrite map_app, concat_app. }
  split; [apply updates_from_rows|]. split; [apply updates_from_rows|].
  split; [apply delta_updates_chain|].
  split; [exact (Hside Ask _ _)|exact (Hside Bid _ _)].
Qed.

(** Two rows at the same ask price, then one bid row: the events come in
    the order of the rows, the cancel from 5 to 3 before the add from 3 to 4,
    asks before bids. *)
Example process_delta_same_price_order :
  map (fun e => (action e, previous_vol e, volume e))
      (snd (process_delta book_A [(101, 3); (101, 4)]%float [(100, 6)]%float 3))
  = [("sell_limit_canceled"%string, 5%float, 2%float);
     ("sell_limit_added"%string, 3%float, 1%float);
     ("buy_limit_added"%string, 5%float, 1%float)].
Proof. reflexivity. Qed.

(** A delta with two rows on each side: four events, asks first, each side in
    input order. *)
Example process_delta_order_example :
  map (fun e => (action e, price e))
      (snd (process_delta book_A [(102, 7); (101, 0)]%float
                          [(99, 6); (100, 1)]%float 3))
  = [("sell_limit_added"%string, 102%float);
     ("market_buy"%string, 101%float);
     ("buy_limit_added"%string, 99%float);
     ("buy_limit_canceled"%string, 100%float)].
Proof. reflexivity. Qed.

(** ** What an update leaves of the extractor *)

Lemma book_with_book_same (side : Side) (s : LOBEventExtractor) (d : dict) :
  book (with_book side s d) side = d.
Proof. now destruct side. Qed.

Lemma book_with_book_other (side side' : Side) (s : LOBEventExtractor)
    (d : dict) :
  side' <> side -> book (with_book side' s d) side = book s side.
Proof. destruct side, side'; congruence || reflexivity. Qed.

Lemma book_ensure_sorted (s : LOBEventExtractor) (side : Side) :
  book (_ensure_sorted s) side = book s side.
Proof. now destruct side. Qed.

Lemma book_invalidate_sorted (s : LOBEventExtractor) (side : Side) :
  book (_invalidate_sorted s) side = book s side.
Proof. now destruct side. Qed.

Lemma max_depth_with_book (side : Side) (s : LOBEventExtractor) (d : dict) :
  max_depth (with_book side s d) = max_depth s.
Proof. now destruct side. Qed.

Lemma last_mid_price_with_book (side : Side) (s : LOBEventExtractor) (d : dict) :
  last_mid_price (with_book side s d) = last_mid_price s.
Proof. now destruct side. Qed.

Lemma sorted_view_with_book (side side' : Side) (s : LOBEventExtractor)
    (d : dict) :
  sorted_view (with_book side' s d) side = sorted_view s side.
Proof. now destruct side, side'. Qed.

Lemma ensure_sorted_with_book (side : Side) (s : LOBEventExtractor) (d : dict) :
  _ensure_sorted (with_book side (_ensure_sorted s) d)
  = with_book side (_ensure_sorted s) d.
Proof. now destruct side. Qed.

Lemma side_eq_dec (a b : Side) : {a = b} + {a <> b}.
Proof. decide equality. Qed.

Lemma chain_cons_inv (s s' : LOBEventExtractor) (u : Update)
    (us : list Update) :
  chain s (u :: us) s' ->
  s = u_before u
  /\ u_after u
     = with_book (u_side u) (_ensure_sorted (u_before u))
         (upsert (book (u_before u) (u_side u))
                 (fst (u_row u)) (snd (u_row u)))
  /\ chain (u_after u) us s'.
Proof. intros H. inversion H; subst. now repeat split. Qed.

(** A chain splits at each of its updates. *)
Lemma chain_split (us1 : list Update) (u : Update) (us2 : list Update) :
  forall s s',
    chain s (us1 ++ u :: us2) s' ->
    chain s us1 (u_before u)
    /\ u_after u
       = with_book (u_side u) (_ensure_sorted (u_before u))
           (upsert (book (u_before u) (u_side u))
                   (fst (u_row u)) (snd (u_row u)))
    /\ chain (u_after u) us2 s'.
Proof.
  induction us1 as [|v us1 IH]; intros s s' H; cbn [app] in H;
    apply chain_cons_inv in H; destruct H as (-> & Hafter & Hch).
  - split; [constructor|]. split; assumption.
  - destruct (IH _ _ Hch) as (H1 & H2 & H3).
    split; [constructor; assumption|]. split; assumption.
Qed.

(** Updates that write other prices, or the other side, leave the stored
    volume of a price as it was. *)
Lemma chain_get_other (side : Side) (p : float) (s s' : LOBEventExtractor)
    (us : list Update) :
  chain s us s' ->
  Forall (fun u' => u_side u' = side -> Py.eq (fst (u_row u')) p = false) us ->
  dict_get (book s' side) p 0 = dict_get (book s side) p 0.
Proof.
  induction 1 as [s|u us s' Hafter Hch IH]; intros Hfresh; [reflexivity|].
  inversion Hfresh as [|? ? Hu Hrest]; subst.
  rewrite (IH Hrest), Hafter.
  destruct (side_eq_dec (u_side u) side) as [E|E].
  - rewrite E, book_with_book_same.
    apply dict_get_upsert_other. now apply Hu.
  - rewrite book_with_book_other by exact E. now rewrite book_ensure_sorted.
Qed.

Lemma chain_mem_other (side : Side) (p : float) (s s' : LOBEventExtractor)
    (us : list Update) :
  chain s us s' ->
  Forall (fun u' => u_side u' = side -> Py.eq (fst (u_row u')) p = false) us ->
  dict_mem (book s' side) p = dict_mem (book s side) p.
Proof.
  induction 1 as [s|u us s' Hafter Hch IH]; intros Hfresh; [reflexivity|].
  inversion Hfresh as [|? ? Hu Hrest]; subst.
  rewrite (IH Hrest), Hafter.
  destruct (side_eq_dec (u_side u) side) as [E|E].
  - rewrite E, book_with_book_same.
    apply dict_mem_upsert_other. now apply Hu.
  - rewrite book_with_book_other by exact E. now rewrite book_ensure_sorted.
Qed.

(** The fields no update touches. *)
Lemma chain_max_depth (s s' : LOBEventExtractor) (us : list Update) :
  chain s us s' ->
  max_depth s' = max_depth s
  /\ Forall (fun u => max_depth (u_before u) = max_depth s) us.
Proof.
  induction 1 as [s|u us s' Hafter Hch [IH1 IH2]]; [now split|].
  rewrite Hafter, max_depth_with_book in IH1, IH2. cbn in IH1, IH2.
  split; [exact IH1|]. constructor; [reflexivity|exact IH2].
Qed.

Lemma chain_last_mid_price (s s' : LOBEventExtractor) (us : list Update) :
  chain s us s' -> last_mid_price s' = last_mid_price s.
Proof.
  induction 1 as [s|u us s' Hafter Hch IH]; [reflexivity|].
  now rewrite IH, Hafter, last_mid_price_with_book.
Qed.

Lemma process_delta_last_mid_price (self : LOBEventExtractor)
    (asks_rows bids_rows : rows) (idx : Z) :
  last_mid_price (fst (process_delta self asks_rows bids_rows idx))
  = last_mid_price self.
Proof.
  rewrite process_delta_updates. cbn [fst _invalidate_sorted last_mid_price].
  exact (chain_last_mid_price _ _ _ (delta_updates_chain _ _ _ _)).
Qed.

Lemma process_delta_max_depth (self : LOBEventExtractor)
    (asks_rows bids_rows : rows) (idx : Z) :
  max_depth (fst (process_delta self asks_rows bids_rows idx))
  = max_depth self.
Proof.
  rewrite process_delta_updates. cbn [fst _invalidate_sorted max_depth].
  exact (proj1 (chain_max_depth _ _ _ (delta_updates_chain _ _ _ _))).
Qed.

(** ** Representation invariants of the extractor *)

Lemma books_unique_book (s : LOBEventExtractor) (side : Side) :
  books_unique s -> unique_keys (book s side) = true.
Proof. intros [H1 H2]. now destruct side. Qed.

Lemma books_unique_step (side : Side) (s : LOBEventExtractor) (p vol : float) :
  books_unique s ->
  books_unique
    (with_book side (_ensure_sorted s) (upsert (book s side) p vol)).
Proof.
  intros [H1 H2].
  destruct side; split; cbn; try assumption; now apply unique_keys_upsert.
Qed.

Lemma books_unique_init (n : Z) : books_unique (init n).
Proof. now split. Qed.

Lemma books_unique_process_snapshot (s : LOBEventExtractor)
    (asks_rows bids_rows : rows) :
  books_unique (process_snapshot s asks_rows bids_rows).
Proof. split; apply unique_keys_dict_of_rows. Qed.

Lemma books_unique_process_delta (s : LOBEventExtractor)
    (asks_rows bids_rows : rows) (idx : Z) :
  books_unique s ->
  books_unique (fst (process_delta s asks_rows bids_rows idx)).
Proof.
  intros H. rewrite process_delta_updates. cbn [fst].
  apply (delta_updates_invariant books_unique) with
    (asks_rows := asks_rows) (bids_rows := bids_rows) (idx := idx) in H.
  - exact (proj2 H).
  - intros side s0 p vol. apply books_unique_step.
Qed.

Lemma cache_ok_init (n : Z) : cache_ok (init n).
Proof. split; now left. Qed.

Lemma cache_ok_process_snapshot (s : LOBEventExtractor)
    (asks_rows bids_rows : rows) :
  cache_ok (process_snapshot s asks_rows bids_rows).
Proof. split; now left. Qed.

Lemma cache_ok_process_delta (s : LOBEventExtractor)
    (asks_rows bids_rows : rows) (idx : Z) :
  cache_ok (fst (process_delta s asks_rows bids_rows idx)).
Proof. rewrite process_delta_updates. split; now left. Qed.

Lemma cache_ok_depth_of_price (s : LOBEventExtractor) (x : float) (side : Side) :
  cache_ok s -> cache_ok (fst (_depth_of_price s x side)).
Proof.
  intros [[Ha|Ha] [Hb|Hb]]; split; right; cbn; rewrite ?Ha, ?Hb; reflexivity.
Qed.

Lemma cache_ok_with_last_mid_price (s : LOBEventExtractor) (m : option float) :
  cache_ok s -> cache_ok (with_last_mid_price s m).
Proof. trivial. Qed.

(** Every extractor built through the class has a sound cache and books
    with unique keys. *)
Lemma reachable_invariants (s : LOBEventExtractor) :
  reachable s -> cache_ok s /\ books_unique s.
Proof.
  induction 1 as [n|s a b _ _|s a b idx _ [_ IH]|s x side _ [IHc IHu]
                  |s m _ [IHc IHu]].
  - split; [apply cache_ok_init|apply books_unique_init].
  - split; [apply cache_ok_process_snapshot|apply books_unique_process_snapshot].
  - split; [apply cache_ok_process_delta|now apply books_unique_process_delta].
  - split; [now apply cache_ok_depth_of_price|exact IHu].
  - split; [exact IHc|exact IHu].
Qed.

(** With a sound cache, filling it gives the sorted keys of the book. *)
Lemma cache_ok_view (s : LOBEventExtractor) (side : Side) :
  cache_ok s -> sorted_view (_ensure_sorted s) side = fresh_view s side.
Proof.
  intros [[Ha|Ha] [Hb|Hb]]; destruct side; cbn; rewrite ?Ha, ?Hb; reflexivity.
Qed.

(** ** The mid-price and the previous volume of an event *)

(** Two float constants differ when [==] tells them apart. *)
Ltac float_neq v :=
  let H := fresh in
  intros H; apply (f_equal (fun x => PrimFloat.eqb x v)) in H;
  vm_compute in H; discriminate H.

Lemma delta_updates_events (self : LOBEventExtractor)
    (asks_rows bids_rows : rows) (idx : Z) :
  Forall (fun u =>
            u_events u = []
            \/ exists e,
                u_events u = [e]
                /\ price e = fst (u_row u) /\ index e = idx
                /\ side_of_action (action e) = Some (u_side u)
                /\ mid_price e = _mid_price (u_before u)
                /\ previous_vol e
                   = dict_get (book (u_before u) (u_side u)) (fst (u_row u)) 0
                /\ depth e
                   = snd (_depth_of_price (u_before u) (fst (u_row u)) (u_side u))
                /\ depth e < max_depth (u_before u))
         (delta_updates self asks_rows bids_rows idx).
Proof.
  eapply Forall_impl; [|apply delta_updates_shape].
  cbn beta. intros u [-> _]. apply classify_cases.
Qed.

(** The events of an update sit in the list [process_delta] returns
    between the events of the updates before it and those of the updates
    after it. *)
Lemma process_delta_events_split (self : LOBEventExtractor)
    (asks_rows bids_rows : rows) (idx : Z)
    (us1 : list Update) (u : Update) (us2 : list Update) :
  delta_updates self asks_rows bids_rows idx = us1 ++ u :: us2 ->
  snd (process_delta self asks_rows bids_rows idx)
  = concat (map u_events us1) ++ u_events u ++ concat (map u_events us2).
Proof.
  intros H. rewrite process_delta_updates. cbn [snd]. rewrite H.
  now rewrite map_app, concat_app.
Qed.

(** The book [process_delta] leaves, at a price no later update of the
    batch writes. *)
Lemma process_delta_final_get (self : LOBEventExtractor)
    (asks_rows bids_rows : rows) (idx : Z)
    (us1 : list Update) (u : Update) (us2 : list Update) :
  delta_updates self asks_rows bids_rows idx = us1 ++ u :: us2 ->
  no_other_write u us2 ->
  dict_get (book (fst (process_delta self asks_rows bids_rows idx)) (u_side u))
           (fst (u_row u)) 0
  = dict_get (book (u_after u) (u_side u)) (fst (u_row u)) 0
  /\ dict_mem (book (fst (process_delta self asks_rows bids_rows idx))
                    (u_side u)) (fst (u_row u))
     = dict_mem (book (u_after u) (u_side u)) (fst (u_row u)).
Proof.
  intros H Hfresh.
  pose proof (delta_updates_chain self asks_rows bids_rows idx) as Hch.
  rewrite H in Hch. apply chain_split in Hch. destruct Hch as (_ & _ & Hch).
  rewrite process_delta_updates. cbn [fst]. rewrite book_invalidate_sorted.
  split; [exact (chain_get_other _ _ _ _ _ Hch Hfresh)
         |exact (chain_mem_other _ _ _ _ _ Hch Hfresh)].
Qed.

(** C1, as stated, fails.  On the book of scenario A the delta
    [asks=[[101,0]]] emits one [market_buy] whose mid-price is [100.5], the
    mid of the book before the level 101 is removed; the book after this
    update's own removal has mid [101]. *)
Lemma mid_price_is_not_post_mutation :
  exists u e,
    delta_updates book_A [(101, 0)]%float [] 1 = [u]
    /\ snd (process_delta book_A [(101, 0)]%float [] 1) = [e]
    /\ u_events u = [e]
    /\ mid_price e = 100.5%float
    /\ _mid_price (u_after u) = 101%float
    /\ mid_price e <> _mid_price (u_after u).
Proof.
  eexists. eexists. split; [reflexivity|].
  split; [reflexivity|]. split; [reflexivity|].
  split; [reflexivity|]. split; [reflexivity|].
  vm_compute. float_neq 101%float.
Qed.

(** C1, amended.  For every delta update that passes the depth gate and
    emits an event, the event's mid-price is the mid-price of the book as the
    update found it: after all earlier updates of the same batch, before this
    update's own upsert or removal. *)
Theorem event_mid_price_before_own_mutation (self : LOBEventExtractor)
    (asks_rows bids_rows : rows) (idx : Z) :
  snd (process_delta self asks_rows bids_rows idx)
  = concat (map u_events (delta_updates self asks_rows bids_rows idx))
  /\ chain self (delta_updates self asks_rows bids_rows idx)
           (after_rows Bid idx (after_rows Ask idx self asks_rows) bids_rows)
  /\ Forall (fun u =>
               Forall (fun e => mid_price e = _mid_price (u_before u))
                      (u_events u))
            (delta_updates self asks_rows bids_rows idx).
Proof.
  split; [now rewrite process_delta_updates|].
  split; [apply delta_updates_chain|].
  eapply Forall_impl; [|apply delta_updates_events].
  cbn beta. intros u [->|(e & -> & _ & _ & _ & Hmid & _)]; [constructor|].
  constructor; [exact Hmid|constructor].
Qed.

(** C2, as stated, fails.  On the book of scenario A the delta
    [asks=[[101,3],[101,4]]] emits two events at 101; the second records the
    previous volume [3] written by the first row, not the volume [5] stored
    at the start of the batch. *)
Lemma previous_vol_is_not_pre_batch :
  exists e1 e2,
    snd (process_delta book_A [(101, 3); (101, 4)]%float [] 1) = [e1; e2]
    /\ price e2 = 101%float
    /\ dict_get (asks book_A) 101 0 = 5%float
    /\ previous_vol e2 = 3%float
    /\ previous_vol e2 <> dict_get (asks book_A) (price e2) 0.
Proof.
  eexists. eexists. split; [reflexivity|].
  split; [reflexivity|]. split; [reflexivity|]. split; [reflexivity|].
  vm_compute. float_neq 5%float.
Qed.

(** C2, amended.  For every update of a delta batch at a price that is not
    NaN, the previous volume used for classification and recorded on the
    event that [process_delta] returns for it is the volume stored at that
    price on that side when the update is processed, that is, after the
    earlier updates of the same batch; it is the volume stored at the start
    of the batch whenever no earlier update of the batch wrote that price on
    that side. *)
Theorem previous_vol_is_live_volume (self : LOBEventExtractor)
    (asks_rows bids_rows : rows) (idx : Z)
    (us1 : list Update) (u : Update) (us2 : list Update) :
  delta_updates self asks_rows bids_rows idx = us1 ++ u :: us2 ->
  snd (process_delta self asks_rows bids_rows idx)
  = concat (map u_events us1) ++ u_events u ++ concat (map u_events us2)
  /\ chain self us1 (u_before u)
  /\ u_events u
     = classify (u_side u) idx (u_before u) (fst (u_row u)) (snd (u_row u))
  /\ (Py.isnan (fst (u_row u)) = false ->
      Forall (fun e =>
                previous_vol e
                = dict_get (book (u_before u) (u_side u)) (fst (u_row u)) 0)
             (u_events u)
      /\ (no_other_write u us1 ->
          dict_get (book (u_before u) (u_side u)) (fst (u_row u)) 0
          = dict_get (book self (u_side u)) (fst (u_row u)) 0)).
Proof.
  intros Hsplit.
  pose proof (delta_updates_shape self asks_rows bids_rows idx) as Hshape.
  pose proof (delta_updates_events self asks_rows bids_rows idx) as Hev.
  pose proof (delta_updates_chain self asks_rows bids_rows idx) as Hch.
  rewrite Hsplit in Hshape, Hev, Hch.
  apply Forall_elt in Hshape, Hev.
  apply chain_split in Hch. destruct Hch as (Hch & _ & _).
  split; [now apply process_delta_events_split|].
  split; [exact Hch|].
  split; [exact (proj1 Hshape)|]. intros _. split.
  - destruct Hev as [->|(e & -> & _ & _ & _ & _ & Hprev & _)];
      [constructor|].
    constructor; [exact Hprev|constructor].
  - intros Hfresh. exact (chain_get_other _ _ _ _ _ Hch Hfresh).
Qed.

(** The second of two rows at the same ask price sees the volume the first
    one wrote; a row at a price not written before sees the pre-batch one;
    the three events are returned in the order of the rows. *)
Lemma previous_vol_is_live_volume_witness :
  exists u1 u2 u3,
    delta_updates book_A [(101, 3); (101, 4); (102, 6)]%float [] 1
    = [u1; u2; u3]
    /\ map previous_vol
           (snd (process_delta book_A [(101, 3); (101, 4); (102, 6)]%float [] 1))
       = [5; 3; 5]%float
    /\ snd (process_delta book_A [(101, 3); (101, 4); (102, 6)]%float [] 1)
       = concat (map u_events [u1; u2]) ++ u_events u3 ++ concat (map u_events [])
    /\ dict_get (book (u_before u3) (u_side u3)) (fst (u_row u3)) 0
       = dict_get (book book_A (u_side u3)) (fst (u_row u3)) 0.
Proof.
  eexists. eexists. eexists. split; [reflexivity|].
  split; [reflexivity|].
  destruct (previous_vol_is_live_volume book_A
              [(101, 3); (101, 4); (102, 6)]%float [] 1
              [_; _] _ [] eq_refl) as (H1 & _ & _ & H4).
  split; [exact H1|].
  apply (H4 eq_refl). repeat constructor.
Defined.

(** ** The degenerate removal *)

Lemma neg_change_of_zero (vol : float) :
  Py.eq vol 0 = true -> Py.eq (- (vol - 0))%float 0 = true.
Proof. intros H. destruct (py_eq_zero vol H) as [->| ->]; reflexivity. Qed.

Lemma not_stored_not_mem (d : dict) (p : float) :
  not_stored d p = true -> dict_mem d p = false.
Proof.
  unfold not_stored, dict_mem, same_key.
  induction (dict_keys d) as [|k ks IH]; [reflexivity|].
  cbn [forallb existsb]. intros H. apply andb_prop in H. destruct H as [Hk Hks].
  apply negb_true_iff, orb_false_elim in Hk. destruct Hk as [-> _].
  now apply IH.
Qed.

Lemma not_stored_cons (d : dict) (k v p : float) :
  not_stored ((k, v) :: d) p = negb (same_key k p) && not_stored d p.
Proof. reflexivity. Qed.

Lemma not_stored_set (d : dict) (k v p : float) :
  same_key k p = false ->
  not_stored d p = true -> not_stored (dict_set d k v) p = true.
Proof.
  intros Hk. induction d as [|[e w] d IH]; cbn [dict_set].
  - intros _. rewrite not_stored_cons, Hk. reflexivity.
  - rewrite not_stored_cons. intros H. apply andb_prop in H.
    destruct H as [He Hd].
    destruct (Py.eq e k); rewrite not_stored_cons, He; [exact Hd|now apply IH].
Qed.

Lemma not_stored_pop (d : dict) (k p : float) :
  not_stored d p = true -> not_stored (dict_pop d k) p = true.
Proof.
  induction d as [|[e w] d IH]; cbn [dict_pop]; [trivial|].
  rewrite not_stored_cons. intros H. apply andb_prop in H.
  destruct H as [He Hd].
  destruct (Py.eq e k); [exact Hd|]. rewrite not_stored_cons, He.
  now apply IH.
Qed.

Lemma not_stored_upsert (d : dict) (k v p : float) :
  same_key k p = false ->
  not_stored d p = true -> not_stored (upsert d k v) p = true.
Proof.
  intros Hk. unfold upsert.
  destruct (Py.eq v 0); [apply not_stored_pop|now apply not_stored_set].
Qed.

(** Updates that write other keys, or the other side, leave a price that is
    not stored not stored. *)
Lemma chain_not_stored (side : Side) (p : float) (s s' : LOBEventExtractor)
    (us : list Update) :
  chain s us s' ->
  no_write_at side p us ->
  not_stored (book s side) p = true -> not_stored (book s' side) p = true.
Proof.
  unfold no_write_at.
  induction 1 as [s|u us s' Hafter Hch IH]; intros Hfresh Hns; [exact Hns|].
  inversion Hfresh as [|? ? Hu Hrest]; subst.
  apply (IH Hrest). rewrite Hafter.
  destruct (side_eq_dec (u_side u) side) as [E|E].
  - rewrite E, book_with_book_same. apply not_stored_upsert; [now apply Hu|].
    exact Hns.
  - rewrite book_with_book_other by exact E. now rewrite book_ensure_sorted.
Qed.

(** C10. For every delta update with new volume [== 0] on a price that is
    not stored (no key is [==] to it, nor NaN when it is NaN), whose depth
    is below [max_depth], [process_delta] still returns, at the update's
    place in its list, one degenerate event ([market_buy] on the ask side,
    [market_sell] on the bid side) with volume zero, previous volume [0.0]
    and normalized volume change [1.0]; the update leaves the book of that
    side as it was, and the price is still not stored after the batch when
    no later update of the batch writes it. *)
Theorem removing_absent_level_emits_event (self : LOBEventExtractor)
    (asks_rows bids_rows : rows) (idx : Z)
    (us1 : list Update) (u : Update) (us2 : list Update) :
  delta_updates self asks_rows bids_rows idx = us1 ++ u :: us2 ->
  Py.eq (snd (u_row u)) 0 = true ->
  not_stored (book (u_before u) (u_side u)) (fst (u_row u)) = true ->
  snd (_depth_of_price (u_before u) (fst (u_row u)) (u_side u))
  < max_depth self ->
  exists e,
    snd (process_delta self asks_rows bids_rows idx)
    = concat (map u_events us1) ++ e :: concat (map u_events us2)
    /\ u_events u = [e]
    /\ action e = removed_name (u_side u)
    /\ price e = fst (u_row u)
    /\ index e = idx
    /\ depth e = snd (_depth_of_price (u_before u) (fst (u_row u)) (u_side u))
    /\ mid_price e = _mid_price (u_before u)
    /\ Py.eq (volume e) 0 = true
    /\ previous_vol e = 0%float
    /\ volume_change_normalized e = 1%float
    /\ book (u_after u) (u_side u) = book (u_before u) (u_side u)
    /\ not_stored (book (u_after u) (u_side u)) (fst (u_row u)) = true
    /\ (no_write_at (u_side u) (fst (u_row u)) us2 ->
        not_stored
          (book (fst (process_delta self asks_rows bids_rows idx)) (u_side u))
          (fst (u_row u)) = true).
Proof.
  intros Hsplit Hvol Hns Hdepth.
  pose proof (not_stored_not_mem _ _ Hns) as Hmem.
  pose proof (delta_updates_shape self asks_rows bids_rows idx) as Hshape.
  pose proof (delta_updates_chain self asks_rows bids_rows idx) as Hch.
  pose proof (proj2 (chain_max_depth _ _ _ Hch)) as Hmax.
  pose proof (process_delta_events_split _ _ _ _ _ _ _ Hsplit) as Hev.
  rewrite Hsplit in Hshape, Hch, Hmax.
  apply Forall_elt in Hshape, Hmax.
  destruct Hshape as [Hu Hafter]. rewrite <- Hmax in Hdepth.
  apply chain_split in Hch. destruct Hch as (_ & _ & Hch).
  assert (Hbook : book (u_after u) (u_side u) = book (u_before u) (u_side u)).
  { rewrite Hafter, book_with_book_same. unfold upsert. rewrite Hvol.
    now apply dict_pop_not_mem. }
  rewrite Hev, Hu. unfold classify.
  apply Z.ltb_lt in Hdepth. rewrite Hdepth, Hvol.
  rewrite (dict_get_not_mem _ _ _ Hmem).
  eexists. split; [reflexivity|]. split; [reflexivity|]. cbn.
  repeat split; try reflexivity.
  - now apply neg_change_of_zero.
  - exact Hbook.
  - now rewrite Hbook.
  - intros Hlater. rewrite process_delta_updates. cbn [fst].
    rewrite book_invalidate_sorted.
    apply (chain_not_stored _ _ _ _ _ Hch Hlater). now rewrite Hbook.
Qed.

(** On the book of scenario A, removing the ask 103 and the bid 98, which
    were never there, returns a [market_buy] and a [market_sell] of zero
    volume and leaves the book as it was. *)
Lemma removing_absent_level_emits_event_witness :
  exists e,
    snd (process_delta book_A [(103, 0)]%float [(98, 0)]%float 4)
    = concat (map u_events [])
      ++ e :: concat (map u_events [nth_update 1 absent_removals])
    /\ map action (snd (process_delta book_A [(103, 0)]%float [(98, 0)]%float 4))
       = ["market_buy"; "market_sell"]%string
    /\ price e = 103%float
    /\ Py.eq (volume e) 0 = true
    /\ previous_vol e = 0%float
    /\ volume_change_normalized e = 1%float
    /\ not_stored
         (book (fst (process_delta book_A [(103, 0)]%float [(98, 0)]%float 4))
               Ask) 103 = true.
Proof.
  destruct (removing_absent_level_emits_event book_A
              [(103, 0)]%float [(98, 0)]%float 4
              [] (nth_update 0 absent_removals) [nth_update 1 absent_removals]
              eq_refl eq_refl eq_refl eq_refl)
    as (e & H1 & _ & _ & H4 & _ & _ & _ & H8 & H9 & H10 & _ & _ & H13).
  exists e. split; [exact H1|]. split; [reflexivity|].
  split; [exact H4|]. split; [exact H8|]. split; [exact H9|].
  split; [exact H10|]. apply H13. repeat constructor.
Defined.

(** ** The drivers and their gates *)

Lemma parse_file_changed_None (mid : float) :
  parse_file_changed None mid = inl Py.TypeError.
Proof. reflexivity. Qed.

(** The first line of [parse_file] always reaches the gate with no mid-price
    recorded. *)
Lemma parse_file_loop_first (extractor : LOBEventExtractor) (idx : Z)
    (l : Message) (rest : list Message) :
  last_mid_price extractor = None ->
  parse_file_loop extractor idx (l :: rest) = mkGenerated [] (Some Py.TypeError).
Proof.
  intros Hlast. cbn [parse_file_loop].
  destruct (type_is l "snapshot").
  - cbn [process_snapshot _invalidate_sorted with_bids with_asks last_mid_price].
    now rewrite Hlast.
  - destruct (type_is l "delta").
    + destruct (process_delta _ _ _ _) as [s evs] eqn:E.
      assert (Hs : last_mid_price s = None).
      { rewrite <- Hlast.
        change s with (fst (s, evs)). rewrite <- E.
        apply process_delta_last_mid_price. }
      now rewrite Hs.
    + now rewrite Hlast.
Qed.

(** On lines that are message objects with float rows, the first iteration
    of [parse_file] raises [TypeError] while evaluating the gate,
    [math.isnan] being applied to [last_mid_price], still [None] from
    construction, before anything is yielded. *)
Theorem parse_file_raises_TypeError :
  (forall n, math_isnan (last_mid_price (init n)) = inl Py.TypeError)
  /\ (forall (l : Message) (rest : list Message) (n : Z),
         parse_file (l :: rest) n = mkGenerated [] (Some Py.TypeError))
  /\ (forall (lines : list Message) (n : Z), yielded (parse_file lines n) = []).
Proof.
  split; [reflexivity|].
  assert (H : forall l rest n,
             parse_file (l :: rest) n = mkGenerated [] (Some Py.TypeError)).
  { intros l rest n. now apply parse_file_loop_first. }
  split; [exact H|].
  intros [|l rest] n; [reflexivity|]. now rewrite H.
Qed.

(** Where the gate of [infer_events_from_lines] stands against the rule of
    the specification: it reports exactly what the rule reports, and also a
    NaN that follows a NaN. *)
Lemma infer_changed_canonical (last : option float) (mid : float) :
  infer_changed last mid
  = hasChanged (option_map observation last) (observation mid)
    || both_nan last mid.
Proof.
  unfold infer_changed, both_nan, observation.
  destruct last as [l|]; [|reflexivity]. cbn [is_None opt_ne option_map orb].
  destruct (Py.isnan l) eqn:El, (Py.isnan mid) eqn:Em; cbn [hasChanged andb].
  - now rewrite py_ne_nan.
  - now rewrite py_ne_nan.
  - now rewrite py_ne_nan_r.
  - now rewrite orb_false_r.
Qed.

(** So does the gate of [parse_file] once a mid-price has been recorded;
    with none recorded it raises. *)
Lemma parse_file_changed_canonical (l mid : float) :
  parse_file_changed (Some l) mid
  = inr (hasChanged (Some (observation l)) (observation mid)
         || both_nan (Some l) mid).
Proof.
  unfold parse_file_changed, both_nan, observation.
  cbn [math_isnan is_None opt_ne orb].
  destruct (Py.isnan l) eqn:El, (Py.isnan mid) eqn:Em;
    cbn [hasChanged andb negb orb].
  - now rewrite py_ne_nan.
  - reflexivity.
  - now rewrite py_ne_nan_r.
  - now rewrite orb_false_r.
Qed.

(** C3: the drivers at two inputs.  Two deltas that each leave the bid side
    empty: [infer_events_from_lines] records the NaN mid-price twice, where
    the canonical rule reports no change from Invalid to Invalid.  A first
    line of any kind: [parse_file] raises [TypeError] at the gate, where the
    canonical rule reports a change. *)
Theorem gates_depart_from_canonical_rule :
  (exists evs,
      infer_events_from_lines [delta_ask_101; delta_ask_102]
      = inr (evs, [Py.nan; Py.nan])
      /\ map price evs = [101; 102]%float)
  /\ infer_changed (Some Py.nan) Py.nan = true
  /\ hasChanged (Some (observation Py.nan)) (observation Py.nan) = false
  /\ parse_file [snapshot_A] 50 = mkGenerated [] (Some Py.TypeError)
  /\ parse_file_changed None 100.5 = inl Py.TypeError
  /\ hasChanged None (observation 100.5) = true.
Proof.
  split; [eexists; split; reflexivity|].
  repeat split.
Qed.

(** ** Zero-volume levels *)

Lemma no_zero_volume_set (d : dict) (k v : float) :
  Py.eq v 0 = false ->
  no_zero_volume d = true -> no_zero_volume (dict_set d k v) = true.
Proof.
  intros Hv. unfold no_zero_volume.
  induction d as [|[e w] d IH]; cbn [dict_set forallb snd].
  - now rewrite Hv.
  - intros H. apply andb_prop in H. destruct H as [H1 H2].
    destruct (Py.eq e k); cbn [forallb snd].
    + now rewrite Hv, H2.
    + now rewrite H1, IH.
Qed.

Lemma no_zero_volume_pop (d : dict) (k : float) :
  no_zero_volume d = true -> no_zero_volume (dict_pop d k) = true.
Proof.
  unfold no_zero_volume.
  induction d as [|[e w] d IH]; cbn [dict_pop forallb snd]; [trivial|].
  intros H. apply andb_prop in H. destruct H as [H1 H2].
  destruct (Py.eq e k); [exact H2|]. cbn [forallb snd]. now rewrite H1, IH.
Qed.

Lemma no_zero_volume_upsert (d : dict) (k v : float) :
  no_zero_volume d = true -> no_zero_volume (upsert d k v) = true.
Proof.
  unfold upsert. destruct (Py.eq v 0) eqn:E;
    [apply no_zero_volume_pop|now apply no_zero_volume_set].
Qed.

(** The delta path keeps the books free of zero-volume levels. *)
Lemma process_delta_no_zero_volume (self : LOBEventExtractor)
    (asks_rows bids_rows : rows) (idx : Z) :
  no_zero_volume (asks self) = true /\ no_zero_volume (bids self) = true ->
  let self' := fst (process_delta self asks_rows bids_rows idx) in
  no_zero_volume (asks self') = true /\ no_zero_volume (bids self') = true.
Proof.
  intros H. cbn zeta. rewrite process_delta_updates. cbn [fst].
  apply (delta_updates_invariant
           (fun s => no_zero_volume (asks s) = true
                     /\ no_zero_volume (bids s) = true))
    with (asks_rows := asks_rows) (bids_rows := bids_rows) (idx := idx) in H.
  - exact (proj2 H).
  - intros side s p vol [H1 H2].
    destruct side; split; cbn; try assumption; now apply no_zero_volume_upsert.
Qed.

(** C4: the snapshot path at one input.  [process_snapshot] on
    [asks=[[101,0]]] stores the level 101 with volume [0.0]; the book then
    has a best ask at a price with no volume, and a later delta at another
    price leaves the level in place. *)
Theorem process_snapshot_stores_zero_volume :
  asks (process_snapshot (init 50) [(101, 0)]%float [(100, 5)]%float)
  = [(101, 0)]%float
  /\ no_zero_volume
       (asks (process_snapshot (init 50) [(101, 0)]%float [(100, 5)]%float))
     = false
  /\ _mid_price (process_snapshot (init 50) [(101, 0)]%float [(100, 5)]%float)
     = 100.5%float
  /\ asks (fst (process_delta
                  (process_snapshot (init 50) [(101, 0)]%float [(100, 5)]%float)
                  [(102, 5)]%float [] 1))
     = [(101, 0); (102, 5)]%float.
Proof. repeat split. Qed.

(** ** The views of a batch *)

Lemma sorted_asks_ensure_sorted (s : LOBEventExtractor) :
  _sorted_asks (_ensure_sorted s) = Some (sorted_view (_ensure_sorted s) Ask).
Proof. reflexivity. Qed.

Lemma sorted_bids_ensure_sorted (s : LOBEventExtractor) :
  _sorted_bids (_ensure_sorted s) = Some (sorted_view (_ensure_sorted s) Bid).
Proof. reflexivity. Qed.

Lemma sorted_asks_with_book (side : Side) (s : LOBEventExtractor) (d : dict) :
  _sorted_asks (with_book side s d) = _sorted_asks s.
Proof. now destruct side. Qed.

Lemma sorted_bids_with_book (side : Side) (s : LOBEventExtractor) (d : dict) :
  _sorted_bids (with_book side s d) = _sorted_bids s.
Proof. now destruct side. Qed.

(** Once the cache is filled, the writes of a batch do not change what
    [_ensure_sorted] hands out. *)
Lemma pinned_step (view : Side -> list float) (side' : Side)
    (s : LOBEventExtractor) (p vol : float) :
  (forall side, sorted_view (_ensure_sorted s) side = view side) ->
  forall side,
    sorted_view
      (_ensure_sorted
         (with_book side' (_ensure_sorted s) (upsert (book s side') p vol)))
      side
    = view side.
Proof.
  intros H side. now rewrite ensure_sorted_with_book, sorted_view_with_book.
Qed.

(** Throughout a batch that starts with a sound cache, every update finds
    the views of the start of the batch. *)
Lemma delta_updates_pinned (self : LOBEventExtractor)
    (asks_rows bids_rows : rows) (idx : Z) :
  cache_ok self ->
  Forall (fun u =>
            forall side,
              sorted_view (_ensure_sorted (u_before u)) side
              = fresh_view self side)
         (delta_updates self asks_rows bids_rows idx).
Proof.
  intros Hok.
  apply (delta_updates_invariant
           (fun s => forall side,
                sorted_view (_ensure_sorted s) side = fresh_view self side)).
  - intros side' s p vol H. now apply pinned_step.
  - intros side. now apply cache_ok_view.
Qed.

(** Every update of the batch is ranked in the views of its start. *)
Lemma delta_updates_rank (self : LOBEventExtractor)
    (asks_rows bids_rows : rows) (idx : Z) :
  cache_ok self ->
  Forall (fun u =>
            forall side x,
              snd (_depth_of_price (u_before u) x side)
              = Z.of_nat (rank (fresh_view self side) side x))
         (delta_updates self asks_rows bids_rows idx).
Proof.
  intros Hok.
  eapply Forall_impl; [|apply (delta_updates_pinned _ _ _ _ Hok)].
  cbn beta. intros u Hpin side x.
  rewrite depth_of_price_rank. cbn [snd]. now rewrite Hpin.
Qed.

(** C7. Throughout one delta batch the sorted views used for depth ranking
    are those of the book at the start of the batch: every update of the
    batch, on either side and however many writes came before it, is ranked
    in the pre-batch ordering, the events carry that rank, the cached views
    are still the pre-batch ones after every update, and both are
    invalidated when the batch has finished. *)
Theorem views_pinned_to_batch_start (self : LOBEventExtractor)
    (asks_rows bids_rows : rows) (idx : Z) :
  cache_ok self ->
  Forall (fun u =>
            (forall side x,
                snd (_depth_of_price (u_before u) x side)
                = Z.of_nat (rank (fresh_view self side) side x))
            /\ Forall (fun e =>
                         depth e
                         = Z.of_nat (rank (fresh_view self (u_side u))
                                          (u_side u) (fst (u_row u))))
                      (u_events u)
            /\ _sorted_asks (u_after u) = Some (fresh_view self Ask)
            /\ _sorted_bids (u_after u) = Some (fresh_view self Bid))
         (delta_updates self asks_rows bids_rows idx)
  /\ _sorted_asks (fst (process_delta self asks_rows bids_rows idx)) = None
  /\ _sorted_bids (fst (process_delta self asks_rows bids_rows idx)) = None.
Proof.
  intros Hok. split; [|now rewrite process_delta_updates].
  pose proof (delta_updates_pinned self asks_rows bids_rows idx Hok) as Hpin.
  pose proof (delta_updates_rank self asks_rows bids_rows idx Hok) as Hrank.
  pose proof (delta_updates_shape self asks_rows bids_rows idx) as Hshape.
  pose proof (delta_updates_events self asks_rows bids_rows idx) as Hev.
  rewrite Forall_forall in *. intros u Hin.
  specialize (Hpin u Hin). specialize (Hrank u Hin).
  destruct (Hshape u Hin) as [_ Hafter].
  split; [exact Hrank|]. split; [|split].
  - destruct (Hev u Hin) as [->|(e & -> & _ & _ & _ & _ & _ & Hd & _)];
      [constructor|].
    constructor; [|constructor]. now rewrite Hd, Hrank.
  - now rewrite Hafter, sorted_asks_with_book, sorted_asks_ensure_sorted, Hpin.
  - now rewrite Hafter, sorted_bids_with_book, sorted_bids_ensure_sorted, Hpin.
Qed.

(** On the book of scenario A, the delta [asks=[[101,0],[102,6]]] removes the
    best ask first; the second row is still ranked behind it, at depth 1. *)
Lemma views_pinned_to_batch_start_witness :
  cache_ok book_A
  /\ map depth (snd (process_delta book_A [(101, 0); (102, 6)]%float [] 5))
     = [0; 1]
  /\ Forall (fun u =>
               Forall (fun e =>
                         depth e
                         = Z.of_nat (rank (fresh_view book_A (u_side u))
                                          (u_side u) (fst (u_row u))))
                      (u_events u))
            (delta_updates book_A [(101, 0); (102, 6)]%float [] 5)
  /\ _sorted_asks (fst (process_delta book_A [(101, 0); (102, 6)]%float [] 5))
     = None.
Proof.
  assert (Hok : cache_ok book_A) by (split; left; reflexivity).
  split; [exact Hok|]. split; [reflexivity|].
  destruct (views_pinned_to_batch_start book_A
              [(101, 0); (102, 6)]%float [] 5 Hok) as (H & Ha & _).
  split; [|exact Ha].
  eapply Forall_impl; [|exact H].
  cbn beta. intros u (_ & Hd & _). exact Hd.
Defined.

(** ** The depth gate and the unconditional write *)

(** C6. For every delta processed with threshold [max_depth = k], an update
    whose pre-batch depth is [>= k] produces no event, and the write is made
    all the same: after the batch, the volume stored at that price ([0.0]
    standing for an absent level) is the last new volume given for that
    price in the batch. *)
Theorem depth_gate_keeps_the_write (self : LOBEventExtractor)
    (asks_rows bids_rows : rows) (idx : Z)
    (us1 : list Update) (u : Update) (us2 : list Update) :
  cache_ok self ->
  books_unique self ->
  delta_updates self asks_rows bids_rows idx = us1 ++ u :: us2 ->
  let side := u_side u in
  let p := fst (u_row u) in
  let vol := snd (u_row u) in
  let self' := fst (process_delta self asks_rows bids_rows idx) in
  (max_depth self <= Z.of_nat (rank (fresh_view self side) side p) ->
   u_events u = [])
  /\ (Py.isnan p = false ->
      no_other_write u us2 ->
      dict_get (book self' side) p 0 = (if Py.eq vol 0 then 0%float else vol)
      /\ dict_mem (book self' side) p = negb (Py.eq vol 0)).
Proof.
  intros Hok Huniq Hsplit. cbn zeta.
  pose proof (delta_updates_shape self asks_rows bids_rows idx) as Hshape.
  pose proof (delta_updates_chain self asks_rows bids_rows idx) as Hch.
  pose proof (delta_updates_rank self asks_rows bids_rows idx Hok) as Hpin.
  pose proof (proj1 (delta_updates_invariant books_unique
                       (fun side s p vol => books_unique_step side s p vol)
                       self asks_rows bids_rows idx Huniq)) as Hu.
  pose proof (proj2 (chain_max_depth _ _ _ Hch)) as Hmax.
  rewrite Hsplit in Hshape, Hch, Hpin, Hu, Hmax.
  apply Forall_elt in Hshape, Hpin, Hu, Hmax.
  destruct Hshape as [Hev Hafter].
  split.
  - intros Hdeep. rewrite Hev. unfold classify.
    rewrite Hpin, Hmax.
    apply Z.ltb_ge in Hdeep. now rewrite Hdeep.
  - intros Hp Hfresh.
    apply chain_split in Hch. destruct Hch as (_ & _ & Hch).
    rewrite process_delta_updates. cbn [fst].
    rewrite book_invalidate_sorted.
    pose proof (books_unique_book _ (u_side u) Hu) as Hub.
    split.
    + rewrite (chain_get_other _ _ _ _ _ Hch Hfresh).
      rewrite Hafter, book_with_book_same.
      now apply dict_get_upsert_same.
    + rewrite (chain_mem_other _ _ _ _ _ Hch Hfresh).
      rewrite Hafter, book_with_book_same.
      now apply dict_mem_upsert_same.
Qed.

(** Behind the threshold [max_depth = 1], the delta
    [asks=[[102,7],[102,0],[102,9]]] on the book of scenario A writes the
    level 102, at pre-batch depth 1, three times: no event, and the book ends
    with the last volume, 9. *)
Lemma depth_gate_keeps_the_write_witness :
  cache_ok book_A1
  /\ books_unique book_A1
  /\ u_events (nth_update 2 deep_writes) = []
  /\ snd (process_delta book_A1 [(102, 7); (102, 0); (102, 9)]%float [] 6) = []
  /\ dict_get
       (asks (fst (process_delta book_A1
                     [(102, 7); (102, 0); (102, 9)]%float [] 6))) 102 0
     = 9%float.
Proof.
  assert (Hok : cache_ok book_A1) by (split; left; reflexivity).
  assert (Hu : books_unique book_A1) by (split; reflexivity).
  split; [exact Hok|]. split; [exact Hu|].
  destruct (depth_gate_keeps_the_write book_A1
              [(102, 7); (102, 0); (102, 9)]%float [] 6
              [nth_update 0 deep_writes; nth_update 1 deep_writes]
              (nth_update 2 deep_writes) [] Hok Hu eq_refl) as [H1 H2].
  split; [apply H1; vm_compute; discriminate|].
  split; [reflexivity|].
  apply H2; [reflexivity|constructor].
Defined.

(** * Further properties of the extractor *)

(** ** More float facts *)

Section FloatOrder.

Import SpecFloat.

Ltac sf_cmp :=
  repeat match goal with
         | |- context [Pos.compare_cont Eq ?a ?b] =>
             rewrite (Pos.compare_cont_spec a b Eq); cbn [Pos.switch_Eq]
         end;
  repeat match goal with
         | |- context [Z.compare ?a ?b] => destruct (Z.compare_spec a b)
         | |- context [Pos.compare ?a ?b] => destruct (Pos.compare_spec a b)
         end;
  cbn; intros; subst; try reflexivity; try discriminate; try lia.

Ltac sf_signs :=
  repeat match goal with s : bool |- _ => destruct s end.

Lemma SFleb_trans (a b c : spec_float) :
  SFleb a b = true -> SFleb b c = true -> SFleb a c = true.
Proof.
  unfold SFleb, SFcompare.
  destruct a as [sa|sa| |sa ma ea], b as [sb|sb| |sb mb eb],
           c as [sc|sc| |sc mc ec];
    try (intros; discriminate); sf_signs;
    try (intros; reflexivity); try (intros; discriminate); sf_cmp.
Qed.

Lemma SFltb_leb (a b : spec_float) : SFltb a b = true -> SFleb a b = true.
Proof. unfold SFltb, SFleb. destruct (SFcompare a b) as [[]|]; congruence. Qed.

Lemma SFleb_total (a b : spec_float) :
  a <> S754_nan -> b <> S754_nan -> SFltb b a = false -> SFleb a b = true.
Proof.
  unfold SFleb, SFltb, SFcompare.
  destruct a as [sa|sa| |sa ma ea], b as [sb|sb| |sb mb eb];
    try congruence; sf_signs; intros _ _;
    try (intros; reflexivity); try (intros; discriminate); sf_cmp.
Qed.

Lemma SFleb_refl (a : spec_float) : a <> S754_nan -> SFleb a a = true.
Proof.
  unfold SFleb, SFcompare. destruct a as [s|s| |s m e]; try congruence;
    try destruct s; intros _; try reflexivity; sf_cmp.
Qed.

Lemma SFltb_not_eqb (a b : spec_float) : SFltb a b = true -> SFeqb b a = false.
Proof.
  unfold SFeqb, SFltb, SFcompare.
  destruct a as [sa|sa| |sa ma ea], b as [sb|sb| |sb mb eb];
    try congruence; sf_signs;
    try (intros; reflexivity); try (intros; discriminate); sf_cmp.
Qed.

Lemma SFltb_opp (a : spec_float) :
  SFltb a (S754_zero false) = true -> SFltb (S754_zero false) (SFopp a) = true.
Proof.
  unfold SFltb, SFcompare, SFopp.
  destruct a as [s|s| |s m e]; try discriminate; now destruct s.
Qed.

Lemma isnan_Prim2SF (x : float) :
  Py.isnan x = false -> Prim2SF x <> S754_nan.
Proof.
  unfold Py.isnan, is_nan. rewrite eqb_spec. intros H E. rewrite E in H.
  discriminate.
Qed.

Lemma py_le_trans (x y z : float) :
  Py.le x y = true -> Py.le y z = true -> Py.le x z = true.
Proof. unfold Py.le. rewrite !leb_spec. apply SFleb_trans. Qed.

Lemma py_lt_le (x y : float) : Py.lt x y = true -> Py.le x y = true.
Proof. unfold Py.lt, Py.le. rewrite ltb_spec, leb_spec. apply SFltb_leb. Qed.

Lemma py_le_total (x y : float) :
  Py.isnan x = false -> Py.isnan y = false ->
  Py.lt y x = false -> Py.le x y = true.
Proof.
  intros Hx Hy. unfold Py.lt, Py.le. rewrite ltb_spec, leb_spec.
  apply SFleb_total; now apply isnan_Prim2SF.
Qed.

Lemma py_le_refl (x : float) : Py.isnan x = false -> Py.le x x = true.
Proof.
  intros Hx. unfold Py.le. rewrite leb_spec.
  now apply SFleb_refl, isnan_Prim2SF.
Qed.

(** A positive volume is not [== 0.0]. *)
Lemma py_gt_zero_not_eq (v : float) : Py.gt v 0 = true -> Py.eq v 0 = false.
Proof.
  unfold Py.gt, Py.eq. rewrite ltb_spec, eqb_spec. apply SFltb_not_eqb.
Qed.

(** [-x > 0] when [x < 0]. *)
Lemma py_opp_gt_zero (x : float) :
  Py.lt x 0 = true -> Py.gt (- x)%float 0 = true.
Proof.
  unfold Py.lt, Py.gt. rewrite !ltb_spec, opp_spec.
  change (Prim2SF 0) with (S754_zero false). apply SFltb_opp.
Qed.

(** [x - 0.0] is [x]. *)
Lemma sub_zero_r (x : float) : (x - 0)%float = x.
Proof.
  apply Prim2SF_inj. rewrite sub_spec. unfold SF64sub, SFsub.
  change (Prim2SF 0) with (S754_zero false).
  destruct (Prim2SF x) as [s|s| |s m e]; try reflexivity. now destruct s.
Qed.

(** [-(z - p)] is [p] when [z == 0.0] and [p > 0]. *)
Lemma opp_zero_sub (z p : float) :
  Py.eq z 0 = true -> Py.gt p 0 = true -> (- (z - p))%float = p.
Proof.
  unfold Py.eq, Py.gt. rewrite eqb_spec, ltb_spec.
  change (Prim2SF 0) with (S754_zero false).
  intros Hz Hp. apply Prim2SF_inj. rewrite opp_spec, sub_spec.
  unfold SF64sub, SFsub.
  destruct (Prim2SF z) as [sz|sz| |sz mz ez]; try discriminate;
    try (destruct sz; discriminate).
  destruct (Prim2SF p) as [s|s| |s m e]; try discriminate; cbn;
    now rewrite ?negb_involutive.
Qed.

(** [x - x] is [0.0] or NaN: neither [> 0] nor [< 0]. *)
Lemma sub_self_no_sign (x : float) :
  Py.gt (x - x)%float 0 = false /\ Py.lt (x - x)%float 0 = false.
Proof.
  unfold Py.gt, Py.lt. rewrite !ltb_spec, sub_spec.
  change (Prim2SF 0) with (S754_zero false).
  unfold SF64sub, SFsub.
  destruct (Prim2SF x) as [s|s| |s m e].
  - now destruct s.
  - now destruct s.
  - now split.
  - cbv zeta. rewrite Z.sub_diag. now split.
Qed.

(** Volumes that are [==] and not zero are the same float. *)
Lemma py_eq_nonzero (v w : float) :
  Py.eq v w = true -> Py.eq v 0 = false -> v = w.
Proof.
  unfold Py.eq. rewrite !eqb_spec. change (Prim2SF 0) with (S754_zero false).
  intros H Hz. apply Prim2SF_inj.
  destruct (SFeqb_cases _ _ H) as [[E _]|(s & t & E & _)]; [exact E|].
  rewrite E in Hz. discriminate.
Qed.

End FloatOrder.

(** ** Snapshots *)

Lemma dict_get_set_eq (d : dict) (k p v dflt : float) :
  Py.eq k p = true -> dict_get (dict_set d k v) p dflt = v.
Proof.
  intros Hk. induction d as [|[e w] d IH]; cbn [dict_set dict_get].
  - now rewrite Hk.
  - destruct (Py.eq e k) eqn:E; cbn [dict_get];
      rewrite <- (py_eq_congr e k p Hk), E; [reflexivity|exact IH].
Qed.

Lemma fold_set_get_other (rs : rows) (p dflt : float) :
  Forall (fun r => Py.eq (fst r) p = false) rs ->
  forall d,
    dict_get (fold_left (fun d row => dict_set d (fst row) (snd row)) rs d)
             p dflt
    = dict_get d p dflt.
Proof.
  induction 1 as [|r rs Hr _ IH]; intros d; [reflexivity|].
  cbn [fold_left]. rewrite IH. now apply dict_get_set_other.
Qed.

Lemma fold_set_mem (rs : rows) (p : float) :
  forall d,
    dict_mem (fold_left (fun d row => dict_set d (fst row) (snd row)) rs d) p
    = dict_mem d p || existsb (fun r => Py.eq (fst r) p) rs.
Proof.
  induction rs as [|r rs IH]; intros d; cbn [fold_left existsb].
  - now rewrite orb_false_r.
  - now rewrite IH, dict_mem_set, orb_assoc.
Qed.

Lemma book_process_snapshot (s : LOBEventExtractor) (asks_rows bids_rows : rows)
    (side : Side) :
  book (process_snapshot s asks_rows bids_rows) side
  = dict_of_rows (side_rows side asks_rows bids_rows).
Proof. now destruct side. Qed.

(** X1. After [process_snapshot] a side stores exactly the prices of the
    snapshot's rows for that side, whatever the books held before: a price
    that is not NaN is a key of the new book iff some row of that side has a
    price [==] to it. *)
Theorem process_snapshot_levels (s : LOBEventExtractor)
    (asks_rows bids_rows : rows) (side : Side) (p : float) :
  Py.isnan p = false ->
  dict_mem (book (process_snapshot s asks_rows bids_rows) side) p
  = existsb (fun r => Py.eq (fst r) p) (side_rows side asks_rows bids_rows).
Proof.
  intros _. rewrite book_process_snapshot. unfold dict_of_rows.
  now rewrite fold_set_mem.
Qed.

Lemma process_snapshot_levels_witness :
  dict_mem (book (process_snapshot book_A [(103, 1); (104, 2)]%float [] ) Ask)
           104 = true
  /\ dict_mem (book (process_snapshot book_A [(103, 1); (104, 2)]%float [] ) Ask)
              101 = false.
Proof.
  split.
  - rewrite (process_snapshot_levels book_A [(103, 1); (104, 2)]%float [] Ask
               104 eq_refl).
    reflexivity.
  - rewrite (process_snapshot_levels book_A [(103, 1); (104, 2)]%float [] Ask
               101 eq_refl).
    reflexivity.
Defined.

(** X2. When a snapshot lists a price more than once on a side, the last row
    wins: the volume stored at the price is the volume of the last row of
    that side whose price is [==] to it. *)
Theorem process_snapshot_last_wins (s : LOBEventExtractor)
    (asks_rows bids_rows : rows) (side : Side)
    (pre : rows) (k v : float) (post : rows) (p : float) :
  side_rows side asks_rows bids_rows = pre ++ (k, v) :: post ->
  Py.eq k p = true ->
  Forall (fun r => Py.eq (fst r) p = false) post ->
  dict_get (book (process_snapshot s asks_rows bids_rows) side) p 0 = v.
Proof.
  intros Hrows Hk Hpost.
  rewrite book_process_snapshot, Hrows. unfold dict_of_rows.
  rewrite fold_left_app. cbn [fold_left fst snd].
  rewrite (fold_set_get_other _ _ _ Hpost). now apply dict_get_set_eq.
Qed.

Lemma process_snapshot_last_wins_witness :
  dict_get
    (book (process_snapshot (init 50)
             [(101, 5); (102, 5); (101, 7); (103, 1)]%float [] ) Ask)
    101 0
  = 7%float.
Proof.
  apply (process_snapshot_last_wins (init 50)
           [(101, 5); (102, 5); (101, 7); (103, 1)]%float [] Ask
           [(101, 5); (102, 5)]%float 101 7 [(103, 1)]%float 101).
  - reflexivity.
  - reflexivity.
  - repeat constructor.
Defined.

(** X3. A snapshot replaces the books wholesale: the extractor after a
    snapshot is the same whatever snapshot or delta was processed before
    it, and whatever depth was queried. *)
Theorem process_snapshot_forgets (s : LOBEventExtractor)
    (a b a' b' : rows) (idx : Z) (x : float) (side : Side) :
  process_snapshot (process_snapshot s a b) a' b' = process_snapshot s a' b'
  /\ process_snapshot (fst (process_delta s a b idx)) a' b'
     = process_snapshot s a' b'
  /\ process_snapshot (fst (_depth_of_price s x side)) a' b'
     = process_snapshot s a' b'.
Proof.
  split; [reflexivity|]. split; [|reflexivity].
  unfold process_snapshot, with_asks, with_bids, _invalidate_sorted.
  cbn [max_depth asks bids last_mid_price].
  now rewrite process_delta_max_depth, process_delta_last_mid_price.
Qed.

(** ** The books after a delta *)

Lemma book_after_rows_same (side : Side) (idx : Z) (rs : rows) :
  forall s,
    book (after_rows side idx s rs) side = apply_rows (book s side) rs.
Proof.
  induction rs as [|[p vol] rest IH]; intros s; [reflexivity|].
  rewrite after_rows_cons, IH, book_with_book_same. reflexivity.
Qed.

Lemma book_after_rows_other (side side' : Side) (idx : Z) (rs : rows) :
  side' <> side ->
  forall s, book (after_rows side' idx s rs) side = book s side.
Proof.
  intros Hne. induction rs as [|[p vol] rest IH]; intros s; [reflexivity|].
  rewrite after_rows_cons, IH, book_with_book_other by exact Hne.
  apply book_ensure_sorted.
Qed.

(** The books after a delta are the rows of each side written in order: they
    depend neither on the threshold, nor on the index, nor on the cache. *)
Lemma process_delta_book (s : LOBEventExtractor) (asks_rows bids_rows : rows)
    (idx : Z) (side : Side) :
  book (fst (process_delta s asks_rows bids_rows idx)) side
  = apply_rows (book s side) (side_rows side asks_rows bids_rows).
Proof.
  rewrite process_delta_updates. cbn [fst]. rewrite book_invalidate_sorted.
  destruct side; cbn [side_rows].
  - rewrite book_after_rows_other by discriminate.
    apply book_after_rows_same.
  - rewrite book_after_rows_same.
    now rewrite book_after_rows_other by discriminate.
Qed.

(** X4. Splitting a delta in two, at any point of its ask rows and of its
    bid rows, and processing the halves one after the other leaves the same
    books as processing it whole (the events may differ: the second half is
    then ranked in views rebuilt after the first). *)
Theorem process_delta_split_books (s : LOBEventExtractor)
    (a1 a2 b1 b2 : rows) (idx idx1 idx2 : Z) :
  let whole := fst (process_delta s (a1 ++ a2) (b1 ++ b2) idx) in
  let halves :=
    fst (process_delta (fst (process_delta s a1 b1 idx1)) a2 b2 idx2) in
  asks whole = asks halves /\ bids whole = bids halves
  /\ max_depth whole = max_depth halves
  /\ last_mid_price whole = last_mid_price halves
  /\ _mid_price whole = _mid_price halves.
Proof.
  cbn zeta.
  assert (Ha : forall side,
             book (fst (process_delta s (a1 ++ a2) (b1 ++ b2) idx)) side
             = book (fst (process_delta (fst (process_delta s a1 b1 idx1))
                                        a2 b2 idx2)) side).
  { intros side. rewrite !process_delta_book.
    destruct side; cbn [side_rows]; unfold apply_rows;
      now rewrite fold_left_app. }
  pose proof (Ha Ask) as HA. pose proof (Ha Bid) as HB. cbn [book] in HA, HB.
  split; [exact HA|]. split; [exact HB|].
  rewrite !process_delta_max_depth, !process_delta_last_mid_price.
  split; [reflexivity|]. split; [reflexivity|].
  unfold _mid_price. now rewrite HA, HB.
Qed.

(** The events do differ: on the book of scenario A the delta
    [asks=[[101,0],[102,6]]] ranks the second row at depth 1, its two halves
    rank both rows at depth 0. *)
Example process_delta_split_events :
  map depth (snd (process_delta book_A [(101, 0); (102, 6)]%float [] 1))
  = [0; 1]
  /\ map depth
       (snd (process_delta
               (fst (process_delta book_A [(101, 0)]%float [] 1))
               [(102, 6)]%float [] 2))
     = [0].
Proof. split; reflexivity. Qed.

(** ** The threshold *)

Lemma concat_all_nil {A : Type} (ls : list (list A)) :
  Forall (fun l => l = []) ls -> concat ls = [].
Proof.
  induction 1 as [|l ls -> _ IH]; [reflexivity|]. exact IH.
Qed.

(** X5. With a threshold [max_depth <= 0] a delta never emits an event,
    whatever its rows, and still writes every row. *)
Theorem process_delta_nonpositive_threshold (s : LOBEventExtractor)
    (asks_rows bids_rows : rows) (idx : Z) (side : Side) :
  max_depth s <= 0 ->
  snd (process_delta s asks_rows bids_rows idx) = []
  /\ book (fst (process_delta s asks_rows bids_rows idx)) side
     = apply_rows (book s side) (side_rows side asks_rows bids_rows).
Proof.
  intros Hmax. split; [|apply process_delta_book].
  rewrite process_delta_updates. cbn [snd].
  apply concat_all_nil. apply Forall_map.
  pose proof (delta_updates_shape s asks_rows bids_rows idx) as Hshape.
  pose proof (proj2 (chain_max_depth _ _ _
                       (delta_updates_chain s asks_rows bids_rows idx)))
    as Hmd.
  rewrite Forall_forall in *. intros u Hin.
  destruct (Hshape u Hin) as [-> _]. unfold classify.
  rewrite (Hmd u Hin), depth_of_price_rank. cbn [snd].
  destruct (Z.ltb_spec (Z.of_nat (rank (sorted_view (_ensure_sorted (u_before u))
                                                      (u_side u))
                                       (u_side u) (fst (u_row u))))
                       (max_depth s)) as [Hlt|_]; [lia|reflexivity].
Qed.

Lemma process_delta_nonpositive_threshold_witness :
  snd (process_delta (process_snapshot (init 0) [(101, 5)]%float [(100, 5)]%float)
         [(101, 0); (102, 3)]%float [(100, 9)]%float 1) = []
  /\ book (fst (process_delta
                  (process_snapshot (init 0) [(101, 5)]%float [(100, 5)]%float)
                  [(101, 0); (102, 3)]%float [(100, 9)]%float 1)) Ask
     = apply_rows
         (book (process_snapshot (init 0) [(101, 5)]%float [(100, 5)]%float) Ask)
         [(101, 0); (102, 3)]%float.
Proof.
  apply (process_delta_nonpositive_threshold
           (process_snapshot (init 0) [(101, 5)]%float [(100, 5)]%float)
           [(101, 0); (102, 3)]%float [(100, 9)]%float 1 Ask).
  vm_compute. discriminate.
Defined.

(** ** Querying a depth *)

Lemma ensure_sorted_idem (s : LOBEventExtractor) :
  _ensure_sorted (_ensure_sorted s) = _ensure_sorted s.
Proof. reflexivity. Qed.

Lemma step_ensure_sorted (side : Side) (idx : Z) (s : LOBEventExtractor)
    (events : list LOBEvent) (row : float * float) :
  step side idx (_ensure_sorted s, events) row = step side idx (s, events) row.
Proof.
  destruct row as [p vol]. rewrite !step_spec.
  rewrite ensure_sorted_idem, book_ensure_sorted.
  unfold classify. rewrite book_ensure_sorted, depth_of_price_rank.
  rewrite (depth_of_price_rank s). cbn [snd].
  now rewrite ensure_sorted_idem, mid_price_ensure_sorted.
Qed.

(** X6. Querying a depth between two messages changes nothing of what
    follows: [process_delta] returns the same events and leaves the same
    extractor whether or not [_depth_of_price] was called before it, and the
    query itself leaves books, threshold and mid-price untouched. *)
Theorem depth_query_is_transparent (s : LOBEventExtractor) (x : float)
    (side : Side) (asks_rows bids_rows : rows) (idx : Z) :
  process_delta (fst (_depth_of_price s x side)) asks_rows bids_rows idx
  = process_delta s asks_rows bids_rows idx
  /\ asks (fst (_depth_of_price s x side)) = asks s
  /\ bids (fst (_depth_of_price s x side)) = bids s
  /\ max_depth (fst (_depth_of_price s x side)) = max_depth s
  /\ _mid_price (fst (_depth_of_price s x side)) = _mid_price s
  /\ _depth_of_price (fst (_depth_of_price s x side)) x side
     = _depth_of_price s x side.
Proof.
  split; [|repeat split].
  rewrite depth_of_price_rank. cbn [fst]. unfold process_delta.
  change (ask_step idx) with (step Ask idx).
  change (bid_step idx) with (step Bid idx).
  destruct asks_rows as [|ra asks_rows].
  - destruct bids_rows as [|rb bids_rows]; [reflexivity|].
    cbn [fold_left]. now rewrite step_ensure_sorted.
  - cbn [fold_left]. now rewrite step_ensure_sorted.
Qed.

(** ** The sorted views *)

Lemma insert_asc_perm (x : float) (xs : list float) :
  Permutation (insert_asc x xs) (x :: xs).
Proof.
  induction xs as [|y ys IH]; cbn [insert_asc]; [reflexivity|].
  destruct (Py.lt y x); [|reflexivity].
  rewrite IH. apply perm_swap.
Qed.

Lemma insert_desc_perm (x : float) (xs : list float) :
  Permutation (insert_desc x xs) (x :: xs).
Proof.
  induction xs as [|y ys IH]; cbn [insert_desc]; [reflexivity|].
  destruct (Py.lt x y); [|reflexivity].
  rewrite IH. apply perm_swap.
Qed.

Lemma sorted_perm (xs : list float) : Permutation (sorted xs) xs.
Proof.
  induction xs as [|x xs IH]; cbn [sorted fold_right]; [reflexivity|].
  rewrite insert_asc_perm. now constructor.
Qed.

Lemma sorted_reverse_perm (xs : list float) :
  Permutation (sorted_reverse xs) xs.
Proof.
  induction xs as [|x xs IH]; cbn [sorted_reverse fold_right]; [reflexivity|].
  rewrite insert_desc_perm. now constructor.
Qed.

Lemma fresh_view_perm (s : LOBEventExtractor) (side : Side) :
  Permutation (fresh_view s side) (dict_keys (book s side)).
Proof. destruct side; [apply sorted_perm|apply sorted_reverse_perm]. Qed.

Lemma not_nan_all (xs : list float) :
  forallb (fun k => negb (Py.isnan k)) xs = true ->
  Forall (fun k => Py.isnan k = false) xs.
Proof.
  rewrite forallb_forall, Forall_forall. intros H k Hk.
  now apply negb_true_iff, H.
Qed.

Lemma insert_asc_ascending (x : float) (xs : list float) :
  Py.isnan x = false -> Forall (fun k => Py.isnan k = false) xs ->
  ascending xs -> ascending (insert_asc x xs).
Proof.
  unfold ascending. intros Hx Hnan Hs.
  induction Hs as [|y ys Hys IH Hy]; cbn [insert_asc].
  - repeat constructor.
  - inversion Hnan as [|? ? Hny Hnys]; subst.
    destruct (Py.lt y x) eqn:E.
    + constructor; [now apply IH|].
      apply (Permutation_Forall (Permutation_sym (insert_asc_perm x ys))).
      constructor; [now apply py_lt_le|exact Hy].
    + assert (Hxy : Py.le x y = true) by now apply py_le_total.
      constructor; [now constructor|].
      constructor; [exact Hxy|].
      eapply Forall_impl; [|exact Hy]. cbn beta. intros z Hz.
      now apply py_le_trans with y.
Qed.

Lemma insert_desc_descending (x : float) (xs : list float) :
  Py.isnan x = false -> Forall (fun k => Py.isnan k = false) xs ->
  descending xs -> descending (insert_desc x xs).
Proof.
  unfold descending, Py.ge. intros Hx Hnan Hs.
  induction Hs as [|y ys Hys IH Hy]; cbn [insert_desc].
  - repeat constructor.
  - inversion Hnan as [|? ? Hny Hnys]; subst.
    destruct (Py.lt x y) eqn:E.
    + constructor; [now apply IH|].
      apply (Permutation_Forall (Permutation_sym (insert_desc_perm x ys))).
      constructor; [now apply py_lt_le|exact Hy].
    + assert (Hyx : Py.le y x = true) by now apply py_le_total.
      constructor; [now constructor|].
      constructor; [exact Hyx|].
      eapply Forall_impl; [|exact Hy]. cbn beta. intros z Hz.
      now apply py_le_trans with y.
Qed.

Lemma sorted_ascending (xs : list float) :
  Forall (fun k => Py.isnan k = false) xs -> ascending (sorted xs).
Proof.
  induction 1 as [|x xs Hx Hxs IH]; cbn [sorted fold_right].
  - constructor.
  - apply insert_asc_ascending; [exact Hx| |exact IH].
    exact (Permutation_Forall (Permutation_sym (sorted_perm xs)) Hxs).
Qed.

Lemma sorted_reverse_descending (xs : list float) :
  Forall (fun k => Py.isnan k = false) xs -> descending (sorted_reverse xs).
Proof.
  induction 1 as [|x xs Hx Hxs IH]; cbn [sorted_reverse fold_right].
  - constructor.
  - apply insert_desc_descending; [exact Hx| |exact IH].
    exact (Permutation_Forall (Permutation_sym (sorted_reverse_perm xs)) Hxs).
Qed.

(** X7. Once [_ensure_sorted] has run on an extractor whose cache is absent
    or sound and whose prices are not NaN, the cached ask view lists exactly
    the stored ask prices in ascending order and the cached bid view exactly
    the stored bid prices in descending order. *)
Theorem ensure_sorted_orders_views (s : LOBEventExtractor) :
  cache_ok s ->
  keys_not_nan (asks s) = true ->
  keys_not_nan (bids s) = true ->
  _sorted_asks (_ensure_sorted s) = Some (sorted_view (_ensure_sorted s) Ask)
  /\ _sorted_bids (_ensure_sorted s) = Some (sorted_view (_ensure_sorted s) Bid)
  /\ ascending (sorted_view (_ensure_sorted s) Ask)
  /\ descending (sorted_view (_ensure_sorted s) Bid)
  /\ Permutation (sorted_view (_ensure_sorted s) Ask) (dict_keys (asks s))
  /\ Permutation (sorted_view (_ensure_sorted s) Bid) (dict_keys (bids s)).
Proof.
  intros Hok Ha Hb.
  split; [reflexivity|]. split; [reflexivity|].
  rewrite !(cache_ok_view s _ Hok). cbn [fresh_view].
  split; [apply sorted_ascending, not_nan_all, Ha|].
  split; [apply sorted_reverse_descending, not_nan_all, Hb|].
  split; [apply sorted_perm|apply sorted_reverse_perm].
Qed.

Lemma ensure_sorted_orders_views_witness :
  ascending (sorted_view (_ensure_sorted book_A) Ask)
  /\ descending (sorted_view (_ensure_sorted book_A) Bid)
  /\ sorted_view
       (_ensure_sorted
          (process_snapshot (init 50) [(103, 1); (101, 5); (102, 5)]%float
                            [(99, 5); (100, 5)]%float)) Ask
     = [101; 102; 103]%float.
Proof.
  assert (Hok : cache_ok book_A) by (split; left; reflexivity).
  destruct (ensure_sorted_orders_views book_A Hok eq_refl eq_refl)
    as (_ & _ & H1 & H2 & _).
  split; [exact H1|]. split; [exact H2|reflexivity].
Defined.

(** ** Bounds on depths *)

Lemma rank_le_length (prices : list float) (side : Side) (x : float) :
  (rank prices side x <= length prices)%nat.
Proof.
  unfold rank. destruct (depth_scan side x prices 0) as [n|] eqn:E; [|lia].
  destruct (depth_scan_some _ _ _ _ _ E) as (k & p & -> & Hn & _).
  assert ((k < length prices)%nat) by (apply nth_error_Some; congruence).
  lia.
Qed.

Lemma fresh_view_length (s : LOBEventExtractor) (side : Side) :
  length (fresh_view s side) = length (book s side).
Proof.
  rewrite (Permutation_length (fresh_view_perm s side)).
  unfold dict_keys. apply length_map.
Qed.

(** X8. A depth is never negative and never exceeds the number of levels the
    side holds: [_depth_of_price] answers within [0 .. len(book)], and every
    event of a delta carries a depth within [0 .. max_depth - 1] that does
    not exceed the number of levels its side held at the start of the
    batch. *)
Theorem depths_are_bounded (s : LOBEventExtractor) (x : float) (side : Side)
    (asks_rows bids_rows : rows) (idx : Z) :
  cache_ok s ->
  0 <= snd (_depth_of_price s x side) <= Z.of_nat (length (book s side))
  /\ Forall (fun e =>
               0 <= depth e < max_depth s
               /\ exists sd,
                   side_of_action (action e) = Some sd
                   /\ depth e <= Z.of_nat (length (book s sd)))
            (snd (process_delta s asks_rows bids_rows idx)).
Proof.
  intros Hok.
  assert (Hb : forall sd y,
             0 <= Z.of_nat (rank (fresh_view s sd) sd y)
             <= Z.of_nat (length (book s sd))).
  { intros sd y. pose proof (rank_le_length (fresh_view s sd) sd y).
    rewrite fresh_view_length in H. lia. }
  split.
  - rewrite depth_of_price_rank. cbn [snd].
    rewrite (cache_ok_view s side Hok). apply Hb.
  - rewrite process_delta_updates. cbn [snd].
    pose proof (delta_updates_events s asks_rows bids_rows idx) as Hev.
    pose proof (delta_updates_rank s asks_rows bids_rows idx Hok) as Hrank.
    pose proof (proj2 (chain_max_depth _ _ _
                         (delta_updates_chain s asks_rows bids_rows idx)))
      as Hmd.
    rewrite Forall_forall in *. intros e He.
    apply in_concat in He. destruct He as (l & Hl & He).
    apply in_map_iff in Hl. destruct Hl as (u & <- & Hu).
    destruct (Hev u Hu) as [E|(e' & E & _ & _ & Hside & _ & _ & Hd & Hlt)];
      rewrite E in He; [destruct He|].
    destruct He as [<-|[]].
    rewrite (Hrank u Hu) in Hd. rewrite (Hmd u Hu) in Hlt.
    split; [rewrite Hd in *; specialize (Hb (u_side u) (fst (u_row u))); lia|].
    exists (u_side u). split; [exact Hside|]. rewrite Hd. apply Hb.
Qed.

Lemma depths_are_bounded_witness :
  0 <= snd (_depth_of_price book_A 500 Ask) <= 2
  /\ Forall (fun e =>
               0 <= depth e < 50
               /\ exists sd,
                   side_of_action (action e) = Some sd
                   /\ depth e <= Z.of_nat (length (book book_A sd)))
            (snd (process_delta book_A [(500, 1)]%float [(1, 1)]%float 2)).
Proof.
  apply (depths_are_bounded book_A 500 Ask [(500, 1)]%float [(1, 1)]%float 2).
  split; left; reflexivity.
Defined.

(** ** Best prices and the mid-price *)

Lemma py_min_in (ks : list float) :
  forall k, In (py_min k ks) (k :: ks).
Proof.
  unfold py_min. induction ks as [|y ks IH]; intros k; [now left|].
  cbn [fold_left]. destruct (IH (if Py.lt y k then y else k)) as [H|H].
  - rewrite <- H. destruct (Py.lt y k); [right; now left|now left].
  - right. now right.
Qed.

Lemma py_max_in (ks : list float) :
  forall k, In (py_max k ks) (k :: ks).
Proof.
  unfold py_max. induction ks as [|y ks IH]; intros k; [now left|].
  cbn [fold_left]. destruct (IH (if Py.gt y k then y else k)) as [H|H].
  - rewrite <- H. destruct (Py.gt y k); [right; now left|now left].
  - right. now right.
Qed.

Lemma py_min_le (ks : list float) :
  forall k,
    Forall (fun x => Py.isnan x = false) (k :: ks) ->
    Forall (fun x => Py.le (py_min k ks) x = true) (k :: ks).
Proof.
  unfold py_min. induction ks as [|y ks IH]; intros k Hnan.
  - inversion Hnan; subst. constructor; [now apply py_le_refl|constructor].
  - inversion Hnan as [|? ? Hk Hrest]; subst.
    inversion Hrest as [|? ? Hy Hks]; subst.
    cbn [fold_left]. destruct (Py.lt y k) eqn:E.
    + assert (H : Forall (fun x => Py.isnan x = false) (y :: ks))
        by now constructor.
      specialize (IH y H). inversion IH as [|? ? Hm Hms]; subst.
      constructor; [|now constructor].
      apply py_le_trans with y; [exact Hm|now apply py_lt_le].
    + assert (H : Forall (fun x => Py.isnan x = false) (k :: ks))
        by now constructor.
      specialize (IH k H). inversion IH as [|? ? Hm Hms]; subst.
      constructor; [exact Hm|]. constructor; [|exact Hms].
      apply py_le_trans with k; [exact Hm|now apply py_le_total].
Qed.

Lemma py_max_ge (ks : list float) :
  forall k,
    Forall (fun x => Py.isnan x = false) (k :: ks) ->
    Forall (fun x => Py.le x (py_max k ks) = true) (k :: ks).
Proof.
  unfold py_max, Py.gt. induction ks as [|y ks IH]; intros k Hnan.
  - inversion Hnan; subst. constructor; [now apply py_le_refl|constructor].
  - inversion Hnan as [|? ? Hk Hrest]; subst.
    inversion Hrest as [|? ? Hy Hks]; subst.
    cbn [fold_left]. destruct (k <? y)%float eqn:E.
    + assert (H : Forall (fun x => Py.isnan x = false) (y :: ks))
        by now constructor.
      specialize (IH y H). inversion IH as [|? ? Hm Hms]; subst.
      constructor; [|now constructor].
      apply py_le_trans with y; [now apply py_lt_le|exact Hm].
    + assert (H : Forall (fun x => Py.isnan x = false) (k :: ks))
        by now constructor.
      specialize (IH k H). inversion IH as [|? ? Hm Hms]; subst.
      constructor; [exact Hm|]. constructor; [|exact Hms].
      apply py_le_trans with k; [now apply py_le_total|exact Hm].
Qed.

(** The best price of a side is one of its prices and no price of the side
    is better: every stored price has been passed by it, in the sense of the
    depth scan. *)
Lemma best_price_spec (s : LOBEventExtractor) (side : Side) (x : float) :
  keys_not_nan (book s side) = true ->
  best_price s side = Some x ->
  In x (dict_keys (book s side))
  /\ Forall (fun k => passed side k x = true) (dict_keys (book s side)).
Proof.
  unfold best_price, keys_not_nan. intros Hnan.
  apply not_nan_all in Hnan.
  destruct (dict_keys (book s side)) as [|k ks]; [discriminate|].
  intros [= <-]. destruct side; cbn [passed]; unfold Py.ge.
  - split; [apply py_min_in|now apply py_min_le].
  - split; [apply py_max_in|now apply py_max_ge].
Qed.

(** X9. The mid-price is NaN when a side of the book is empty; otherwise it
    is half the sum of the best bid and the best ask, the best bid being a
    stored bid price that no bid price exceeds and the best ask a stored ask
    price that no ask price undercuts (prices not NaN). *)
Theorem mid_price_of_best_prices (s : LOBEventExtractor) :
  keys_not_nan (asks s) = true ->
  keys_not_nan (bids s) = true ->
  match best_price s Bid, best_price s Ask with
  | Some best_bid, Some best_ask =>
      _mid_price s = ((best_bid + best_ask) / 2)%float
      /\ In best_bid (dict_keys (bids s))
      /\ In best_ask (dict_keys (asks s))
      /\ Forall (fun k => Py.le k best_bid = true) (dict_keys (bids s))
      /\ Forall (fun k => Py.le best_ask k = true) (dict_keys (asks s))
  | _, _ =>
      _mid_price s = Py.nan /\ (bids s = [] \/ asks s = [])
  end.
Proof.
  intros Ha Hb.
  pose proof (best_price_spec s Bid) as HB.
  pose proof (best_price_spec s Ask) as HA.
  unfold best_price in *. unfold _mid_price. cbn [book] in *.
  destruct (bids s) as [|[kb vb] bs] eqn:Eb; cbn [dict_keys map fst] in *.
  - split; [reflexivity|now left].
  - destruct (asks s) as [|[ka va] as_] eqn:Ea; cbn [dict_keys map fst] in *.
    + split; [reflexivity|now right].
    + destruct (HB _ Hb eq_refl) as [HB1 HB2].
      destruct (HA _ Ha eq_refl) as [HA1 HA2].
      repeat split; assumption.
Qed.

Lemma mid_price_of_best_prices_witness :
  _mid_price book_A = ((100 + 101) / 2)%float
  /\ In 100%float (dict_keys (bids book_A))
  /\ In 101%float (dict_keys (asks book_A))
  /\ Forall (fun k => Py.le k 100 = true) (dict_keys (bids book_A))
  /\ Forall (fun k => Py.le 101 k = true) (dict_keys (asks book_A)).
Proof.
  exact (mid_price_of_best_prices book_A eq_refl eq_refl).
Defined.

Lemma rank_zero_of_passed (prices : list float) (side : Side) (x : float) :
  Forall (fun k => passed side k x = true) prices -> rank prices side x = 0%nat.
Proof.
  intros H. unfold rank. destruct H as [|h t Hh _]; [reflexivity|].
  cbn [depth_scan]. rewrite depth_test_passed, Hh, orb_true_r. reflexivity.
Qed.

(** X10. A price at or better than every stored price of its side has depth
    0: on the ask side a price that no stored ask undercuts, on the bid side
    a price that no stored bid exceeds.  In particular the best ask and the
    best bid of a book have depth 0. *)
Theorem best_price_has_depth_zero (s : LOBEventExtractor) (side : Side)
    (x : float) :
  cache_ok s ->
  (Forall (fun k => passed side k x = true) (dict_keys (book s side)) ->
   snd (_depth_of_price s x side) = 0)
  /\ (keys_not_nan (book s side) = true ->
      best_price s side = Some x ->
      snd (_depth_of_price s x side) = 0).
Proof.
  intros Hok.
  assert (H : Forall (fun k => passed side k x = true)
                     (dict_keys (book s side)) ->
              snd (_depth_of_price s x side) = 0).
  { intros Hall. rewrite depth_of_price_rank. cbn [snd].
    rewrite (cache_ok_view s side Hok), rank_zero_of_passed; [reflexivity|].
    exact (Permutation_Forall (Permutation_sym (fresh_view_perm s side)) Hall). }
  split; [exact H|].
  intros Hnan Hbest. apply H. now apply best_price_spec.
Qed.

Lemma best_price_has_depth_zero_witness :
  best_price book_A Bid = Some 100%float
  /\ snd (_depth_of_price book_A 100 Bid) = 0
  /\ snd (_depth_of_price book_A 100.5 Bid) = 0.
Proof.
  assert (Hok : cache_ok book_A) by (split; left; reflexivity).
  split; [reflexivity|]. split.
  - exact (proj2 (best_price_has_depth_zero book_A Bid 100 Hok)
                 eq_refl eq_refl).
  - apply (proj1 (best_price_has_depth_zero book_A Bid 100.5 Hok)).
    repeat constructor.
Defined.

(** ** What single updates report *)

Lemma delta_update_facts (self : LOBEventExtractor)
    (asks_rows bids_rows : rows) (idx : Z) (u : Update) :
  In u (delta_updates self asks_rows bids_rows idx) ->
  u_events u
  = classify (u_side u) idx (u_before u) (fst (u_row u)) (snd (u_row u))
  /\ book (u_after u) (u_side u)
     = upsert (book (u_before u) (u_side u)) (fst (u_row u)) (snd (u_row u))
  /\ max_depth (u_before u) = max_depth self.
Proof.
  intros Hin.
  pose proof (delta_updates_shape self asks_rows bids_rows idx) as Hshape.
  pose proof (proj2 (chain_max_depth _ _ _
                       (delta_updates_chain self asks_rows bids_rows idx)))
    as Hmax.
  rewrite Forall_forall in Hshape, Hmax.
  destruct (Hshape u Hin) as [Hev Hafter].
  split; [exact Hev|]. split; [|now apply Hmax].
  now rewrite Hafter, book_with_book_same.
Qed.

(** X11. A delta row that brings a positive volume to a price that is not
    stored (and not NaN), at a depth below the threshold, makes
    [process_delta] return, at the row's place in its list, exactly one
    [sell_limit_added] (ask) or [buy_limit_added] (bid) whose volume is the
    whole new volume, with previous volume [0.0] and normalized change
    [1.0]; the price is stored with that volume after the update, and after
    the batch when no later row of the batch writes it. *)
Theorem adding_new_level_emits_event (self : LOBEventExtractor)
    (asks_rows bids_rows : rows) (idx : Z)
    (us1 : list Update) (u : Update) (us2 : list Update) :
  delta_updates self asks_rows bids_rows idx = us1 ++ u :: us2 ->
  Py.gt (snd (u_row u)) 0 = true ->
  dict_mem (book (u_before u) (u_side u)) (fst (u_row u)) = false ->
  Py.isnan (fst (u_row u)) = false ->
  snd (_depth_of_price (u_before u) (fst (u_row u)) (u_side u))
  < max_depth self ->
  exists e,
    snd (process_delta self asks_rows bids_rows idx)
    = concat (map u_events us1) ++ e :: concat (map u_events us2)
    /\ u_events u = [e]
    /\ action e = added_name (u_side u)
    /\ price e = fst (u_row u)
    /\ volume e = snd (u_row u)
    /\ previous_vol e = 0%float
    /\ volume_change_normalized e = 1%float
    /\ dict_get (book (u_after u) (u_side u)) (fst (u_row u)) 0 = snd (u_row u)
    /\ (no_other_write u us2 ->
        dict_get
          (book (fst (process_delta self asks_rows bids_rows idx)) (u_side u))
          (fst (u_row u)) 0
        = snd (u_row u)).
Proof.
  intros Hsplit Hvol Hmem Hnan Hdepth.
  assert (Hin : In u (delta_updates self asks_rows bids_rows idx))
    by (rewrite Hsplit; apply in_elt).
  destruct (delta_update_facts _ _ _ _ _ Hin) as (Hev & Hbook & Hmax).
  rewrite <- Hmax in Hdepth. apply Z.ltb_lt in Hdepth.
  pose proof (py_gt_zero_not_eq _ Hvol) as Hnz.
  assert (Hget : dict_get (book (u_after u) (u_side u)) (fst (u_row u)) 0
                 = snd (u_row u)).
  { rewrite Hbook. unfold upsert. rewrite Hnz. now apply dict_get_set_same. }
  rewrite (process_delta_events_split _ _ _ _ _ _ _ Hsplit), Hev.
  unfold classify.
  rewrite Hdepth, Hnz, (dict_get_not_mem _ _ _ Hmem), sub_zero_r, Hvol.
  eexists. split; [reflexivity|]. split; [reflexivity|]. cbn.
  repeat split; try exact Hget.
  intros Hlater.
  now rewrite (proj1 (process_delta_final_get _ _ _ _ _ _ _ Hsplit Hlater)).
Qed.

Lemma adding_new_level_emits_event_witness :
  exists e,
    snd (process_delta book_A [(101.5, 2)]%float [(100.5, 3)]%float 8)
    = concat (map u_events [])
      ++ e :: concat (map u_events [nth_update 1 new_levels])
    /\ map action
           (snd (process_delta book_A [(101.5, 2)]%float [(100.5, 3)]%float 8))
       = ["sell_limit_added"; "buy_limit_added"]%string
    /\ price e = 101.5%float
    /\ volume e = 2%float
    /\ previous_vol e = 0%float
    /\ volume_change_normalized e = 1%float
    /\ dict_get
         (book (fst (process_delta book_A [(101.5, 2)]%float
                                   [(100.5, 3)]%float 8)) Ask) 101.5 0
       = 2%float.
Proof.
  destruct (adding_new_level_emits_event book_A
              [(101.5, 2)]%float [(100.5, 3)]%float 8
              [] (nth_update 0 new_levels) [nth_update 1 new_levels]
              eq_refl eq_refl eq_refl eq_refl eq_refl)
    as (e & H1 & _ & _ & H4 & H5 & H6 & H7 & _ & H9).
  exists e. split; [exact H1|]. split; [reflexivity|].
  split; [exact H4|]. split; [exact H5|]. split; [exact H6|].
  split; [exact H7|]. apply H9. repeat constructor.
Defined.

(** X12. A delta row that removes ([volume == 0]) a level stored with a
    positive volume, at a depth below the threshold, makes [process_delta]
    return, at the row's place in its list, exactly one [market_buy] (ask)
    or [market_sell] (bid) whose volume is the whole volume that was stored;
    the price is absent after the update, and after the batch when no later
    row of the batch writes it. *)
Theorem removing_level_reports_its_volume (self : LOBEventExtractor)
    (asks_rows bids_rows : rows) (idx : Z)
    (us1 : list Update) (u : Update) (us2 : list Update) :
  delta_updates self asks_rows bids_rows idx = us1 ++ u :: us2 ->
  books_unique self ->
  Py.eq (snd (u_row u)) 0 = true ->
  Py.gt (dict_get (book (u_before u) (u_side u)) (fst (u_row u)) 0) 0 = true ->
  snd (_depth_of_price (u_before u) (fst (u_row u)) (u_side u))
  < max_depth self ->
  exists e,
    snd (process_delta self asks_rows bids_rows idx)
    = concat (map u_events us1) ++ e :: concat (map u_events us2)
    /\ u_events u = [e]
    /\ action e = removed_name (u_side u)
    /\ price e = fst (u_row u)
    /\ volume e = dict_get (book (u_before u) (u_side u)) (fst (u_row u)) 0
    /\ previous_vol e = volume e
    /\ dict_mem (book (u_after u) (u_side u)) (fst (u_row u)) = false
    /\ (no_other_write u us2 ->
        dict_mem
          (book (fst (process_delta self asks_rows bids_rows idx)) (u_side u))
          (fst (u_row u))
        = false).
Proof.
  intros Hsplit Huniq Hvol Hprev Hdepth.
  assert (Hin : In u (delta_updates self asks_rows bids_rows idx))
    by (rewrite Hsplit; apply in_elt).
  destruct (delta_update_facts _ _ _ _ _ Hin) as (Hev & Hbook & Hmax).
  rewrite <- Hmax in Hdepth. apply Z.ltb_lt in Hdepth.
  assert (Hgone : dict_mem (book (u_after u) (u_side u)) (fst (u_row u))
                  = false).
  { rewrite Hbook. unfold upsert. rewrite Hvol.
    apply dict_mem_pop_same.
    pose proof (proj1 (delta_updates_invariant books_unique
                         (fun side s p vol => books_unique_step side s p vol)
                         self asks_rows bids_rows idx Huniq)) as Hu.
    rewrite Forall_forall in Hu. apply books_unique_book. now apply Hu. }
  rewrite (process_delta_events_split _ _ _ _ _ _ _ Hsplit), Hev.
  unfold classify. rewrite Hdepth, Hvol.
  eexists. split; [reflexivity|]. split; [reflexivity|]. cbn.
  rewrite (opp_zero_sub _ _ Hvol Hprev).
  repeat split; try exact Hgone.
  intros Hlater.
  now rewrite (proj2 (process_delta_final_get _ _ _ _ _ _ _ Hsplit Hlater)).
Qed.

Lemma removing_level_reports_its_volume_witness :
  exists e,
    snd (process_delta book_A [(101, 0)]%float [] 1) = [e]
    /\ action e = "market_buy"%string
    /\ price e = 101%float
    /\ volume e = 5%float
    /\ previous_vol e = volume e
    /\ dict_mem (book (fst (process_delta book_A [(101, 0)]%float [] 1)) Ask)
                101 = false.
Proof.
  destruct (removing_level_reports_its_volume book_A
              [(101, 0)]%float [] 1
              [] (nth_update 0 full_removal) []
              eq_refl (conj eq_refl eq_refl) eq_refl eq_refl eq_refl)
    as (e & H1 & _ & H3 & H4 & H5 & H6 & _ & H8).
  exists e. split; [exact H1|]. split; [exact H3|]. split; [exact H4|].
  split; [exact H5|]. split; [exact H6|]. apply H8. constructor.
Defined.

Lemma dict_set_same_value (d : dict) (p v dflt : float) :
  dict_mem d p = true -> dict_get d p dflt = v -> dict_set d p v = d.
Proof.
  induction d as [|[e w] d IH]; [discriminate|].
  rewrite dict_mem_cons. cbn [dict_get dict_set].
  destruct (Py.eq e p); cbn [orb].
  - now intros _ ->.
  - intros Hm Hg. now rewrite IH.
Qed.

(** X13. A delta row that repeats the volume already stored at its price (a
    non-zero volume) emits no event and leaves the book as it was. *)
Theorem repeating_volume_is_silent (self : LOBEventExtractor)
    (asks_rows bids_rows : rows) (idx : Z) (u : Update) :
  In u (delta_updates self asks_rows bids_rows idx) ->
  Py.eq (snd (u_row u)) 0 = false ->
  Py.eq (snd (u_row u))
        (dict_get (book (u_before u) (u_side u)) (fst (u_row u)) 0) = true ->
  u_events u = []
  /\ book (u_after u) (u_side u) = book (u_before u) (u_side u).
Proof.
  intros Hin Hnz Hsame.
  destruct (delta_update_facts _ _ _ _ _ Hin) as (Hev & Hbook & _).
  pose proof (py_eq_nonzero _ _ Hsame Hnz) as E.
  split.
  - rewrite Hev. unfold classify. rewrite Hnz, <- E.
    destruct (sub_self_no_sign (snd (u_row u))) as [-> ->].
    now destruct (_ <? _).
  - rewrite Hbook. unfold upsert. rewrite Hnz.
    apply dict_set_same_value with (dflt := 0%float); [|now symmetry].
    destruct (dict_mem (book (u_before u) (u_side u)) (fst (u_row u))) eqn:M;
      [reflexivity|].
    rewrite (dict_get_not_mem _ _ _ M) in E. rewrite E in Hnz. discriminate.
Qed.

Lemma repeating_volume_is_silent_witness :
  u_events (nth_update 0 repeated_volume) = []
  /\ book (u_after (nth_update 0 repeated_volume)) Bid
     = book (u_before (nth_update 0 repeated_volume)) Bid.
Proof.
  apply (repeating_volume_is_silent book_A
           [] [(100, 5)]%float 1 (nth_update 0 repeated_volume)).
  - vm_compute. left. reflexivity.
  - reflexivity.
  - reflexivity.
Defined.

Lemma is_limit_removed (side : Side) : is_limit_action (removed_name side) = false.
Proof. now destruct side. Qed.

(** X14. No limit event has a zero or negative volume: every
    [sell_limit_added], [sell_limit_canceled], [buy_limit_added] and
    [buy_limit_canceled] that a delta returns carries a volume [> 0]. *)
Theorem limit_events_have_positive_volume (self : LOBEventExtractor)
    (asks_rows bids_rows : rows) (idx : Z) :
  Forall (fun e => is_limit_action (action e) = true ->
                   Py.gt (volume e) 0 = true)
         (snd (process_delta self asks_rows bids_rows idx)).
Proof.
  rewrite process_delta_updates. cbn [snd].
  pose proof (delta_updates_shape self asks_rows bids_rows idx) as Hshape.
  rewrite Forall_forall in *. intros e He.
  apply in_concat in He. destruct He as (l & Hl & He).
  apply in_map_iff in Hl. destruct Hl as (u & <- & Hu).
  destruct (Hshape u Hu) as [Hev _]. rewrite Hev in He. revert He.
  unfold classify.
  destruct (_ <? _); [|intros []].
  destruct (Py.eq (snd (u_row u)) 0).
  - intros [<-|[]]. cbn [action]. now rewrite is_limit_removed.
  - destruct (Py.gt _ 0) eqn:G.
    + intros [<-|[]]. intros _. exact G.
    + destruct (Py.lt _ 0) eqn:L; [|intros []].
      intros [<-|[]]. intros _. cbn [volume]. now apply py_opp_gt_zero.
Qed.

(** ** [infer_events_from_lines] *)

Lemma last_recorded_snoc (ms : list float) (m : float) :
  last_recorded (ms ++ [m]) = Some m.
Proof. unfold last_recorded. now rewrite rev_app_distr. Qed.

(** One round of the loop of [infer_events_from_lines] on a line that has
    its data: the extractor, the events and the mid-prices the next round
    starts from.  Either nothing is added (a snapshot, or a delta whose
    mid-price is not reported as changed), or the mid-price of the delta is
    recorded and its events are added. *)
Lemma infer_loop_cons (extractor : LOBEventExtractor) (idx : Z)
    (events : list LOBEvent) (mid_prices : list float)
    (l : Message) (data : Data) :
  msg_data l = Some data ->
  exists extractor' events' mid_prices',
    (forall rest,
        infer_loop extractor idx events mid_prices (l :: rest)
        = infer_loop extractor' (idx + 1) events' mid_prices' rest)
    /\ (last_mid_price extractor = last_recorded mid_prices ->
        last_mid_price extractor' = last_recorded mid_prices')
    /\ (events' = events /\ mid_prices' = mid_prices
        \/ type_is l "snapshot" = false
           /\ infer_changed (last_mid_price extractor) (_mid_price extractor')
              = true
           /\ mid_prices' = mid_prices ++ [_mid_price extractor']
           /\ exists a b,
               events' = events ++ snd (process_delta extractor a b idx)).
Proof.
  intros Hdata. cbn [infer_loop]. rewrite Hdata.
  destruct (type_is l "snapshot") eqn:T.
  - eexists _, _, _. split; [intros rest; reflexivity|].
    split; [trivial|]. left. now split.
  - destruct (process_delta extractor _ _ idx) as [s evs] eqn:E.
    assert (Hlast : last_mid_price s = last_mid_price extractor).
    { change s with (fst (s, evs)). rewrite <- E.
      apply process_delta_last_mid_price. }
    rewrite Hlast.
    destruct (infer_changed (last_mid_price extractor) (_mid_price s)) eqn:G.
    + eexists _, _, _. split; [intros rest; reflexivity|].
      change (_mid_price (with_last_mid_price s (Some (_mid_price s))))
        with (_mid_price s).
      split; [intros _; now rewrite last_recorded_snoc|].
      right. split; [reflexivity|]. split; [exact G|]. split; [reflexivity|].
      eexists _, _. change evs with (snd (s, evs)). now rewrite <- E.
    + eexists _, _, _. split; [intros rest; reflexivity|].
      split; [intros H; now rewrite Hlast|]. left. now split.
Qed.

Lemma each_differs_snoc (ms : list float) (m : float) :
  each_differs ms = true ->
  opt_ne (last_recorded ms) m = true ->
  each_differs (ms ++ [m]) = true.
Proof.
  induction ms as [|a ms IH]; [reflexivity|].
  destruct ms as [|b ms].
  - intros _. unfold last_recorded. cbn. intros ->. reflexivity.
  - intros H. cbn [each_differs] in H. apply andb_prop in H.
    destruct H as [Hab Hrest].
    intros Hlast. cbn [app each_differs]. rewrite Hab. cbn [andb].
    apply IH; [exact Hrest|].
    revert Hlast. unfold last_recorded. cbn [rev].
    destruct (rev ms ++ [b]) eqn:E; [now destruct (rev ms)|].
    cbn [app]. trivial.
Qed.

Lemma infer_changed_opt_ne (last : option float) (mid : float) :
  infer_changed last mid = true -> opt_ne last mid = true.
Proof. unfold infer_changed. now destruct last. Qed.

Lemma infer_loop_each_differs (lines : list Message) :
  forall extractor idx events mid_prices evs mids,
    last_mid_price extractor = last_recorded mid_prices ->
    each_differs mid_prices = true ->
    infer_loop extractor idx events mid_prices lines = inr (evs, mids) ->
    each_differs mids = true.
Proof.
  induction lines as [|l rest IH];
    intros extractor idx events mid_prices evs mids Hlast Hdiff.
  - cbn [infer_loop]. now intros [= _ <-].
  - destruct (msg_data l) as [data|] eqn:D;
      [|cbn [infer_loop]; rewrite D; discriminate].
    destruct (infer_loop_cons extractor idx events mid_prices l data D)
      as (s' & ev' & ms' & E & Hs' & Hround).
    rewrite E. apply IH; [now apply Hs'|].
    destruct Hround as [(_ & ->)|(T & G & -> & _)]; [exact Hdiff|].
    apply each_differs_snoc; [exact Hdiff|].
    rewrite <- Hlast. now apply infer_changed_opt_ne.
Qed.

Lemma each_differs_nth (ms : list float) :
  each_differs ms = true ->
  forall i a b,
    nth_error ms i = Some a -> nth_error ms (S i) = Some b ->
    Py.ne a b = true.
Proof.
  induction ms as [|x ms IH]; intros H i a b; [now destruct i|].
  destruct ms as [|y ms]; [now destruct i as [|[|i]]|].
  cbn [each_differs] in H. apply andb_prop in H. destruct H as [Hxy Hrest].
  destruct i as [|i].
  - cbn. now intros [= <-] [= <-].
  - intros Ha Hb. exact (IH Hrest i a b Ha Hb).
Qed.

(** X16. In the mid-price trace that [infer_events_from_lines] returns,
    each entry is [!=] to the entry before it: a mid-price that is a number
    is never recorded twice in a row.  (A NaN, which is [!=] to itself, can
    be: two deltas that leave a side empty record it twice.) *)
Theorem infer_events_mid_prices_differ (lines : list Message)
    (evs : list LOBEvent) (mids : list float) :
  infer_events_from_lines lines = inr (evs, mids) ->
  each_differs mids = true
  /\ forall i a b,
      nth_error mids i = Some a -> nth_error mids (S i) = Some b ->
      Py.eq a b = false /\ (Py.isnan a = false -> a <> b).
Proof.
  intros H.
  assert (Hd : each_differs mids = true)
    by (revert H; apply infer_loop_each_differs; reflexivity).
  split; [exact Hd|]. intros i a b Ha Hb.
  pose proof (each_differs_nth mids Hd i a b Ha Hb) as Hne.
  unfold Py.ne in Hne. apply negb_true_iff in Hne.
  split; [exact Hne|]. intros Hnan <-.
  change (Py.eq a a = false) in Hne. now rewrite py_eq_refl in Hne.
Qed.

Lemma infer_events_mid_prices_differ_witness :
  (exists evs,
      infer_events_from_lines
        [snapshot_A; delta_bid_deep; delta_best_ask_gone; delta_bid_deep]
      = inr (evs, [100.5; 101]%float))
  /\ Py.eq 100.5 101 = false
  /\ (exists evs,
         infer_events_from_lines [delta_ask_101; delta_ask_102]
         = inr (evs, [Py.nan; Py.nan]))
  /\ each_differs [Py.nan; Py.nan] = true.
Proof.
  split; [eexists; reflexivity|]. split.
  - apply (proj2 (infer_events_mid_prices_differ
                    [snapshot_A; delta_bid_deep; delta_best_ask_gone;
                     delta_bid_deep] _ [100.5; 101]%float eq_refl)
                 0%nat 100.5%float 101%float); reflexivity.
  - split; [eexists; reflexivity|].
    exact (proj1 (infer_events_mid_prices_differ
                    [delta_ask_101; delta_ask_102] _ [Py.nan; Py.nan]
                    eq_refl)).
Defined.

Lemma process_delta_event_index (s : LOBEventExtractor)
    (asks_rows bids_rows : rows) (idx : Z) :
  Forall (fun e => index e = idx)
         (snd (process_delta s asks_rows bids_rows idx)).
Proof.
  rewrite process_delta_updates. cbn [snd].
  pose proof (delta_updates_events s asks_rows bids_rows idx) as Hev.
  rewrite Forall_forall in *. intros e He.
  apply in_concat in He. destruct He as (l & Hl & He).
  apply in_map_iff in Hl. destruct Hl as (u & <- & Hu).
  destruct (Hev u Hu) as [E|(e' & E & _ & Hi & _)]; rewrite E in He;
    [destruct He|].
  now destruct He as [<-|[]].
Qed.

Lemma infer_loop_indices (lines : list Message) :
  forall extractor idx events mid_prices evs mids,
    infer_loop extractor idx events mid_prices lines = inr (evs, mids) ->
    exists new,
      evs = events ++ new
      /\ Forall (fun e =>
                   idx <= index e < idx + Z.of_nat (length lines)
                   /\ exists l,
                       nth_error lines (Z.to_nat (index e - idx)) = Some l
                       /\ type_is l "snapshot" = false)
                new.
Proof.
  induction lines as [|l rest IH];
    intros extractor idx events mid_prices evs mids.
  - cbn [infer_loop]. intros [= <- _]. exists []. now rewrite app_nil_r.
  - destruct (msg_data l) as [data|] eqn:D;
      [|cbn [infer_loop]; rewrite D; discriminate].
    destruct (infer_loop_cons extractor idx events mid_prices l data D)
      as (s' & ev' & ms' & E & _ & Hround).
    rewrite E. intros H. destruct (IH _ _ _ _ _ _ H) as (new & -> & Hnew).
    assert (Hshift : Forall (fun e =>
                   idx <= index e < idx + Z.of_nat (length (l :: rest))
                   /\ exists l0,
                       nth_error (l :: rest) (Z.to_nat (index e - idx)) = Some l0
                       /\ type_is l0 "snapshot" = false) new).
    { eapply Forall_impl; [|exact Hnew]. cbn beta.
      intros e (Hr & l0 & Hn & Ht). cbn [length]. split; [lia|].
      exists l0. split; [|exact Ht].
      replace (Z.to_nat (index e - idx))
        with (S (Z.to_nat (index e - (idx + 1)))) by lia.
      exact Hn. }
    destruct Hround as [(-> & _)|(T & _ & _ & a & b & ->)].
    + exists new. split; [reflexivity|exact Hshift].
    + exists (snd (process_delta extractor a b idx) ++ new).
      split; [now rewrite app_assoc|].
      apply Forall_app. split; [|exact Hshift].
      eapply Forall_impl; [|apply process_delta_event_index].
      cbn beta. intros e ->. cbn [length]. split; [lia|].
      exists l. rewrite Z.sub_diag. split; [reflexivity|exact T].
Qed.

(** X17. Every event that [infer_events_from_lines] returns carries as its
    index the 0-based position of a line of the input, and that line is not
    a snapshot. *)
Theorem infer_events_indices (lines : list Message)
    (evs : list LOBEvent) (mids : list float) :
  infer_events_from_lines lines = inr (evs, mids) ->
  Forall (fun e =>
            0 <= index e < Z.of_nat (length lines)
            /\ exists l,
                nth_error lines (Z.to_nat (index e)) = Some l
                /\ type_is l "snapshot" = false)
         evs.
Proof.
  intros H. destruct (infer_loop_indices _ _ _ _ _ _ _ H) as (new & -> & Hnew).
  cbn [app]. eapply Forall_impl; [|exact Hnew]. cbn beta.
  intros e (Hr & l & Hn & Ht). split; [lia|].
  exists l. now rewrite Z.sub_0_r in Hn.
Qed.

Lemma infer_events_indices_witness :
  exists evs,
    infer_events_from_lines [snapshot_A; delta_bid_deep; delta_best_ask_gone]
    = inr (evs, [100.5; 101]%float)
    /\ map index evs = [1; 2]
    /\ Forall (fun e =>
                 0 <= index e < 3
                 /\ exists l,
                     nth_error [snapshot_A; delta_bid_deep; delta_best_ask_gone]
                               (Z.to_nat (index e)) = Some l
                     /\ type_is l "snapshot" = false)
              evs.
Proof.
  eexists. split; [reflexivity|]. split; [reflexivity|].
  apply (infer_events_indices
           [snapshot_A; delta_bid_deep; delta_best_ask_gone] _ [100.5; 101]%float).
  reflexivity.
Defined.




(** ** The threshold as a filter *)

Lemma classify_with_max_depth (side : Side) (idx : Z) (s : LOBEventExtractor)
    (k : Z) (p vol : float) :
  k <= max_depth s ->
  classify side idx (with_max_depth s k) p vol
  = filter (shallower k) (classify side idx s p vol).
Proof.
  intros Hk. unfold classify.
  change (book (with_max_depth s k) side) with (book s side).
  change (snd (_depth_of_price (with_max_depth s k) p side))
    with (snd (_depth_of_price s p side)).
  change (_mid_price (with_max_depth s k)) with (_mid_price s).
  change (max_depth (with_max_depth s k)) with k.
  destruct (Z.ltb_spec (snd (_depth_of_price s p side)) k) as [H1|H1];
    destruct (Z.ltb_spec (snd (_depth_of_price s p side)) (max_depth s))
      as [H2|H2]; try lia; try reflexivity.
  - assert (E : (snd (_depth_of_price s p side) <? k) = true)
      by now apply Z.ltb_lt.
    destruct (Py.eq vol 0);
      [|destruct (Py.gt _ 0); [|destruct (Py.lt _ 0); [|reflexivity]]];
      cbn [filter]; unfold shallower; cbn [depth]; now rewrite E.
  - assert (E : (snd (_depth_of_price s p side) <? k) = false)
      by now apply Z.ltb_ge.
    destruct (Py.eq vol 0);
      [|destruct (Py.gt _ 0); [|destruct (Py.lt _ 0); [|reflexivity]]];
      cbn [filter]; unfold shallower; cbn [depth]; now rewrite E.
Qed.

Lemma with_book_with_max_depth (side : Side) (s : LOBEventExtractor) (k : Z)
    (d : dict) :
  with_book side (_ensure_sorted (with_max_depth s k)) d
  = with_max_depth (with_book side (_ensure_sorted s) d) k.
Proof. now destruct side. Qed.

Lemma fold_step_with_max_depth (side : Side) (idx : Z) (k : Z) (rs : rows) :
  forall s events,
    k <= max_depth s ->
    fold_left (step side idx) rs (with_max_depth s k, filter (shallower k) events)
    = (with_max_depth (fst (fold_left (step side idx) rs (s, events))) k,
       filter (shallower k) (snd (fold_left (step side idx) rs (s, events)))).
Proof.
  induction rs as [|[p vol] rest IH]; intros s events Hk; [reflexivity|].
  cbn [fold_left]. rewrite !step_spec.
  change (book (with_max_depth s k) side) with (book s side).
  rewrite with_book_with_max_depth, classify_with_max_depth by exact Hk.
  rewrite <- filter_app. apply IH.
  now rewrite max_depth_with_book.
Qed.

(** X19. The threshold only filters the output.  Lowering [max_depth] to
    [k] and processing the same delta returns exactly the events of the
    original run whose depth is [< k], in the same order, and leaves the
    same books. *)
Theorem max_depth_filters_events (s : LOBEventExtractor) (k : Z)
    (asks_rows bids_rows : rows) (idx : Z) :
  k <= max_depth s ->
  snd (process_delta (with_max_depth s k) asks_rows bids_rows idx)
  = filter (shallower k) (snd (process_delta s asks_rows bids_rows idx))
  /\ asks (fst (process_delta (with_max_depth s k) asks_rows bids_rows idx))
     = asks (fst (process_delta s asks_rows bids_rows idx))
  /\ bids (fst (process_delta (with_max_depth s k) asks_rows bids_rows idx))
     = bids (fst (process_delta s asks_rows bids_rows idx)).
Proof.
  intros Hk. unfold process_delta.
  change (ask_step idx) with (step Ask idx).
  change (bid_step idx) with (step Bid idx).
  change (with_max_depth s k, @nil LOBEvent)
    with (with_max_depth s k, filter (shallower k) (@nil LOBEvent)).
  rewrite (fold_step_with_max_depth Ask idx k asks_rows s [] Hk).
  destruct (fold_left (step Ask idx) asks_rows (s, [])) as [s1 ev1] eqn:E1.
  cbn [fst snd].
  assert (Hk1 : k <= max_depth s1).
  { change s1 with (fst (s1, ev1)). rewrite <- E1.
    rewrite fold_step. cbn [fst].
    pose proof (updates_from_chain Ask idx asks_rows s) as Hch.
    now rewrite (proj1 (chain_max_depth _ _ _ Hch)). }
  rewrite (fold_step_with_max_depth Bid idx k bids_rows s1 ev1 Hk1).
  destruct (fold_left (step Bid idx) bids_rows (s1, ev1)) as [s2 ev2].
  cbn [fst snd]. now repeat split.
Qed.

Lemma max_depth_filters_events_witness :
  map depth (snd (process_delta book_A [(102, 7); (101, 0)]%float
                                [(99, 6); (100, 1)]%float 3))
  = [1; 0; 1; 0]
  /\ map depth (snd (process_delta (with_max_depth book_A 1)
                                   [(102, 7); (101, 0)]%float
                                   [(99, 6); (100, 1)]%float 3))
     = [0; 0]
  /\ snd (process_delta (with_max_depth book_A 1)
                        [(102, 7); (101, 0)]%float [(99, 6); (100, 1)]%float 3)
     = filter (shallower 1)
              (snd (process_delta book_A [(102, 7); (101, 0)]%float
                                  [(99, 6); (100, 1)]%float 3)).
Proof.
  split; [reflexivity|]. split; [reflexivity|].
  apply (max_depth_filters_events book_A 1
           [(102, 7); (101, 0)]%float [(99, 6); (100, 1)]%float 3).
  vm_compute. discriminate.
Defined.

(** ** Invariants of the extractor *)

(** X20. The cached views are never stale between two calls: for every
    extractor built through the class (construction, snapshots, deltas,
    depth queries, the drivers' update of [last_mid_price]), each cached
    view is absent or is the sorted prices of the current book, and
    [_depth_of_price] ranks in the sorted prices of the current book. *)
Theorem api_keeps_cache_sound (s : LOBEventExtractor) :
  reachable s ->
  cache_ok s
  /\ forall side x,
      snd (_depth_of_price s x side)
      = Z.of_nat (rank (fresh_view s side) side x).
Proof.
  intros H. destruct (reachable_invariants s H) as [Hok _].
  split; [exact Hok|]. intros side x.
  rewrite depth_of_price_rank. cbn [snd]. now rewrite cache_ok_view.
Qed.

(** After the snapshot of scenario A, a depth query, and a delta that
    removes the best ask, the level 102 is ranked first. *)
Lemma api_keeps_cache_sound_witness :
  snd (_depth_of_price
         (fst (process_delta (fst (_depth_of_price book_A 102 Ask))
                             [(101, 0)]%float [] 1))
         102 Ask)
  = 0.
Proof.
  rewrite (proj2 (api_keeps_cache_sound
                    (fst (process_delta (fst (_depth_of_price book_A 102 Ask))
                                        [(101, 0)]%float [] 1))
                    (reach_delta _ _ _ _
                       (reach_depth _ _ _
                          (reach_snapshot _ _ _ (reach_init 50)))))).
  reflexivity.
Defined.

(** X21. [process_delta] never stores a zero volume: when no level of the
    books is stored with a volume [== 0] before a delta, none is after it,
    whatever the rows. *)
Theorem process_delta_keeps_volumes_nonzero (self : LOBEventExtractor)
    (asks_rows bids_rows : rows) (idx : Z) :
  no_zero_volume (asks self) = true ->
  no_zero_volume (bids self) = true ->
  no_zero_volume (asks (fst (process_delta self asks_rows bids_rows idx)))
  = true
  /\ no_zero_volume (bids (fst (process_delta self asks_rows bids_rows idx)))
     = true.
Proof.
  intros Ha Hb.
  exact (process_delta_no_zero_volume self asks_rows bids_rows idx
           (conj Ha Hb)).
Qed.

Lemma process_delta_keeps_volumes_nonzero_witness :
  no_zero_volume
    (asks (fst (process_delta book_A [(101, 0); (103, 2); (102, -0)]%float
                              [(100, 0)]%float 1))) = true
  /\ no_zero_volume
       (bids (fst (process_delta book_A [(101, 0); (103, 2); (102, -0)]%float
                                 [(100, 0)]%float 1))) = true.
Proof.
  apply (process_delta_keeps_volumes_nonzero book_A
           [(101, 0); (103, 2); (102, -0)]%float [(100, 0)]%float 1);
    reflexivity.
Defined.

Lemma ensure_sorted_invalidate (s : LOBEventExtractor) :
  cache_ok s -> _ensure_sorted (_invalidate_sorted s) = _ensure_sorted s.
Proof.
  intros [[Ha|Ha] [Hb|Hb]]; unfold _ensure_sorted, _invalidate_sorted;
    cbn [_sorted_asks _sorted_bids asks bids max_depth last_mid_price];
    rewrite Ha, Hb; reflexivity.
Qed.

Lemma step_invalidate_sorted (side : Side) (idx : Z) (s : LOBEventExtractor)
    (events : list LOBEvent) (row : float * float) :
  cache_ok s ->
  step side idx (_invalidate_sorted s, events) row
  = step side idx (s, events) row.
Proof.
  intros Hok. destruct row as [p vol]. rewrite !step_spec.
  rewrite (ensure_sorted_invalidate s Hok), book_invalidate_sorted.
  unfold classify. rewrite book_invalidate_sorted, !depth_of_price_rank.
  cbn [snd]. now rewrite (ensure_sorted_invalidate s Hok).
Qed.

(** X22. The cache is only a cache: with cached views that are absent or
    sound, [process_delta] and [_depth_of_price] give the same events, the
    same depth and the same extractor as they give after the cache has been
    dropped. *)
Theorem cache_does_not_change_results (s : LOBEventExtractor)
    (asks_rows bids_rows : rows) (idx : Z) (x : float) (side : Side) :
  cache_ok s ->
  process_delta (_invalidate_sorted s) asks_rows bids_rows idx
  = process_delta s asks_rows bids_rows idx
  /\ _depth_of_price (_invalidate_sorted s) x side = _depth_of_price s x side.
Proof.
  intros Hok. split.
  - unfold process_delta.
    change (ask_step idx) with (step Ask idx).
    change (bid_step idx) with (step Bid idx).
    destruct asks_rows as [|ra asks_rows].
    + destruct bids_rows as [|rb bids_rows]; [reflexivity|].
      cbn [fold_left]. now rewrite step_invalidate_sorted.
    + cbn [fold_left]. now rewrite step_invalidate_sorted.
  - rewrite !depth_of_price_rank. now rewrite ensure_sorted_invalidate.
Qed.

Lemma cache_does_not_change_results_witness :
  process_delta (_invalidate_sorted (fst (_depth_of_price book_A 102 Ask)))
                [(101, 0); (102, 6)]%float [] 5
  = process_delta (fst (_depth_of_price book_A 102 Ask))
                  [(101, 0); (102, 6)]%float [] 5
  /\ _depth_of_price (_invalidate_sorted (fst (_depth_of_price book_A 102 Ask)))
                     102 Ask
     = _depth_of_price (fst (_depth_of_price book_A 102 Ask)) 102 Ask.
Proof.
  apply (cache_does_not_change_results (fst (_depth_of_price book_A 102 Ask))).
  split; right; reflexivity.
Defined.

(** * The drivers on JSON values *)

Section JsonFacts.

Variable float_of_str : string -> option float.

Lemma delta_loop_json_rows (side : Side) (idx : Z) (items : list json) :
  forall acc,
    delta_loop_json float_of_str side idx acc items
    = bind (rows_of_items float_of_str items)
           (fun rs => inr (fold_left (step side idx) rs acc)).
Proof.
  induction items as [|row rest IH]; intros acc; [reflexivity|].
  cbn [delta_loop_json rows_of_items].
  destruct (row_of_json float_of_str row) as [e|r]; [reflexivity|].
  cbn [bind]. rewrite IH.
  now destruct (rows_of_items float_of_str rest).
Qed.

(** [process_delta] on JSON values raises what the first bad row raises,
    the ask rows coming first, and is [process_delta] on the float rows
    otherwise. *)
Lemma process_delta_json_rows (self : LOBEventExtractor) (a b : json)
    (idx : Z) :
  process_delta_json float_of_str self a b idx
  = bind (rows_of_json float_of_str a) (fun ra =>
    bind (rows_of_json float_of_str b) (fun rb =>
    inr (process_delta self ra rb idx))).
Proof.
  unfold process_delta_json, rows_of_json, process_delta.
  change (ask_step idx) with (step Ask idx).
  change (bid_step idx) with (step Bid idx).
  destruct (py_iter a) as [e|items_a]; [reflexivity|]. cbn [bind].
  rewrite delta_loop_json_rows.
  destruct (rows_of_items float_of_str items_a) as [e|ra]; [reflexivity|].
  cbn [bind].
  destruct (py_iter b) as [e|items_b]; [reflexivity|]. cbn [bind].
  rewrite delta_loop_json_rows.
  destruct (rows_of_items float_of_str items_b) as [e|rb]; [reflexivity|].
  cbn [bind].
  now destruct (fold_left (step Bid idx) rb _).
Qed.





(** Numbers, rows and data in the documented format convert without an
    exception. *)
Lemma plain_number_float (x : json) :
  plain_number x = true -> exists f, py_float float_of_str x = inr f.
Proof.
  destruct x as [|b|n|f|s|items|entries]; try discriminate; cbn.
  - intros _. now eexists.
  - destruct (float_of_Z n); [|discriminate]. intros _. now eexists.
  - intros _. now eexists.
Qed.

Lemma plain_row_converts (x : json) :
  plain_row x = true -> exists r, row_of_json float_of_str x = inr r.
Proof.
  destruct x as [|b|n|f|s|items|entries]; try discriminate.
  destruct items as [|p [|v [|w rest]]]; try discriminate.
  cbn [plain_row]. intros H. apply andb_prop in H. destruct H as [Hp Hv].
  destruct (plain_number_float p Hp) as [fp Ep].
  destruct (plain_number_float v Hv) as [fv Ev].
  exists (fp, fv). unfold row_of_json. cbn [py_unpack2 py_iter bind fst snd].
  now rewrite Ep, Ev.
Qed.

Lemma plain_items_convert (items : list json) :
  forallb plain_row items = true ->
  exists rs, rows_of_items float_of_str items = inr rs.
Proof.
  induction items as [|row rest IH]; [now eexists|].
  cbn [forallb]. intros H. apply andb_prop in H. destruct H as [Hr Hrest].
  destruct (plain_row_converts row Hr) as [r Er].
  destruct (IH Hrest) as [rs Ers].
  exists (r :: rs). cbn [rows_of_items]. now rewrite Er, Ers.
Qed.

Lemma plain_rows_at_convert (entries : list (string * json)) (key : string) :
  plain_rows_at entries key = true ->
  exists x rs,
    py_get (JDict entries) key (JList []) = inr x
    /\ rows_of_json float_of_str x = inr rs.
Proof.
  unfold plain_rows_at, py_get.
  destruct (json_lookup entries key) as [x|].
  - destruct x as [|b|n|f|s|items|es]; try discriminate.
    cbn [plain_rows]. intros H.
    destruct (plain_items_convert items H) as [rs E].
    now exists (JList items), rs.
  - intros _. now exists (JList []), [].
Qed.

(** On data in the documented format both methods run to their end. *)
Lemma plain_data_runs (data : json) (self : LOBEventExtractor) (idx : Z) :
  plain_data data = true ->
  exists a b ra rb,
    py_get data "a" (JList []) = inr a
    /\ py_get data "b" (JList []) = inr b
    /\ process_snapshot_json float_of_str self a b
       = inr (process_snapshot self ra rb)
    /\ process_delta_json float_of_str self a b idx
       = inr (process_delta self ra rb idx).
Proof.
  destruct data as [|b|n|f|s|items|entries]; try discriminate.
  cbn [plain_data]. intros H. apply andb_prop in H. destruct H as [Ha Hb].
  destruct (plain_rows_at_convert entries "a" Ha) as (a & ra & Ea & Era).
  destruct (plain_rows_at_convert entries "b" Hb) as (b & rb & Eb & Erb).
  exists a, b, ra, rb. split; [exact Ea|]. split; [exact Eb|].
  rewrite process_delta_json_rows. unfold process_snapshot_json.
  rewrite Era, Erb. now split.
Qed.



End JsonFacts.



Section JsonInfer.

Variable float_of_str : string -> option float.

Lemma plain_infer_line_applies (l : json) (extractor : LOBEventExtractor)
    (idx : Z) :
  plain_infer_line l = true ->
  exists r, infer_apply float_of_str extractor idx l = inr r.
Proof.
  destruct l as [|b|n|f|s|items|entries]; try discriminate.
  cbn [plain_infer_line]. unfold infer_apply. cbn [py_get py_getitem bind].
  destruct (json_lookup entries "data") as [data|]; [|discriminate].
  intros H. cbn [bind].
  destruct (plain_data_runs float_of_str data extractor idx H)
    as (a & b & ra & rb & Ea & Eb & Es & Ed).
  destruct (json_is_str _ "snapshot");
    rewrite Ea; cbn [bind]; rewrite Eb; cbn [bind];
    rewrite ?Es, ?Ed; cbn [bind]; now eexists.
Qed.

(** The loop of [infer_events_from_lines] gets through lines in the
    documented format. *)
Lemma infer_json_loop_plain (pre : list json) :
  Forall (fun x => plain_infer_line x = true) pre ->
  forall extractor idx events mid_prices,
  exists extractor' idx' events' mid_prices',
    forall rest,
      infer_json_loop float_of_str extractor idx events mid_prices
                      (pre ++ rest)
      = infer_json_loop float_of_str extractor' idx' events' mid_prices' rest.
Proof.
  induction 1 as [|l pre Hl _ IH]; intros extractor idx events mid_prices.
  - now exists extractor, idx, events, mid_prices.
  - destruct (plain_infer_line_applies l extractor idx Hl) as [[s [evs|]] E].
    + destruct (infer_changed (last_mid_price s) (_mid_price s)) eqn:G.
      * destruct (IH (with_last_mid_price s (Some (_mid_price s))) (idx + 1)
                     (events ++ evs) (mid_prices ++ [_mid_price s]))
          as (s' & i' & ev' & ms' & H').
        exists s', i', ev', ms'. intros rest.
        cbn [app infer_json_loop]. now rewrite E, G.
      * destruct (IH s (idx + 1) events mid_prices)
          as (s' & i' & ev' & ms' & H').
        exists s', i', ev', ms'. intros rest.
        cbn [app infer_json_loop]. now rewrite E, G.
    + destruct (IH s (idx + 1) events mid_prices)
        as (s' & i' & ev' & ms' & H').
      exists s', i', ev', ms'. intros rest.
      cbn [app infer_json_loop]. now rewrite E.
Qed.

(** X15. [infer_events_from_lines] returns a pair of lists when every line
    is a message object with a ["data"] entry in the documented format.
    After lines of that kind, a line that is an object without a ["data"]
    entry (snapshot or not) makes it raise [KeyError], and a line that is
    not an object makes it raise [AttributeError]. *)
Theorem infer_events_first_bad_line (pre : list json) (l : json)
    (post : list json) :
  Forall (fun x => plain_infer_line x = true) pre ->
  (forall entries,
      l = JDict entries -> json_lookup entries "data" = None ->
      infer_events_from_lines_json float_of_str (pre ++ l :: post)
      = inl Py.KeyError)
  /\ (match l with JDict _ => False | _ => True end ->
      infer_events_from_lines_json float_of_str (pre ++ l :: post)
      = inl Py.AttributeError)
  /\ (exists evs mids,
         infer_events_from_lines_json float_of_str pre = inr (evs, mids)).
Proof.
  intros Hpre. unfold infer_events_from_lines_json.
  destruct (infer_json_loop_plain pre Hpre (init default_max_depth) 0 [] [])
    as (s & i & ev & ms & H).
  split; [|split].
  - intros entries -> Hdata. rewrite H.
    cbn [infer_json_loop]. unfold infer_apply.
    cbn [py_get py_getitem bind]. rewrite Hdata.
    now destruct (json_is_str _ "snapshot").
  - intros Hl. rewrite H. cbn [infer_json_loop]. unfold infer_apply.
    destruct l; try reflexivity. destruct Hl.
  - exists ev, ms. specialize (H []). rewrite app_nil_r in H. now rewrite H.
Qed.

End JsonInfer.

Lemma infer_events_first_bad_line_witness :
  infer_events_from_lines_json no_numeral
    ([json_snapshot_A; json_delta_ask_gone] ++ [json_delta_no_data])
  = inl Py.KeyError
  /\ infer_events_from_lines_json no_numeral
       ([json_snapshot_A; json_delta_ask_gone] ++ [JList []; json_snapshot_A])
     = inl Py.AttributeError
  /\ exists evs mids,
      infer_events_from_lines_json no_numeral
        [json_snapshot_A; json_delta_ask_gone]
      = inr (evs, mids).
Proof.
  assert (Hpre : Forall (fun x => plain_infer_line x = true)
                        [json_snapshot_A; json_delta_ask_gone])
    by (repeat constructor).
  split; [|split].
  - exact (proj1 (infer_events_first_bad_line no_numeral _ json_delta_no_data []
                    Hpre) _ eq_refl eq_refl).
  - exact (proj1 (proj2 (infer_events_first_bad_line no_numeral _ (JList [])
                           [json_snapshot_A] Hpre)) I).
  - exact (proj2 (proj2 (infer_events_first_bad_line no_numeral _ JNull []
                           Hpre))).
Defined.

(** ** The drivers on typed lines are the drivers on JSON values

    On the JSON value of a typed line no call, iteration, unpacking or
    conversion raises, and the drivers on JSON values do what the drivers on
    typed lines do. *)

Section JsonTyped.

Variable float_of_str : string -> option float.

Lemma rows_of_json_of_rows (rs : rows) :
  rows_of_json float_of_str (json_of_rows rs) = inr rs.
Proof.
  unfold rows_of_json, json_of_rows. cbn [py_iter bind].
  induction rs as [|[p v] rs IH]; [reflexivity|].
  cbn [map rows_of_items]. unfold row_of_json at 1.
  cbn [py_unpack2 py_iter bind py_float fst snd]. now rewrite IH.
Qed.

Lemma py_get_type_of_message (l : Message) :
  py_get (json_of_message l) "type" JNull
  = inr (match msg_type l with Some t => JStr t | None => JNull end).
Proof. now destruct l as [[t|] [d|]]. Qed.

Lemma json_is_str_type (l : Message) (name : string) :
  json_is_str (match msg_type l with Some t => JStr t | None => JNull end) name
  = type_is l name.
Proof. unfold type_is. now destruct (msg_type l). Qed.

Lemma py_get_data_of_message (l : Message) :
  py_get (json_of_message l) "data" (JDict [])
  = inr (json_of_data (get_data (msg_data l))).
Proof. now destruct l as [[t|] [d|]]. Qed.

Lemma py_getitem_data_of_message (l : Message) :
  py_getitem (json_of_message l) "data"
  = match msg_data l with
    | Some d => inr (json_of_data d)
    | None => inl Py.KeyError
    end.
Proof. now destruct l as [[t|] [d|]]. Qed.

Lemma py_get_a_of_data (d : Data) :
  py_get (json_of_data d) "a" (JList [])
  = inr (json_of_rows (get_rows (data_a d))).
Proof. now destruct d as [[ra|] [rb|]]. Qed.

Lemma py_get_b_of_data (d : Data) :
  py_get (json_of_data d) "b" (JList [])
  = inr (json_of_rows (get_rows (data_b d))).
Proof. now destruct d as [[ra|] [rb|]]. Qed.

Lemma process_snapshot_json_of_rows (self : LOBEventExtractor) (ra rb : rows) :
  process_snapshot_json float_of_str self (json_of_rows ra) (json_of_rows rb)
  = inr (process_snapshot self ra rb).
Proof.
  unfold process_snapshot_json. now rewrite !rows_of_json_of_rows.
Qed.

Lemma process_delta_json_of_rows (self : LOBEventExtractor) (ra rb : rows)
    (idx : Z) :
  process_delta_json float_of_str self (json_of_rows ra) (json_of_rows rb) idx
  = inr (process_delta self ra rb idx).
Proof.
  rewrite process_delta_json_rows. now rewrite !rows_of_json_of_rows.
Qed.

(** [parse_file] on the JSON values of typed lines. *)
Lemma parse_file_json_of_messages (lines : list Message) (max_depth : Z) :
  parse_file_json float_of_str (map json_of_message lines) max_depth
  = parse_file lines max_depth.
Proof.
  unfold parse_file_json, parse_file.
  generalize (init max_depth) as extractor. generalize 0 as idx.
  induction lines as [|l rest IH]; intros idx extractor; [reflexivity|].
  cbn [map parse_file_json_loop parse_file_loop].
  unfold parse_file_apply.
  rewrite py_get_type_of_message. cbn [bind].
  rewrite !json_is_str_type, py_get_data_of_message. cbn [bind].
  rewrite py_get_a_of_data, py_get_b_of_data. cbn [bind].
  rewrite process_snapshot_json_of_rows, process_delta_json_of_rows.
  cbn [bind].
  destruct (type_is l "snapshot").
  - destruct (parse_file_changed _ _) as [e|[|]]; [reflexivity| |apply IH].
    now rewrite IH.
  - destruct (type_is l "delta").
    + destruct (process_delta _ _ _ _) as [extractor' evs].
      destruct (parse_file_changed _ _) as [e|[|]]; [reflexivity| |apply IH].
      now rewrite IH.
    + destruct (parse_file_changed _ _) as [e|[|]]; [reflexivity| |apply IH].
      now rewrite IH.
Qed.

(** [infer_events_from_lines] on the JSON values of typed lines. *)
Lemma infer_events_json_of_messages (lines : list Message) :
  infer_events_from_lines_json float_of_str (map json_of_message lines)
  = infer_events_from_lines lines.
Proof.
  unfold infer_events_from_lines_json, infer_events_from_lines.
  generalize (init default_max_depth) as extractor. generalize 0 as idx.
  generalize (@nil LOBEvent) as events. generalize (@nil float) as mids.
  induction lines as [|l rest IH]; intros mids events idx extractor;
    [reflexivity|].
  cbn [map infer_json_loop infer_loop].
  unfold infer_apply.
  rewrite py_get_type_of_message. cbn [bind].
  rewrite json_is_str_type, py_getitem_data_of_message.
  destruct (msg_data l) as [d|].
  - cbn [bind]. rewrite py_get_a_of_data, py_get_b_of_data. cbn [bind].
    rewrite process_snapshot_json_of_rows, process_delta_json_of_rows.
    cbn [bind fst snd].
    destruct (type_is l "snapshot"); [apply IH|].
    destruct (process_delta _ _ _ _) as [extractor' evs]. cbn [fst snd].
    destruct (infer_changed _ _); apply IH.
  - now destruct (type_is l "snapshot").
Qed.

End JsonTyped.
